(** * ai-pr-reviewer: a shallow embedding of the review pipeline

    The Python sources under [src/] are embedded module by module:
    [ai_analyzer.py] (prompt, HTTP call, reply parsing), [config_manager.py]
    (config loading and merge, focus tags), [github_integration.py] (summary
    and line comments), [repomix_handler.py] (document generation) and the
    publishing step of [main.py].

    Python values are dynamically typed; they are embedded as one inductive
    type [PyVal].  Text is a sequence of Unicode code points.  Exceptions are
    explicit results, and the process state (log, working directory, platform
    calls) is threaded through a small state-and-exception monad. *)

From Stdlib Require Import List NArith ZArith Bool Lia.
From Stdlib Require Import Strings.String Strings.Ascii.
From Stdlib Require DecimalPos.
Import ListNotations.

Set Implicit Arguments.
Set Warnings "-register-all".

(** ** Python text *)

Module Py.

(** A [str] is a sequence of code points. *)
Definition pystr := list N.

(** Source literals are written as Rocq strings, which hold the UTF-8 bytes
    of the literal; [utf8_decode] turns them into code points. *)
Fixpoint utf8_decode (bs : list N) : pystr :=
  match bs with
  | [] => []
  | b :: r =>
      if (b <? 128)%N then b :: utf8_decode r
      else if (b <? 224)%N then
        match r with
        | c1 :: r1 => ((b - 192) * 64 + (c1 - 128))%N :: utf8_decode r1
        | _ => [65533%N]
        end
      else if (b <? 240)%N then
        match r with
        | c1 :: c2 :: r2 =>
            ((b - 224) * 4096 + (c1 - 128) * 64 + (c2 - 128))%N :: utf8_decode r2
        | _ => [65533%N]
        end
      else
        match r with
        | c1 :: c2 :: c3 :: r3 =>
            ((b - 240) * 262144 + (c1 - 128) * 4096 + (c2 - 128) * 64 + (c3 - 128))%N
              :: utf8_decode r3
        | _ => [65533%N]
        end
  end.

Definition py (s : string) : pystr :=
  utf8_decode (map N_of_ascii (list_ascii_of_string s)).

Definition str_eqb (a b : pystr) : bool :=
  if list_eq_dec N.eq_dec a b then true else false.

(** The Unicode character database is not part of the repository.  Python
    consults it for [str.isdigit], [int], [repr] and the regular-expression
    class [\w].  The model fixes the classification of code points below 256
    (ASCII and Latin-1) and takes the rest of the database as a parameter. *)
Class UnicodeData := {
  ucd_decimal : N -> option N;  (* value of a decimal digit (category Nd) *)
  ucd_digit : N -> bool;        (* Numeric_Type is Digit or Decimal *)
  ucd_alnum : N -> bool;        (* str.isalnum on one character *)
  ucd_printable : N -> bool     (* str.isprintable on one character *)
}.

(** [str.isspace] on one character; the set is the same in every Unicode
    version Python supports. *)
Definition is_space (c : N) : bool :=
  ((9 <=? c) && (c <=? 13) || (28 <=? c) && (c <=? 32) || (c =? 133) || (c =? 160)
   || (c =? 5760) || (8192 <=? c) && (c <=? 8202) || (c =? 8232) || (c =? 8233)
   || (c =? 8239) || (c =? 8287) || (c =? 12288))%N.

Definition is_ascii_digit (c : N) : bool := ((48 <=? c) && (c <=? 57))%N.

Definition is_ascii_alpha (c : N) : bool :=
  ((65 <=? c) && (c <=? 90) || (97 <=? c) && (c <=? 122))%N.

Section WithUnicode.
Context {U : UnicodeData}.

(** One character of [str.isdigit]: the ASCII digits, the superscripts
    U+00B2, U+00B3 and U+00B9 of Latin-1, and whatever the database says
    beyond. *)
Definition isdigit_char (c : N) : bool :=
  if (c <? 128)%N then is_ascii_digit c
  else if (c <? 256)%N then ((c =? 178) || (c =? 179) || (c =? 185))%N
  else ucd_digit c.

(** The value [int] gives one character: only decimal digits have one (no
    Latin-1 character beyond ASCII is a decimal digit). *)
Definition decimal_char (c : N) : option N :=
  if (c <? 128)%N then (if is_ascii_digit c then Some (c - 48)%N else None)
  else if (c <? 256)%N then None
  else ucd_decimal c.

(** One character of the regular-expression class [\w] on [str] patterns:
    alphanumeric or underscore. *)
Definition is_word (c : N) : bool :=
  if (c <? 128)%N then is_ascii_digit c || is_ascii_alpha c || (c =? 95)%N
  else if (c <? 256)%N then
    ((c =? 170) || (c =? 178) || (c =? 179) || (c =? 181) || (c =? 185) || (c =? 186)
     || (188 <=? c) && (c <=? 190) || (192 <=? c) && (c <=? 214)
     || (216 <=? c) && (c <=? 246) || (248 <=? c))%N
  else ucd_alnum c.

(** One character of [str.isprintable], as [repr] uses it. *)
Definition is_printable (c : N) : bool :=
  if (c <? 128)%N then ((32 <=? c) && (c <? 127))%N
  else if (c <? 256)%N then ((161 <=? c) && negb (c =? 173))%N
  else ucd_printable c.

(** [s.isdigit()] *)
Definition isdigit (s : pystr) : bool :=
  match s with
  | [] => false
  | _ => forallb isdigit_char s
  end.

End WithUnicode.

(** [s.strip()] *)
Fixpoint lstrip (s : pystr) : pystr :=
  match s with
  | c :: r => if is_space c then lstrip r else s
  | [] => []
  end.

Definition rstrip (s : pystr) : pystr := rev (lstrip (rev s)).

Definition strip (s : pystr) : pystr := rstrip (lstrip s).

(** [s.startswith(p)] *)
Fixpoint startswith (p s : pystr) : bool :=
  match p, s with
  | [], _ => true
  | a :: p', b :: s' => (a =? b)%N && startswith p' s'
  | _ :: _, [] => false
  end.

(** [s.find(needle)]: the lowest index where [needle] occurs, or [-1].
    [find_from] scans the suffix of the text that starts at index [i]. *)
Fixpoint find_from (needle s : pystr) (i : Z) : Z :=
  if startswith needle s then i
  else match s with
       | [] => (-1)%Z
       | _ :: r => find_from needle r (i + 1)
       end.

Definition find (s needle : pystr) : Z := find_from needle s 0.

(** [s.rfind(needle)]: the highest index where [needle] occurs, or [-1]. *)
Fixpoint rfind_from (needle s : pystr) (i : Z) : Z :=
  match s with
  | [] => if startswith needle [] then i else (-1)%Z
  | _ :: r =>
      let later := rfind_from needle r (i + 1) in
      if (later =? -1)%Z then (if startswith needle s then i else (-1)%Z) else later
  end.

Definition rfind (s needle : pystr) : Z := rfind_from needle s 0.

(** [needle in s] on text *)
Definition contains (needle s : pystr) : bool := negb (find s needle =? -1)%Z.

(** [s[a:b]] with Python's treatment of negative and oversized bounds. *)
Definition clamp_index {A} (l : list A) (i : Z) : nat :=
  let n := Z.of_nat (List.length l) in
  let i := if (i <? 0)%Z then (i + n)%Z else i in
  Z.to_nat (Z.max 0 (Z.min i n)).

Definition slice {A} (l : list A) (a b : Z) : list A :=
  let a' := clamp_index l a in
  let b' := clamp_index l b in
  firstn (b' - a') (skipn a' l).

(** [s.split(sep)] for a separator of one character. *)
Fixpoint split (sep : N) (s : pystr) : list pystr :=
  match s with
  | [] => [[]]
  | c :: r =>
      if (c =? sep)%N then [] :: split sep r
      else match split sep r with
           | w :: ws => (c :: w) :: ws
           | [] => [[c]]
           end
  end.

(** [sep.join(parts)] *)
Fixpoint join (sep : pystr) (parts : list pystr) : pystr :=
  match parts with
  | [] => []
  | [p] => p
  | p :: rest => p ++ sep ++ join sep rest
  end.


(** ** Python values

    The values that [json.loads] and [yaml.safe_load] produce.  A [dict] keeps
    its keys in insertion order, which [str] shows, so it is an association
    list; its keys are text.  A [float] is carried as its [repr] text: the
    code under study never computes with one. *)
Inductive PyVal : Type :=
| VNone
| VBool (b : bool)
| VInt (z : Z)
| VFloat (repr_text : pystr)
| VStr (s : pystr)
| VList (items : list PyVal)
| VDict (entries : list (pystr * PyVal)).

Definition PyDict := list (pystr * PyVal).

(** Exceptions: the class and the text [str(e)].  Every class here derives
    from [Exception]. *)
Inductive ExnClass :=
| Exception | ValueError | TypeError | AttributeError | KeyError | IndexError
| JSONDecodeError | OSError | FileNotFoundError | CalledProcessError
| GithubException | TransportError.

Record PyExn := mkExn { exn_class : ExnClass; exn_text : pystr }.

Inductive outcome (A : Type) : Type :=
| Ret (a : A)
| Raise (e : PyExn).
Arguments Ret {A} a.
Arguments Raise {A} e.

(** Decimal text of an integer, as [str] prints it. *)
Fixpoint uint_text (u : Decimal.uint) : pystr :=
  match u with
  | Decimal.Nil => []
  | Decimal.D0 r => 48%N :: uint_text r
  | Decimal.D1 r => 49%N :: uint_text r
  | Decimal.D2 r => 50%N :: uint_text r
  | Decimal.D3 r => 51%N :: uint_text r
  | Decimal.D4 r => 52%N :: uint_text r
  | Decimal.D5 r => 53%N :: uint_text r
  | Decimal.D6 r => 54%N :: uint_text r
  | Decimal.D7 r => 55%N :: uint_text r
  | Decimal.D8 r => 56%N :: uint_text r
  | Decimal.D9 r => 57%N :: uint_text r
  end.

Definition int_text (z : Z) : pystr :=
  match Z.to_int z with
  | Decimal.Pos u => uint_text u
  | Decimal.Neg u => 45%N :: uint_text u
  end.

Definition hex_digit (d : N) : N := if (d <? 10)%N then (48 + d)%N else (87 + d)%N.

Fixpoint hex_fixed (width : nat) (n : N) : pystr :=
  match width with
  | O => []
  | S w => hex_fixed w (n / 16) ++ [hex_digit (n mod 16)]
  end.

Section WithUnicode.
Context {U : UnicodeData}.

(** [repr] of text: the quote is a double quote only when the text holds a
    single quote and no double quote; the quote, the backslash, control and
    unprintable characters are escaped. *)
Definition repr_char (quote c : N) : pystr :=
  if ((c =? quote) || (c =? 92))%N then [92%N; c]
  else if (c =? 9)%N then py "\t"
  else if (c =? 10)%N then py "\n"
  else if (c =? 13)%N then py "\r"
  else if ((c <? 32) || (c =? 127))%N then py "\x" ++ hex_fixed 2 c
  else if (c <? 127)%N then [c]
  else if is_printable c then [c]
  else if (c <? 256)%N then py "\x" ++ hex_fixed 2 c
  else if (c <? 65536)%N then py "\u" ++ hex_fixed 4 c
  else py "\U" ++ hex_fixed 8 c.

Definition repr_str (s : pystr) : pystr :=
  let quote :=
    if existsb (N.eqb 39) s && negb (existsb (N.eqb 34) s) then 34%N else 39%N in
  quote :: flat_map (repr_char quote) s ++ [quote].

(** [repr(v)] *)
Fixpoint repr (v : PyVal) : pystr :=
  match v with
  | VNone => py "None"
  | VBool true => py "True"
  | VBool false => py "False"
  | VInt z => int_text z
  | VFloat t => t
  | VStr s => repr_str s
  | VList l => py "[" ++ join (py ", ") (map repr l) ++ py "]"
  | VDict d =>
      py "{"
      ++ join (py ", ") (map (fun kv => repr_str (fst kv) ++ py ": " ++ repr (snd kv)) d)
      ++ py "}"
  end.

(** [str(v)], which is also what an f-string field shows.  The interpreter
    refuses to write an integer of more than 4300 digits; the values of this
    program come out of the JSON and YAML decoders, which refuse to read
    one, so [str] is total here; [within_limit] states the bound. *)
Definition str (v : PyVal) : pystr :=
  match v with
  | VStr s => s
  | _ => repr v
  end.

(** [int(s)] on text: blanks around the number are skipped and one sign is
    allowed; then the longest run of decimal digits, with single underscores
    between them, is read.  [int_digits] gives the number the run writes, how
    many digits it has and what follows it, or nothing when the run is empty
    or an underscore is out of place. *)
Fixpoint int_digits (acc count : N) (s : pystr) (after_digit : bool)
    : option (N * N * pystr) :=
  match s with
  | [] => if after_digit then Some (acc, count, []) else None
  | c :: r =>
      if (c =? 95)%N then (if after_digit then int_digits acc count r false else None)
      else match decimal_char c with
           | Some d => int_digits (10 * acc + d) (count + 1) r true
           | None => if after_digit then Some (acc, count, s) else None
           end
  end.

(** The interpreter's limit on the length of a decimal literal
    ([sys.get_int_max_str_digits()]), at its default. *)
Definition int_max_str_digits : N := 4300.

(** A run of more than [int_max_str_digits] digits is refused before what
    follows the run is looked at. *)
Definition int_of_str (s : pystr) : outcome Z :=
  let invalid : outcome Z :=
    Raise (mkExn ValueError (py "invalid literal for int() with base 10: " ++ repr_str s)) in
  let read (negative : bool) (body : pystr) : outcome Z :=
    match int_digits 0 0 body false with
    | Some (n, count, rest) =>
        if (int_max_str_digits <? count)%N then
          Raise (mkExn ValueError
                   (py "Exceeds the limit (4300 digits) for integer string conversion: value has "
                    ++ int_text (Z.of_N count)
                    ++ py " digits; use sys.set_int_max_str_digits() to increase the limit"))
        else
          match rest with
          | [] => Ret (if negative then (- Z.of_N n)%Z else Z.of_N n)
          | _ :: _ => invalid
          end
    | None => invalid
    end in
  match strip s with
  | c :: r =>
      if (c =? 43)%N then read false r
      else if (c =? 45)%N then read true r
      else read false (c :: r)
  | [] => invalid
  end.

End WithUnicode.

(** Truth value of an object, as [if v:] tests it. *)
Definition truthy (v : PyVal) : bool :=
  match v with
  | VNone => false
  | VBool b => b
  | VInt z => negb (z =? 0)%Z
  | VFloat t => negb (str_eqb t (py "0.0") || str_eqb t (py "-0.0"))
  | VStr s => match s with [] => false | _ => true end
  | VList l => match l with [] => false | _ => true end
  | VDict d => match d with [] => false | _ => true end
  end.

(** [d.get(key)] and [d[key] = value] on the entries of a [dict]: an existing
    key keeps its place, a new key goes last. *)
Fixpoint lookup (key : pystr) (d : PyDict) : option PyVal :=
  match d with
  | [] => None
  | (k, v) :: r => if str_eqb k key then Some v else lookup key r
  end.

Fixpoint setitem (d : PyDict) (key : pystr) (value : PyVal) : PyDict :=
  match d with
  | [] => [(key, value)]
  | (k, v) :: r => if str_eqb k key then (k, value) :: r else (k, v) :: setitem r key value
  end.

(** [key in v] for a text [key]: a key of a [dict], an element of a [list],
    a substring of text; a [TypeError] on anything else. *)
Definition is_str_val (key : pystr) (v : PyVal) : bool :=
  match v with
  | VStr s => str_eqb s key
  | _ => false
  end.

Definition type_name (v : PyVal) : pystr :=
  match v with
  | VNone => py "NoneType"
  | VBool _ => py "bool"
  | VInt _ => py "int"
  | VFloat _ => py "float"
  | VStr _ => py "str"
  | VList _ => py "list"
  | VDict _ => py "dict"
  end.

Definition py_in (key : pystr) (v : PyVal) : outcome bool :=
  match v with
  | VDict d => Ret (match lookup key d with Some _ => true | None => false end)
  | VList l => Ret (existsb (is_str_val key) l)
  | VStr s => Ret (contains key s)
  | _ =>
      Raise (mkExn TypeError
        (py "argument of type '" ++ type_name v ++ py "' is not iterable"))
  end.


(** ** Effects

    A computation reads and updates a state of type [S] and either returns or
    raises.  [try_except] is a handler for every [Exception]; [try_finally]
    runs its second part on both exits, and an exception of that part
    replaces the outcome, as in Python. *)
Definition M (S A : Type) : Type := S -> outcome A * S.

Definition ret {S A} (a : A) : M S A := fun s => (Ret a, s).

Definition raise {S A} (e : PyExn) : M S A := fun s => (Raise e, s).

Definition bind {S A B} (m : M S A) (k : A -> M S B) : M S B :=
  fun s =>
    match m s with
    | (Ret a, s1) => k a s1
    | (Raise e, s1) => (Raise e, s1)
    end.

Definition lift {S A} (o : outcome A) : M S A := fun s => (o, s).

Definition try_except {S A} (body : M S A) (handler : PyExn -> M S A) : M S A :=
  fun s =>
    match body s with
    | (Ret a, s1) => (Ret a, s1)
    | (Raise e, s1) => handler e s1
    end.

Definition try_finally {S A} (body : M S A) (final : M S unit) : M S A :=
  fun s =>
    match body s with
    | (r, s1) =>
        match final s1 with
        | (Ret _, s2) => (r, s2)
        | (Raise e, s2) => (Raise e, s2)
        end
    end.

Definition modify {S} (f : S -> S) : M S unit := fun s => (Ret tt, f s).

Definition gets {S A} (f : S -> A) : M S A := fun s => (Ret (f s), s).

Declare Scope py_scope.
Delimit Scope py_scope with py_m.
Notation "x <- m ;; k" := (bind m (fun x => k))
  (at level 61, m at next level, right associativity) : py_scope.
Notation "m ;;; k" := (bind m (fun _ => k))
  (at level 61, right associativity) : py_scope.

(** Log records of the [logging] module. *)
Inductive LogLevel := INFO | WARNING | ERROR.

Definition LogRecord : Type := LogLevel * pystr.

(** ** The JSON library

    [json.loads] belongs to Python's standard library.  The code is verified
    against any decoder that rejects the empty text; [json_loads_ref] below
    is a decoder for the part of JSON without floating-point literals (it
    refuses them, [json.loads] reads them), used only where an example
    without such a literal needs a concrete decoder. *)
Class JsonLibrary := {
  json_loads : pystr -> outcome PyVal;
  (* the empty text is not a JSON document *)
  json_loads_empty : exists e, json_loads [] = Raise e
}.

Module JsonRef.

Fixpoint skip_ws (s : pystr) : pystr :=
  match s with
  | c :: r => if ((c =? 32) || (c =? 9) || (c =? 10) || (c =? 13))%N then skip_ws r else s
  | [] => []
  end.

Definition hex_value (c : N) : option N :=
  if is_ascii_digit c then Some (c - 48)%N
  else if ((97 <=? c) && (c <=? 102))%N then Some (c - 87)%N
  else if ((65 <=? c) && (c <=? 70))%N then Some (c - 55)%N
  else None.

(** The text of a string literal after its opening quote. *)
Fixpoint parse_string (s : pystr) : option (pystr * pystr) :=
  match s with
  | [] => None
  | 34%N :: r => Some ([], r)
  | 92%N :: e :: r =>
      if (e =? 117)%N then
        match r with
        | a :: b :: c :: d :: r' =>
            match hex_value a, hex_value b, hex_value c, hex_value d, parse_string r' with
            | Some a, Some b, Some c, Some d, Some (t, rest) =>
                Some ((a * 4096 + b * 256 + c * 16 + d)%N :: t, rest)
            | _, _, _, _, _ => None
            end
        | _ => None
        end
      else
        let unescaped :=
          if (e =? 34)%N then Some 34%N else if (e =? 92)%N then Some 92%N
          else if (e =? 47)%N then Some 47%N else if (e =? 98)%N then Some 8%N
          else if (e =? 102)%N then Some 12%N else if (e =? 110)%N then Some 10%N
          else if (e =? 114)%N then Some 13%N else if (e =? 116)%N then Some 9%N
          else None in
        match unescaped, parse_string r with
        | Some c, Some (t, rest) => Some (c :: t, rest)
        | _, _ => None
        end
  | c :: r =>
      if (c <? 32)%N then None
      else match parse_string r with
           | Some (t, rest) => Some (c :: t, rest)
           | None => None
           end
  end.

Fixpoint take_digits (s : pystr) : pystr * pystr :=
  match s with
  | c :: r => if is_ascii_digit c then let (d, rest) := take_digits r in (c :: d, rest)
              else ([], s)
  | [] => ([], [])
  end.

Definition digits_value (d : pystr) : Z :=
  fold_left (fun acc c => (10 * acc + Z.of_N (c - 48))%Z) d 0%Z.

(** An integer literal: no leading zero, no fraction, no exponent. *)
Definition parse_int (negative : bool) (s : pystr) : option (PyVal * pystr) :=
  match take_digits s with
  | ([], _) => None
  | (d, rest) =>
      match d, rest with
      | 48%N :: _ :: _, _ => None
      | _, 46%N :: _ => None
      | _, 101%N :: _ => None
      | _, 69%N :: _ => None
      | _, _ =>
          Some (VInt (if negative then (- digits_value d)%Z else digits_value d), rest)
      end
  end.

Fixpoint parse_value (fuel : nat) (s : pystr) : option (PyVal * pystr) :=
  match fuel with
  | O => None
  | S fuel' =>
      match s with
      | 34%N :: r =>
          match parse_string r with
          | Some (t, rest) => Some (VStr t, rest)
          | None => None
          end
      | 123%N :: r =>
          match skip_ws r with
          | 125%N :: rest => Some (VDict [], rest)
          | r1 =>
              match parse_members fuel' r1 [] with
              | Some (d, rest) => Some (VDict d, rest)
              | None => None
              end
          end
      | 91%N :: r =>
          match skip_ws r with
          | 93%N :: rest => Some (VList [], rest)
          | r1 =>
              match parse_elements fuel' r1 with
              | Some (l, rest) => Some (VList l, rest)
              | None => None
              end
          end
      | 45%N :: r => parse_int true r
      | _ =>
          if startswith (py "null") s then Some (VNone, skipn 4 s)
          else if startswith (py "true") s then Some (VBool true, skipn 4 s)
          else if startswith (py "false") s then Some (VBool false, skipn 5 s)
          else parse_int false s
      end
  end
with parse_elements (fuel : nat) (s : pystr) : option (list PyVal * pystr) :=
  match fuel with
  | O => None
  | S fuel' =>
      match parse_value fuel' s with
      | Some (v, rest) =>
          match skip_ws rest with
          | 93%N :: rest' => Some ([v], rest')
          | 44%N :: rest' =>
              match parse_elements fuel' (skip_ws rest') with
              | Some (l, rest'') => Some (v :: l, rest'')
              | None => None
              end
          | _ => None
          end
      | None => None
      end
  end
with parse_members (fuel : nat) (s : pystr) (acc : PyDict) : option (PyDict * pystr) :=
  match fuel with
  | O => None
  | S fuel' =>
      match s with
      | 34%N :: r =>
          match parse_string r with
          | Some (key, rest) =>
              match skip_ws rest with
              | 58%N :: rest1 =>
                  match parse_value fuel' (skip_ws rest1) with
                  | Some (v, rest2) =>
                      let acc' := setitem acc key v in
                      match skip_ws rest2 with
                      | 125%N :: rest3 => Some (acc', rest3)
                      | 44%N :: rest3 => parse_members fuel' (skip_ws rest3) acc'
                      | _ => None
                      end
                  | None => None
                  end
              | _ => None
              end
          | None => None
          end
      | _ => None
      end
  end.

Definition json_loads_ref (s : pystr) : outcome PyVal :=
  match parse_value (S (List.length s)) (skip_ws s) with
  | Some (v, rest) =>
      match skip_ws rest with
      | [] => Ret v
      | _ => Raise (mkExn JSONDecodeError (py "Extra data"))
      end
  | None => Raise (mkExn JSONDecodeError (py "Expecting value"))
  end.

End JsonRef.

(** [v[k]] for a text or integer subscript. *)
Definition subscript {U : UnicodeData} (v k : PyVal) : outcome PyVal :=
  match v, k with
  | VDict d, VStr key =>
      match lookup key d with
      | Some x => Ret x
      | None => Raise (mkExn KeyError (repr_str key))
      end
  | VDict _, _ => Raise (mkExn KeyError (repr k))
  | VList l, VInt i =>
      let n := Z.of_nat (List.length l) in
      let j := if (i <? 0)%Z then (i + n)%Z else i in
      if ((0 <=? j) && (j <? n))%Z then
        match nth_error l (Z.to_nat j) with
        | Some x => Ret x
        | None => Raise (mkExn IndexError (py "list index out of range"))
        end
      else Raise (mkExn IndexError (py "list index out of range"))
  | VList _, _ =>
      Raise (mkExn TypeError
        (py "list indices must be integers or slices, not " ++ type_name k))
  | VStr s, VInt i =>
      let n := Z.of_nat (List.length s) in
      let j := if (i <? 0)%Z then (i + n)%Z else i in
      if ((0 <=? j) && (j <? n))%Z then
        match nth_error s (Z.to_nat j) with
        | Some c => Ret (VStr [c])
        | None => Raise (mkExn IndexError (py "string index out of range"))
        end
      else Raise (mkExn IndexError (py "string index out of range"))
  | VStr _, _ =>
      Raise (mkExn TypeError (py "string indices must be integers, not '"
                              ++ type_name k ++ py "'"))
  | _, _ =>
      Raise (mkExn TypeError (py "'" ++ type_name v ++ py "' object is not subscriptable"))
  end.

(** Sequencing of results without state. *)
Definition obind {A B} (o : outcome A) (k : A -> outcome B) : outcome B :=
  match o with
  | Ret a => k a
  | Raise e => Raise e
  end.

Notation "x <~ o ;; k" := (obind o (fun x => k))
  (at level 61, o at next level, right associativity) : py_scope.

(** [text + v]: only text can be added to text. *)
Definition concat_str (text : pystr) (v : PyVal) : outcome pystr :=
  match v with
  | VStr s => Ret (text ++ s)
  | _ =>
      Raise (mkExn TypeError
        (py "can only concatenate str (not " ++ [34%N] ++ type_name v ++ [34%N]
         ++ py ") to str"))
  end.

(** The items a [for] loop visits. *)
Definition iterate (v : PyVal) : outcome (list PyVal) :=
  match v with
  | VList l => Ret l
  | VStr s => Ret (map (fun c => VStr [c]) s)
  | VDict d => Ret (map (fun kv => VStr (fst kv)) d)
  | _ => Raise (mkExn TypeError (py "'" ++ type_name v ++ py "' object is not iterable"))
  end.

(** [v.get(key, default)]: a method of [dict] only. *)
Definition dict_get (v : PyVal) (key : pystr) (default : PyVal) : outcome PyVal :=
  match v with
  | VDict d =>
      match lookup key d with
      | Some x => Ret x
      | None => Ret default
      end
  | _ =>
      Raise (mkExn AttributeError
        (py "'" ++ type_name v ++ py "' object has no attribute 'get'"))
  end.

End Py.

Import Py.
Local Open Scope py_scope.

(** ** ai_analyzer.py *)

Module AIAnalyzer.

Record HttpRequest := {
  url : pystr;
  headers : list (pystr * pystr);
  json_body : PyVal;
  timeout : Z
}.

Record HttpResponse := {
  status_code : Z;
  text : pystr
}.

(** The LLM endpoint: what a POST gives back, or the transport's exception. *)
Class Network := {
  http_post : HttpRequest -> outcome HttpResponse
}.

(** What the analyzer changes: the log and the requests it sent. *)
Record Process := {
  log : list LogRecord;
  sent : list HttpRequest
}.

Definition logger (level : LogLevel) (msg : pystr) : M Process unit :=
  modify (fun p => {| log := log p ++ [(level, msg)]; sent := sent p |}).

(** [self] *)
Record Analyzer := {
  api_key : pystr;
  model : pystr
}.

Definition opt_truthy (o : option pystr) : bool :=
  match o with
  | Some (_ :: _) => true
  | _ => false
  end.

Definition opt_text (o : option pystr) : pystr :=
  match o with
  | Some s => s
  | None => py "None"
  end.

Definition output_format_instruction : pystr :=
  py "
請以以下 JSON 格式提供你的審查結果：

```json
{
  'summary': '對 PR 的簡要總結，最多 3-5 句話',
  'overall_assessment': '良好 | 需要改進 | 有重大問題',
  'suggestions': [
    {
      'file': '檔案路徑',
      'line': '行號或行範圍（如果適用）',
      'severity': 'critical | high | medium | low | praise',
      'category': '架構 | 安全性 | 性能 | 可維護性 | 代碼風格 | 其他',
      'description': '對問題的詳細描述',
      'suggestion': '如何改進的建議'
    }
  ]
}
```

請只返回 JSON 格式的結果，不要添加其他解釋或前言。
        ".

(** The source writes the keys and values of the sample above in double
    quotes; [double_quotes] puts them back. *)
Definition double_quotes (s : pystr) : pystr :=
  map (fun c => if (c =? 39)%N then 34%N else c) s.

Definition _build_prompt (xml_content : pystr) (focus_areas : option (list pystr))
    (repo_name pr_title pr_description : option pystr) : pystr :=
  let max_xml_length := 100000%Z in
  let truncated_xml :=
    if (max_xml_length <? Z.of_nat (List.length xml_content))%Z
    then slice xml_content 0 max_xml_length else xml_content in
  let prompt_parts := [py "你是一位專業的程式碼審查專家。請審查以下程式碼並提供建議。"] in
  let prompt_parts :=
    if opt_truthy repo_name
    then prompt_parts ++ [py "程式庫：" ++ opt_text repo_name] else prompt_parts in
  let prompt_parts :=
    if opt_truthy pr_title
    then prompt_parts ++ [py "PR 標題：" ++ opt_text pr_title] else prompt_parts in
  let prompt_parts :=
    if opt_truthy pr_description
    then prompt_parts ++ [py "PR 描述：" ++ opt_text pr_description] else prompt_parts in
  let prompt_parts :=
    match focus_areas with
    | Some (a :: rest) =>
        let focus_str := join (py "、") (a :: rest) in
        prompt_parts ++ [py "請特別關注以下方面：" ++ focus_str]
    | _ => prompt_parts
    end in
  let prompt_parts := prompt_parts ++ [double_quotes output_format_instruction] in
  let prompt_parts := prompt_parts ++ [py "以下是程式碼的 XML 表示："] in
  let prompt_parts := prompt_parts ++ [truncated_xml] in
  join (py "

") prompt_parts.

Definition undetermined : pystr := py "無法確定".

Section WithLibraries.
Context {U : UnicodeData} {J : JsonLibrary} {Net : Network}.

Definition _parse_ai_response (ai_response : PyVal) : M Process PyVal :=
  try_except
    match ai_response with
    | VStr reply =>
        (* 嘗試提取 JSON 部分 *)
        let json_start := find reply (py "```json") in
        let json_end := rfind reply (py "```") in
        if (negb (json_start =? -1) && negb (json_end =? -1))%Z then
          let json_start := (json_start + 7)%Z in
          let json_content := strip (slice reply json_start json_end) in
          lift (json_loads json_content)
        else
          (* 如果沒有 JSON 格式，嘗試直接解析整個回應 *)
          try_except (lift (json_loads reply))
            (fun _ =>
               ret (VDict [(py "summary", VStr (py "無法解析 AI 回應為 JSON 格式"));
                           (py "overall_assessment", VStr undetermined);
                           (py "raw_response", ai_response)]))
    | _ =>
        raise (mkExn AttributeError
                 (py "'" ++ type_name ai_response ++ py "' object has no attribute 'find'"))
    end
    (fun e =>
       logger ERROR (py "解析 AI 回應時出錯: " ++ exn_text e) ;;;
       ret (VDict [(py "summary", VStr (py "解析 AI 回應時出錯: " ++ exn_text e));
                   (py "overall_assessment", VStr undetermined);
                   (py "raw_response", ai_response)])).

Definition messages_request (self : Analyzer) (prompt : pystr) : HttpRequest :=
  {| url := py "https://api.anthropic.com/v1/messages";
     headers := [(py "x-api-key", api_key self);
                 (py "anthropic-version", py "2023-06-01");
                 (py "content-type", py "application/json")];
     json_body :=
       VDict [(py "model", VStr (model self));
              (py "max_tokens", VInt 4000);
              (py "messages",
               VList [VDict [(py "role", VStr (py "user")); (py "content", VStr prompt)]]);
              (py "temperature", VFloat (py "0.3"))];
     timeout := 120 |}.

Definition post (request : HttpRequest) : M Process HttpResponse :=
  modify (fun p => {| log := log p; sent := sent p ++ [request] |}) ;;;
  lift (http_post request).

Definition analyze_code (self : Analyzer) (xml_content : pystr)
    (focus_areas : option (list pystr)) (repo_name pr_title pr_description : option pystr)
    : M Process PyVal :=
  try_except
    ((* 構建提示詞 *)
     let prompt := _build_prompt xml_content focus_areas repo_name pr_title pr_description in
     logger INFO (py "正在調用 AI API 進行程式碼分析") ;;;
     response <- post (messages_request self prompt) ;;
     if negb (status_code response =? 200)%Z then
       logger ERROR (py "AI API 調用失敗: " ++ int_text (status_code response)
                     ++ py " " ++ text response) ;;;
       raise (mkExn Exception (py "AI API 調用失敗: " ++ int_text (status_code response)))
     else
       result <- lift (json_loads (text response)) ;;
       content <- lift (subscript result (VStr (py "content"))) ;;
       first <- lift (subscript content (VInt 0)) ;;
       ai_response <- lift (subscript first (VStr (py "text"))) ;;
       (* 解析 AI 回應並結構化為審查建議 *)
       _parse_ai_response ai_response)
    (fun e =>
       logger ERROR (py "程式碼分析時出錯: " ++ exn_text e) ;;;
       raise e).

End WithLibraries.

End AIAnalyzer.

(** ** Regular expressions

    The fragment of [re] that the program's patterns use: literal text,
    repetition of a character class (greedy or lazy), one capturing group,
    sequence, alternation and [$].  The matcher backtracks like [re] does: it
    takes the first way to match in the order of the pattern's preferences. *)

Module Re.

Inductive CharClass :=
| Space           (* \s *)
| Word            (* \w *)
| Dot.            (* .  : any character except a newline *)

Inductive Regex :=
| Lit (s : pystr)
| Star (c : CharClass)       (* c*  *)
| LazyStar (c : CharClass)   (* c*? *)
| Plus (c : CharClass)       (* c+  *)
| Group (r : Regex)
| Seq (a b : Regex)
| Alt (a b : Regex)
| Eos.                       (* $ *)

Section Matcher.
Context {U : UnicodeData}.
Variable R : Type.

Definition in_class (c : CharClass) (x : N) : bool :=
  match c with
  | Space => is_space x
  | Word => is_word x
  | Dot => negb (x =? 10)%N
  end.

(** Greedy repetition: the longest run first, then shorter ones. *)
Fixpoint star (c : CharClass) (s : pystr) (k : pystr -> option R) : option R :=
  match s with
  | x :: r =>
      if in_class c x then
        match star c r k with
        | Some v => Some v
        | None => k s
        end
      else k s
  | [] => k s
  end.

(** Lazy repetition: the shortest run first, then longer ones. *)
Fixpoint lazy_star (c : CharClass) (s : pystr) (k : pystr -> option R) : option R :=
  match k s with
  | Some v => Some v
  | None =>
      match s with
      | x :: r => if in_class c x then lazy_star c r k else None
      | [] => None
      end
  end.

(** [rmatch r s caps k]: match [r] at the head of [s], then go on with [k] on
    the rest of the text and the groups captured so far. *)
Fixpoint rmatch (r : Regex) (s : pystr) (caps : list pystr)
    (k : pystr -> list pystr -> option R) : option R :=
  match r with
  | Lit l => if startswith l s then k (skipn (List.length l) s) caps else None
  | Star c => star c s (fun s' => k s' caps)
  | LazyStar c => lazy_star c s (fun s' => k s' caps)
  | Plus c =>
      match s with
      | x :: r' => if in_class c x then star c r' (fun s' => k s' caps) else None
      | [] => None
      end
  | Group r' =>
      rmatch r' s caps
        (fun s' caps' => k s' (caps' ++ [firstn (List.length s - List.length s') s]))
  | Seq a b => rmatch a s caps (fun s' caps' => rmatch b s' caps' k)
  | Alt a b =>
      match rmatch a s caps k with
      | Some v => Some v
      | None => rmatch b s caps k
      end
  | Eos =>
      (* at the end of the text, or before a newline that ends it *)
      match s with
      | [] => k s caps
      | [c] => if (c =? 10)%N then k s caps else None
      | _ => None
      end
  end.

End Matcher.

Section Search.
Context {U : UnicodeData}.

(** [re.search(r, s)]: the groups of the leftmost match. *)
Fixpoint search (r : Regex) (s : pystr) : option (list pystr) :=
  match rmatch r s [] (fun _ caps => Some caps) with
  | Some caps => Some caps
  | None =>
      match s with
      | [] => None
      | _ :: t => search r t
      end
  end.

(** [re.findall(r, s)] for a pattern that matches no empty text: the groups
    of the matches from left to right, each search resuming where the last
    match ended. *)
Fixpoint findall_from (fuel : nat) (r : Regex) (s : pystr) : list (list pystr) :=
  match fuel with
  | O => []
  | S fuel' =>
      match rmatch r s [] (fun s' caps => Some (caps, s')) with
      | Some (caps, s') =>
          caps :: findall_from fuel' r
                    (if (List.length s' <? List.length s)%nat then s' else tl s)
      | None =>
          match s with
          | [] => []
          | _ :: t => findall_from fuel' r t
          end
      end
  end.

Definition findall (r : Regex) (s : pystr) : list (list pystr) :=
  findall_from (S (List.length s)) r s.

Definition group1 (caps : list pystr) : pystr := nth 0 caps [].

End Search.

End Re.

(** ** config_manager.py *)

Module ConfigManager.

Definition default_config : PyDict :=
  [(py "review_focus",
    VList [VStr (py "code_quality"); VStr (py "architecture"); VStr (py "security");
           VStr (py "performance"); VStr (py "maintainability")]);
   (py "ai", VDict [(py "model", VStr (py "claude-3-haiku-20240307"));
                    (py "max_tokens", VInt 4000)]);
   (py "github", VDict [(py "comment_type", VStr (py "issue"));
                        (py "comment_placement", VStr (py "pr"))]);
   (py "repomix", VDict [(py "style", VStr (py "xml"));
                         (py "include_patterns", VNone);
                         (py "exclude_patterns", VNone)])].

(** [_merge_configs] calls itself on a value of [user_config]; for the
    recursion to be structural the function is first defined on the
    override as a value ([merge_into config (VDict user_config)]).  The
    lemma [_merge_configs_unfold] below gives it the shape of the source. *)
Fixpoint merge_into (default_config : PyDict) (user : PyVal) {struct user} : PyDict :=
  match user with
  | VDict user_config =>
      let config := default_config in
      fold_left
        (fun (config : PyDict) (item : pystr * PyVal) =>
           let (key, value) := item in
           match lookup key config, value with
           | Some (VDict sub), VDict _ => setitem config key (VDict (merge_into sub value))
           | _, _ => setitem config key value
           end)
        user_config config
  | _ => default_config
  end.

Definition _merge_configs (default_config user_config : PyDict) : PyDict :=
  merge_into default_config (VDict user_config).

(** The body of the loop over [user_config.items()]. *)
Definition merge_item (config : PyDict) (item : pystr * PyVal) : PyDict :=
  let (key, value) := item in
  match lookup key config, value with
  | Some (VDict sub), VDict user_sub =>
      setitem config key (VDict (_merge_configs sub user_sub))
  | _, _ => setitem config key value
  end.

(** AI-REVIEW-FOCUS:\s*(.*?)(?:\n|$) *)
Definition focus_pattern : Re.Regex :=
  Re.Seq (Re.Lit (py "AI-REVIEW-FOCUS:"))
    (Re.Seq (Re.Star Re.Space)
       (Re.Seq (Re.Group (Re.LazyStar Re.Dot))
          (Re.Alt (Re.Lit [10%N]) Re.Eos))).

(** #(\w+) *)
Definition tag_pattern : Re.Regex :=
  Re.Seq (Re.Lit (py "#")) (Re.Group (Re.Plus Re.Word)).

Section WithUnicode.
Context {U : UnicodeData}.

Definition parse_pr_focus (pr_description : option pystr) : list pystr :=
  match pr_description with
  | None => []
  | Some [] => []
  | Some description =>
      (* 查找類似 "AI-REVIEW-FOCUS: #security #performance" 的標記 *)
      match Re.search focus_pattern description with
      | Some focus_match =>
          let focus_text := strip (Re.group1 focus_match) in
          (* 提取所有 #tag 格式的標籤 *)
          map Re.group1 (Re.findall tag_pattern focus_text)
      | None => []
      end
  end.

(** [self.config] is the merged configuration. *)
Definition get_review_focus (config : PyDict) (pr_description : option pystr) : PyVal :=
  let default_focus :=
    match lookup (py "review_focus") config with
    | Some v => v
    | None => VList []
    end in
  let pr_focus :=
    match pr_description with
    | Some (_ :: _) => parse_pr_focus pr_description
    | _ => []
    end in
  match pr_focus with
  | _ :: _ => VList (map VStr pr_focus)
  | [] => default_focus
  end.

End WithUnicode.

(** [self.config.get('ai', {})] and its like. *)
Definition get_ai_config (config : PyDict) : PyVal :=
  match lookup (py "ai") config with
  | Some v => v
  | None => VDict []
  end.

Definition get_github_config (config : PyDict) : PyVal :=
  match lookup (py "github") config with
  | Some v => v
  | None => VDict []
  end.

Definition get_repomix_config (config : PyDict) : PyVal :=
  match lookup (py "repomix") config with
  | Some v => v
  | None => VDict []
  end.

(** The files under the configuration: whether a path exists, and what
    opening the file at a path and [yaml.safe_load] on it give, the value of
    the document or the error of either step. *)
Class ConfigFiles := {
  file_exists : pystr -> bool;
  yaml_safe_load : pystr -> outcome PyVal
}.

Section WithFiles.
Context {F : ConfigFiles}.

(** The manager changes the log only. *)
Definition logger (level : LogLevel) (msg : pystr) : M (list LogRecord) unit :=
  modify (fun log => log ++ [(level, msg)]).

(** [self._merge_configs(default_config, user_config)] on the value that was
    loaded: [user_config.items()] is a method of [dict] only. *)
Definition merge_loaded (default_config : PyDict) (user_config : PyVal) : outcome PyDict :=
  match user_config with
  | VDict entries => Ret (_merge_configs default_config entries)
  | _ =>
      Raise (mkExn AttributeError
        (py "'" ++ type_name user_config ++ py "' object has no attribute 'items'"))
  end.

Definition _load_config (config_path : pystr) : M (list LogRecord) PyDict :=
  (* 如果配置文件存在，則加載 *)
  if file_exists config_path then
    try_except
      (user_config <- lift (yaml_safe_load config_path) ;;
       (* 合併默認配置和用戶配置 *)
       if truthy user_config then
         (* 遞歸合併配置 *)
         lift (merge_loaded default_config user_config)
       else ret default_config)
      (fun e =>
         logger ERROR (py "加載配置文件時出錯: " ++ exn_text e) ;;;
         ret default_config)
  else
    logger WARNING (py "配置文件 '" ++ config_path ++ py "' 不存在，使用默認配置") ;;;
    ret default_config.

(** [ConfigManager(config_path)]: the path in use and the configuration. *)
Definition __init__ (config_path : option pystr) : M (list LogRecord) (pystr * PyDict) :=
  let config_path :=
    match config_path with
    | Some (c :: s) => c :: s
    | _ => py ".ai-review.yml"
    end in
  config <- _load_config config_path ;;
  ret (config_path, config).

End WithFiles.

End ConfigManager.

(** ** github_integration.py *)

Module GitHubIntegration.

(** Calls to the hosting platform. *)
Inductive ApiCall :=
| GetPull (pr_number : Z)
| CreateIssueComment (pr_number : Z) (body : pystr)
| CreateReview (pr_number : Z) (body : pystr) (event : pystr) (comments : list PyVal).

(** The platform: the object a call returns, or its [GithubException]. *)
Class GitHubApi := {
  api_answer : ApiCall -> outcome PyVal
}.

Record Process := {
  log : list LogRecord;
  calls : list ApiCall
}.

Definition logger (level : LogLevel) (msg : pystr) : M Process unit :=
  modify (fun p => {| log := log p ++ [(level, msg)]; calls := calls p |}).

(** [self]: [repo] is [None] until a repository is set. *)
Record Integration := {
  repo : option pystr
}.

Definition is_comment_event (c : ApiCall) : bool :=
  match c with
  | CreateReview _ _ event _ => str_eqb event (py "COMMENT")
  | _ => false
  end.

Definition is_review (c : ApiCall) : bool :=
  match c with
  | CreateReview _ _ _ _ => true
  | _ => false
  end.

Section WithPlatform.
Context {U : UnicodeData} {G : GitHubApi}.

Definition api (c : ApiCall) : M Process PyVal :=
  modify (fun p => {| log := log p; calls := calls p ++ [c] |}) ;;;
  lift (api_answer c).

Definition get_pr (self : Integration) (pr_number : Z) : M Process Z :=
  match repo self with
  | None => raise (mkExn ValueError (py "未設置程式庫"))
  | Some _ =>
      try_except (api (GetPull pr_number) ;;; ret pr_number)
        (fun e =>
           (* except GithubException *)
           match exn_class e with
           | GithubException =>
               logger ERROR (py "獲取 PR 時出錯: " ++ exn_text e) ;;; raise e
           | _ => raise e
           end)
  end.

Definition isinstance_int_str (v : PyVal) : bool :=
  match v with
  | VInt _ | VBool _ | VStr _ => true
  | _ => false
  end.

(** [int(v)] where the program calls it: on an [int] (a [bool] is one) or on
    text.  Python truncates a [float]; the program never passes one, and the
    model gives it no value. *)
Definition py_int (v : PyVal) : outcome Z :=
  match v with
  | VInt z => Ret z
  | VBool b => Ret (if b then 1 else 0)%Z
  | VStr s => int_of_str s
  | _ =>
      Raise (mkExn TypeError
        (py "int() argument must be a string, a bytes-like object or a real number, not '"
         ++ type_name v ++ py "'"))
  end.

(** 處理行號信息（可能是單行或範圍）: the value of [line_number] after lines
    138-145, [None] when no branch assigns it. *)
Definition line_number_of (line_info : PyVal) : outcome (option Z) :=
  if isinstance_int_str line_info && isdigit (str line_info) then
    n <~ py_int line_info ;; Ret (Some n)
  else if contains (py "-") (str line_info) then
    (* 對於範圍，使用範圍的起始行 *)
    let line_parts := split 45 (str line_info) in
    let first := strip (nth 0 line_parts []) in
    if isdigit first then n <~ int_of_str first ;; Ret (Some n)
    else Ret None
  else Ret None.

Definition truthy_line (line_number : option Z) : bool :=
  match line_number with
  | Some n => negb (n =? 0)%Z
  | None => false
  end.

(** One round of the loop over the suggestions: [file_comments] after it. *)
Definition line_comment_step (file_comments : list PyVal) (suggestion : PyVal)
    : outcome (list PyVal) :=
  has_file <~ py_in (py "file") suggestion ;;
  has_line <~ (if has_file then py_in (py "line") suggestion else Ret false) ;;
  (* 僅處理包含文件和行信息的建議 *)
  if has_file && has_line then
    file_path <~ subscript suggestion (VStr (py "file")) ;;
    line_info <~ subscript suggestion (VStr (py "line")) ;;
    line_number <~ line_number_of line_info ;;
    if truthy_line line_number then
      category <~ dict_get suggestion (py "category") (VStr (py "評論")) ;;
      severity <~ dict_get suggestion (py "severity") (VStr (py "提示")) ;;
      let comment_body := py "**" ++ str category ++ py " (" ++ str severity ++ py ")**

" in
      description <~ dict_get suggestion (py "description") (VStr []) ;;
      comment_body <~ concat_str comment_body description ;;
      advice <~ dict_get suggestion (py "suggestion") VNone ;;
      comment_body <~
        (if truthy advice then
           advice <~ subscript suggestion (VStr (py "suggestion")) ;;
           Ret (comment_body ++ py "

**建議**: " ++ str advice)
         else Ret comment_body) ;;
      Ret (file_comments
           ++ [VDict [(py "path", file_path);
                      (py "line", match line_number with Some n => VInt n | None => VNone end);
                      (py "body", VStr comment_body)]])
    else Ret file_comments
  else Ret file_comments.

Fixpoint line_comments_loop (suggestions : list PyVal) (file_comments : list PyVal)
    : outcome (list PyVal) :=
  match suggestions with
  | [] => Ret file_comments
  | suggestion :: rest =>
      file_comments <~ line_comment_step file_comments suggestion ;;
      line_comments_loop rest file_comments
  end.

Definition post_line_comments (self : Integration) (pr_number : Z)
    (review_suggestions : PyVal) : M Process PyVal :=
  try_except
    (pr <- get_pr self pr_number ;;
     (* 提取具體的檔案和行級建議 *)
     suggestions <- lift (dict_get review_suggestions (py "suggestions") (VList [])) ;;
     items <- lift (iterate suggestions) ;;
     file_comments <- lift (line_comments_loop items []) ;;
     (* 如果有具體的行評論，則創建正式審查 *)
     match file_comments with
     | _ :: _ =>
         assessment <- lift (dict_get review_suggestions (py "overall_assessment")
                               (VStr (py "無評估"))) ;;
         let summary := py "# AI 程式碼審查

**總體評估**: " ++ str assessment ++ py "

" in
         text <- lift (dict_get review_suggestions (py "summary") (VStr (py "無總結"))) ;;
         summary <- lift (concat_str summary text) ;;
         (* 創建審查 *)
         api (CreateReview pr summary (py "COMMENT") file_comments)
     | [] => ret VNone
     end)
    (fun e => logger ERROR (py "發布行級評論時出錯: " ++ exn_text e) ;;; raise e).

(** The text that one suggestion adds to the summary comment; [i] is its
    number, counted from 1. *)
Definition suggestion_section (i : Z) (suggestion : PyVal) : outcome pystr :=
  severity <~ dict_get suggestion (py "severity") (VStr (py "info")) ;;
  category <~ dict_get suggestion (py "category") (VStr (py "一般")) ;;
  let comment := py "### " ++ int_text i ++ py ". " ++ str category
                 ++ py " (" ++ str severity ++ py ")

" in
  has_file <~ py_in (py "file") suggestion ;;
  comment <~
    (if has_file then
       file <~ subscript suggestion (VStr (py "file")) ;;
       let file_info := py "**文件**: `" ++ str file ++ py "`" in
       has_line <~ py_in (py "line") suggestion ;;
       file_info <~
         (if has_line then
            line <~ subscript suggestion (VStr (py "line")) ;;
            Ret (file_info ++ py " **行**: " ++ str line)
          else Ret file_info) ;;
       Ret (comment ++ file_info ++ py "

")
     else Ret comment) ;;
  has_description <~ py_in (py "description") suggestion ;;
  comment <~
    (if has_description then
       description <~ subscript suggestion (VStr (py "description")) ;;
       Ret (comment ++ str description ++ py "

")
     else Ret comment) ;;
  has_suggestion <~ py_in (py "suggestion") suggestion ;;
  if has_suggestion then
    advice <~ subscript suggestion (VStr (py "suggestion")) ;;
    Ret (comment ++ py "**建議**: " ++ str advice ++ py "

")
  else Ret comment.

(** The loop over [enumerate(suggestions, 1)]: [comment] grows by one
    section a round. *)
Fixpoint format_loop (i : Z) (suggestions : list PyVal) (comment : pystr)
    : outcome pystr :=
  match suggestions with
  | [] => Ret comment
  | suggestion :: rest =>
      section <~ suggestion_section i suggestion ;;
      format_loop (i + 1) rest (comment ++ section)
  end.

Definition footer : pystr := py "
---
*由 AI 程式碼審查工具自動生成*".

Definition _format_review_comment (review_suggestions : PyVal) : outcome pystr :=
  (* 標題和總結 *)
  let comment := py "# AI 程式碼審查

" in
  assessment <~ dict_get review_suggestions (py "overall_assessment") (VStr (py "無評估")) ;;
  let comment := comment ++ py "**總體評估**: " ++ str assessment ++ py "

" in
  text <~ dict_get review_suggestions (py "summary") (VStr (py "無總結")) ;;
  let comment := comment ++ py "## 摘要

" ++ str text ++ py "

" in
  (* 具體建議 *)
  suggestions <~ dict_get review_suggestions (py "suggestions") (VList []) ;;
  comment <~
    (if truthy suggestions then
       items <~ iterate suggestions ;;
       format_loop 1 items (comment ++ py "## 詳細建議

")
     else Ret comment) ;;
  Ret (comment ++ footer).

Definition post_review_comment (self : Integration) (pr_number : Z)
    (review_suggestions : PyVal) : M Process PyVal :=
  try_except
    (pr <- get_pr self pr_number ;;
     (* 格式化評論內容 *)
     comment <- lift (_format_review_comment review_suggestions) ;;
     (* 發布評論 *)
     api (CreateIssueComment pr comment))
    (fun e => logger ERROR (py "發布評論時出錯: " ++ exn_text e) ;;; raise e).

End WithPlatform.

End GitHubIntegration.

(** ** repomix_handler.py *)

Module RepomixHandler.

(** The operating system below the process: the file system and the child
    processes.  [os_chdir m cwd path] is the directory the process is in after
    [os.chdir(path)] from [cwd], or the [OSError] of the call; [os_run] is
    the exit status of a child process, or the failure to start it, and what
    the child does to the machine.  A child cannot change the working
    directory of its parent. *)
Class OperatingSystem := {
  Machine : Type;
  os_chdir : Machine -> pystr -> pystr -> outcome pystr;
  os_path_exists : Machine -> pystr -> pystr -> bool;
  os_mkdtemp : Machine -> outcome pystr * Machine;
  os_run : Machine -> pystr -> list pystr -> outcome Z * Machine
}.

Section WithOS.
Context {U : UnicodeData} {OS : OperatingSystem}.

Record Process := {
  log : list LogRecord;
  cwd : pystr;
  machine : Machine
}.

Definition logger (level : LogLevel) (msg : pystr) : M Process unit :=
  modify (fun p => {| log := log p ++ [(level, msg)]; cwd := cwd p; machine := machine p |}).

(** [os.getcwd()] *)
Definition getcwd : M Process pystr := gets cwd.

(** [os.chdir(path)] *)
Definition chdir (path : pystr) : M Process unit :=
  fun p =>
    match os_chdir (machine p) (cwd p) path with
    | Ret d => (Ret tt, {| log := log p; cwd := d; machine := machine p |})
    | Raise e => (Raise e, p)
    end.

(** [tempfile.mkdtemp()] *)
Definition mkdtemp : M Process pystr :=
  fun p =>
    let (r, m) := os_mkdtemp (machine p) in
    (r, {| log := log p; cwd := cwd p; machine := m |}).

(** [os.path.exists(path)] *)
Definition path_exists (path : pystr) : M Process bool :=
  gets (fun p => os_path_exists (machine p) (cwd p) path).

(** [os.path.join(a, b)] for a relative [b] *)
Definition path_join (a b : pystr) : pystr :=
  match rev a with
  | [] => b
  | 47%N :: _ => a ++ b
  | _ => a ++ py "/" ++ b
  end.

(** The signals [signal.Signals] names on Linux. *)
Definition signal_names : list (Z * pystr) :=
  [(1, py "SIGHUP"); (2, py "SIGINT"); (3, py "SIGQUIT"); (4, py "SIGILL");
   (5, py "SIGTRAP"); (6, py "SIGABRT"); (7, py "SIGBUS"); (8, py "SIGFPE");
   (9, py "SIGKILL"); (10, py "SIGUSR1"); (11, py "SIGSEGV"); (12, py "SIGUSR2");
   (13, py "SIGPIPE"); (14, py "SIGALRM"); (15, py "SIGTERM"); (16, py "SIGSTKFLT");
   (17, py "SIGCHLD"); (18, py "SIGCONT"); (19, py "SIGSTOP"); (20, py "SIGTSTP");
   (21, py "SIGTTIN"); (22, py "SIGTTOU"); (23, py "SIGURG"); (24, py "SIGXCPU");
   (25, py "SIGXFSZ"); (26, py "SIGVTALRM"); (27, py "SIGPROF"); (28, py "SIGWINCH");
   (29, py "SIGIO"); (30, py "SIGPWR"); (31, py "SIGSYS"); (34, py "SIGRTMIN");
   (64, py "SIGRTMAX")]%Z.

(** [str(e)] of a [CalledProcessError]: a negative status is the number of
    the signal that ended the child. *)
Definition called_process_error_text (cmd : list pystr) (status : Z) : pystr :=
  py "Command '" ++ repr (VList (map VStr cmd)) ++ py "' "
  ++ (if (status <? 0)%Z then
        match List.find (fun entry => (fst entry =? - status)%Z) signal_names with
        | Some (_, name) =>
            py "died with <Signals." ++ name ++ py ": " ++ int_text (- status) ++ py ">."
        | None => py "died with unknown signal " ++ int_text (- status) ++ py "."
        end
      else py "returned non-zero exit status " ++ int_text status ++ py ".").

(** [subprocess.run(cmd, check=True)] *)
Definition subprocess_run_checked (cmd : list pystr) : M Process unit :=
  fun p =>
    let (r, m) := os_run (machine p) (cwd p) cmd in
    let p' := {| log := log p; cwd := cwd p; machine := m |} in
    match r with
    | Ret status =>
        if (status =? 0)%Z then (Ret tt, p')
        else (Raise (mkExn CalledProcessError (called_process_error_text cmd status)), p')
    | Raise e => (Raise e, p')
    end.

(** [self] *)
Record Handler := {
  repo_path : pystr
}.

Definition opt_truthy (o : option pystr) : bool :=
  match o with
  | Some (_ :: _) => true
  | _ => false
  end.

Definition opt_text (o : option pystr) : pystr :=
  match o with
  | Some s => s
  | None => []
  end.

Definition generate_xml (self : Handler)
    (output_path include_patterns exclude_patterns : option pystr) : M Process pystr :=
  original_dir <- getcwd ;;
  try_finally
    (try_except
       ((* 如果提供了 repo_path，則切換到該目錄 *)
        (if match repo_path self with [] => false | _ => true end
            && negb (str_eqb (repo_path self) original_dir)
         then chdir (repo_path self) else ret tt) ;;;
        (* 如果未提供輸出路徑，則建立臨時目錄 *)
        output_path <-
          (if negb (opt_truthy output_path) then
             temp_dir <- mkdtemp ;;
             ret (path_join temp_dir (py "repo.xml"))
           else ret (opt_text output_path)) ;;
        (* 構建 Repomix 命令 *)
        let cmd := [py "npx"; py "repomix"; py "--style"; py "xml"] in
        let cmd := match output_path with
                   | _ :: _ => cmd ++ [py "--output"; output_path]
                   | [] => cmd
                   end in
        let cmd := if opt_truthy include_patterns
                   then cmd ++ [py "--include"; opt_text include_patterns] else cmd in
        let cmd := if opt_truthy exclude_patterns
                   then cmd ++ [py "--ignore"; opt_text exclude_patterns] else cmd in
        (* 執行 Repomix 命令 *)
        logger INFO (py "執行 Repomix 命令: " ++ join (py " ") cmd) ;;;
        subprocess_run_checked cmd ;;;
        (* 驗證輸出文件存在 *)
        found <- path_exists output_path ;;
        if negb found then
          raise (mkExn FileNotFoundError (py "Repomix 未能生成輸出文件: " ++ output_path))
        else ret output_path)
       (fun e =>
          match exn_class e with
          | CalledProcessError =>
              logger ERROR (py "Repomix 執行失敗: " ++ exn_text e) ;;; raise e
          | _ => logger ERROR (py "生成 XML 時出錯: " ++ exn_text e) ;;; raise e
          end))
    ((* 恢復原始目錄 *)
     chdir original_dir).

Definition generate_xml_for_pr (self : Handler) (pr_files : list pystr)
    (output_path : option pystr) : M Process pystr :=
  (* 將文件列表轉換為 include 模式 *)
  let include_patterns := join (py ",") pr_files in
  generate_xml self output_path (Some include_patterns) None.

(** [except (subprocess.SubprocessError, FileNotFoundError)] takes a
    non-zero exit and a missing executable; any other error passes. *)
Definition check_repomix_installed (self : Handler) : M Process bool :=
  try_except
    (subprocess_run_checked [py "npx"; py "repomix"; py "--version"] ;;;
     ret true)
    (fun e =>
       match exn_class e with
       | CalledProcessError | FileNotFoundError =>
           logger WARNING (py "Repomix 未安裝，將嘗試使用 npx 運行") ;;;
           ret false
       | _ => raise e
       end).

End WithOS.

End RepomixHandler.

(** ** main.py *)

Module Main.

Section WithPlatform.
Import GitHubIntegration.
Context {U : UnicodeData} {G : GitHubApi}.

(** The publishing step of [main], from the configuration to the last
    record: which comments are posted.  [v == 'text'] holds for the text
    itself only. *)
Definition publish_review (config : PyDict) (github_integration : Integration)
    (pr : Z) (review_suggestions : PyVal) : M Process unit :=
  (* 獲取 GitHub 配置 *)
  let github_config := ConfigManager.get_github_config config in
  comment_type <- lift (dict_get github_config (py "comment_type") (VStr (py "issue"))) ;;
  comment_placement <-
    lift (dict_get github_config (py "comment_placement") (VStr (py "pr"))) ;;
  (* 發布審查評論 *)
  logger INFO (py "發布審查評論") ;;;
  (if is_str_val (py "issue") comment_type || is_str_val (py "pr") comment_placement
   then
     (* 發布 PR 級別的評論 *)
     post_review_comment github_integration pr review_suggestions ;;;
     logger INFO (py "已發布 PR 評論")
   else ret tt) ;;;
  (if is_str_val (py "review") comment_type || is_str_val (py "line") comment_placement
   then
     (* 發布行級評論 *)
     post_line_comments github_integration pr review_suggestions ;;;
     logger INFO (py "已發布行級評論")
   else ret tt) ;;;
  logger INFO (py "程式碼審查完成").

End WithPlatform.

End Main.

(** ** Instances for examples

    A character database with nothing beyond Latin-1, the reference decoder,
    and a platform that answers every call. *)

Definition latin1 : UnicodeData :=
  {| ucd_decimal := fun _ => None; ucd_digit := fun _ => false;
     ucd_alnum := fun _ => false; ucd_printable := fun _ => false |}.

Definition json_ref : JsonLibrary :=
  {| json_loads := JsonRef.json_loads_ref;
     json_loads_empty :=
       ex_intro _ (mkExn JSONDecodeError (py "Expecting value")) eq_refl |}.

Definition willing_platform : GitHubIntegration.GitHubApi :=
  {| GitHubIntegration.api_answer := fun _ => Ret VNone |}.

(** * Properties *)

(** Runs the monadic operators of a computation applied to a state. *)
Ltac run_m :=
  repeat (unfold try_except, try_finally, bind, modify, gets, lift, raise, ret;
          cbv beta iota).

(** ** Text *)

Section TextFacts.

(** [needle] occurs in [s] at index [i]. *)
Definition occurs_at (needle s : pystr) (i : nat) : Prop :=
  exists a b, s = a ++ needle ++ b /\ List.length a = i.

Lemma str_eqb_eq (a b : pystr) : str_eqb a b = true <-> a = b.
Proof.
  unfold str_eqb. destruct (list_eq_dec N.eq_dec a b); split; congruence.
Qed.

Lemma str_eqb_refl (a : pystr) : str_eqb a a = true.
Proof. now apply str_eqb_eq. Qed.

Lemma str_eqb_neq (a b : pystr) : str_eqb a b = false <-> a <> b.
Proof.
  unfold str_eqb. destruct (list_eq_dec N.eq_dec a b); split; congruence.
Qed.

Lemma startswith_spec (p s : pystr) :
  startswith p s = true <-> exists r, s = p ++ r.
Proof.
  revert s. induction p as [|a p IH]; intros s; simpl.
  - split; eauto.
  - destruct s as [|b s].
    + split; [discriminate | intros [r Hr]; discriminate].
    + rewrite andb_true_iff, N.eqb_eq, IH. split.
      * intros [-> [r ->]]. now exists r.
      * intros [r Hr]. injection Hr as -> ->. eauto.
Qed.

Lemma startswith_app (p r : pystr) : startswith p (p ++ r) = true.
Proof. apply startswith_spec. now exists r. Qed.

Lemma occurs_at_0 (needle s : pystr) :
  occurs_at needle s 0 <-> startswith needle s = true.
Proof.
  rewrite startswith_spec. split.
  - intros (a & b & -> & Ha). destruct a; [|discriminate]. now exists b.
  - intros [r ->]. now exists [], r.
Qed.

Lemma occurs_at_S (needle : pystr) (c : N) (s : pystr) (k : nat) :
  occurs_at needle (c :: s) (S k) <-> occurs_at needle s k.
Proof.
  split.
  - intros (a & b & E & Ha). destruct a as [|x a]; [discriminate|].
    simpl in E. injection E as _ ->. exists a, b. split; [reflexivity|].
    simpl in Ha. lia.
  - intros (a & b & -> & Ha). exists (c :: a), b. split; [reflexivity|].
    simpl. lia.
Qed.

Lemma occurs_at_nil (needle : pystr) (k : nat) :
  occurs_at needle [] k -> needle = [] /\ k = 0.
Proof.
  intros (a & b & E & Ha). symmetry in E.
  apply app_eq_nil in E as [-> E]. apply app_eq_nil in E as [-> _].
  split; [reflexivity | now rewrite <- Ha].
Qed.

(** [find] gives the first occurrence. *)
Lemma find_from_spec (needle s : pystr) (i : Z) :
  (0 <= i)%Z ->
  (find_from needle s i = (-1)%Z /\ forall k, ~ occurs_at needle s k)
  \/ (exists k, find_from needle s i = (i + Z.of_nat k)%Z /\ occurs_at needle s k
                /\ forall j, occurs_at needle s j -> k <= j).
Proof.
  revert i. induction s as [|c s IH]; intros i Hi.
  - simpl. destruct (startswith needle []) eqn:E.
    + right. exists 0. rewrite Z.add_0_r. repeat split; [now apply occurs_at_0 | lia].
    + left. split; [reflexivity|]. intros k Hk.
      destruct (occurs_at_nil Hk) as [-> _]. discriminate.
  - cbn [find_from]. destruct (startswith needle (c :: s)) eqn:E.
    + right. exists 0. rewrite Z.add_0_r. repeat split; [now apply occurs_at_0 | lia].
    + destruct (IH (i + 1)%Z ltac:(lia)) as [[H1 H2] | (k & H1 & H2 & H3)].
      * left. split; [assumption|]. intros [|k] Hk.
        -- apply occurs_at_0 in Hk. congruence.
        -- apply occurs_at_S in Hk. now apply (H2 k).
      * right. exists (S k). repeat split.
        -- rewrite H1. lia.
        -- now apply occurs_at_S.
        -- intros [|j] Hj.
           ++ apply occurs_at_0 in Hj. congruence.
           ++ apply occurs_at_S in Hj. apply H3 in Hj. lia.
Qed.

(** [rfind] gives the last occurrence. *)
Lemma rfind_from_spec (needle s : pystr) (i : Z) :
  (0 <= i)%Z ->
  (rfind_from needle s i = (-1)%Z /\ forall k, ~ occurs_at needle s k)
  \/ (exists k, rfind_from needle s i = (i + Z.of_nat k)%Z /\ occurs_at needle s k
                /\ forall j, occurs_at needle s j -> j <= k).
Proof.
  revert i. induction s as [|c s IH]; intros i Hi.
  - simpl. destruct (startswith needle []) eqn:E.
    + right. exists 0. rewrite Z.add_0_r. repeat split; [now apply occurs_at_0 |].
      intros j Hj. destruct (occurs_at_nil Hj) as [_ ->]. lia.
    + left. split; [reflexivity|]. intros k Hk.
      destruct (occurs_at_nil Hk) as [-> _]. discriminate.
  - cbn [rfind_from].
    destruct (IH (i + 1)%Z ltac:(lia)) as [[H1 H2] | (k & H1 & H2 & H3)].
    + rewrite H1. simpl Z.eqb. cbv iota.
      destruct (startswith needle (c :: s)) eqn:E.
      * right. exists 0. rewrite Z.add_0_r. repeat split; [now apply occurs_at_0 |].
        intros [|j] Hj; [lia|]. apply occurs_at_S in Hj. now apply H2 in Hj.
      * left. split; [reflexivity|]. intros [|k] Hk.
        -- apply occurs_at_0 in Hk. congruence.
        -- apply occurs_at_S in Hk. now apply (H2 k).
    + rewrite H1. destruct (Z.eqb_spec (i + 1 + Z.of_nat k) (-1)) as [Hneg|_]; [lia|].
      right. exists (S k). repeat split.
      * lia.
      * now apply occurs_at_S.
      * intros [|j] Hj; [lia|]. apply occurs_at_S in Hj. apply H3 in Hj. lia.
Qed.

Lemma find_first (needle s : pystr) (k : nat) :
  occurs_at needle s k -> (forall j, occurs_at needle s j -> k <= j) ->
  find s needle = Z.of_nat k.
Proof.
  intros Hk Hmin. unfold find.
  destruct (find_from_spec needle s (i := 0%Z) ltac:(lia)) as [[_ H] | (k' & -> & H1 & H2)].
  - now apply H in Hk.
  - apply Hmin in H1. apply H2 in Hk. lia.
Qed.

Lemma find_absent (needle s : pystr) :
  (forall j, ~ occurs_at needle s j) -> find s needle = (-1)%Z.
Proof.
  intros Hnone. unfold find.
  destruct (find_from_spec needle s (i := 0%Z) ltac:(lia)) as [[H _] | (k' & _ & H1 & _)].
  - assumption.
  - now apply Hnone in H1.
Qed.

Lemma rfind_last (needle s : pystr) (k : nat) :
  occurs_at needle s k -> (forall j, occurs_at needle s j -> j <= k) ->
  rfind s needle = Z.of_nat k.
Proof.
  intros Hk Hmax. unfold rfind.
  destruct (rfind_from_spec needle s (i := 0%Z) ltac:(lia)) as [[_ H] | (k' & -> & H1 & H2)].
  - now apply H in Hk.
  - apply Hmax in H1. apply H2 in Hk. lia.
Qed.

Lemma clamp_index_inside {A} (l : list A) (n : nat) :
  n <= List.length l -> clamp_index l (Z.of_nat n) = n.
Proof.
  intros Hn. unfold clamp_index.
  destruct (Z.ltb_spec (Z.of_nat n) 0); [lia|].
  rewrite Z.min_l, Z.max_r by lia. apply Nat2Z.id.
Qed.

(** A slice between two inner indices cuts out the middle. *)
Lemma slice_middle {A} (a b c : list A) :
  slice (a ++ b ++ c) (Z.of_nat (List.length a)) (Z.of_nat (List.length a + List.length b)) = b.
Proof.
  unfold slice.
  rewrite !clamp_index_inside by (rewrite !length_app; lia).
  rewrite skipn_app, skipn_all, Nat.sub_diag. simpl.
  replace (List.length a + List.length b - List.length a) with (List.length b + 0) by lia.
  rewrite firstn_app_2. simpl. apply app_nil_r.
Qed.

End TextFacts.

Section MoreTextFacts.

Lemma find_lower_bound (needle s : pystr) (k : nat) :
  find s needle = Z.of_nat k -> forall j, occurs_at needle s j -> k <= j.
Proof.
  unfold find. intros Hf j Hj.
  destruct (find_from_spec needle s (i := 0%Z) ltac:(lia)) as [[_ H] | (k' & E & _ & H)].
  - now apply H in Hj.
  - apply H in Hj. lia.
Qed.

Lemma rfind_upper_bound (needle s : pystr) (k : nat) :
  rfind s needle = Z.of_nat k -> forall j, occurs_at needle s j -> j <= k.
Proof.
  unfold rfind. intros Hf j Hj.
  destruct (rfind_from_spec needle s (i := 0%Z) ltac:(lia)) as [[_ H] | (k' & E & _ & H)].
  - now apply H in Hj.
  - apply H in Hj. lia.
Qed.

Lemma find_minus_one (needle s : pystr) :
  find s needle = (-1)%Z -> forall j, ~ occurs_at needle s j.
Proof.
  unfold find. intros Hf.
  destruct (find_from_spec needle s (i := 0%Z) ltac:(lia)) as [[_ H] | (k' & E & _ & _)].
  - assumption.
  - lia.
Qed.

Lemma find_cases (needle s : pystr) :
  (find s needle = (-1)%Z /\ forall j, ~ occurs_at needle s j)
  \/ (exists k, find s needle = Z.of_nat k /\ occurs_at needle s k
                /\ forall j, occurs_at needle s j -> k <= j).
Proof.
  unfold find.
  destruct (find_from_spec needle s (i := 0%Z) ltac:(lia)) as [H | (k & E & H)];
    [now left | right; exists k; now rewrite E].
Qed.

Lemma rfind_cases (needle s : pystr) :
  (rfind s needle = (-1)%Z /\ forall j, ~ occurs_at needle s j)
  \/ (exists k, rfind s needle = Z.of_nat k /\ occurs_at needle s k
                /\ forall j, occurs_at needle s j -> j <= k).
Proof.
  unfold rfind.
  destruct (rfind_from_spec needle s (i := 0%Z) ltac:(lia)) as [H | (k & E & H)];
    [now left | right; exists k; now rewrite E].
Qed.

(** The characters of an occurrence. *)
Lemma occurs_at_nth (needle s : pystr) (k t : nat) :
  occurs_at needle s k -> t < List.length needle ->
  nth_error s (k + t) = nth_error needle t.
Proof.
  intros (a & b & -> & <-) Ht.
  rewrite nth_error_app2 by lia.
  replace (List.length a + t - List.length a) with t by lia.
  now rewrite nth_error_app1.
Qed.

End MoreTextFacts.

(** ** Reply parsing (ai_analyzer.py) *)

Section ReplyParsing.
Import AIAnalyzer.
Context {J : JsonLibrary}.

Definition json_tag : pystr := py "```json".
Definition fence : pystr := py "```".

(** [body] is the fenced text of [reply]: it lies between the first
    [```json] tag and the last [```] of the reply. *)
Definition fenced (reply body : pystr) : Prop :=
  exists pre post,
    reply = pre ++ json_tag ++ body ++ fence ++ post
    /\ (forall i, occurs_at json_tag reply i -> List.length pre <= i)
    /\ (forall i, occurs_at fence reply i -> i <= List.length pre + 7 + List.length body).

(** The result that stands for a reply that could not be read. *)
Definition degraded (notice : pystr) (ai_response : PyVal) : PyVal :=
  VDict [(py "summary", VStr notice);
         (py "overall_assessment", VStr undetermined);
         (py "raw_response", ai_response)].

Definition parse_failure_notice (notice : pystr) : Prop :=
  notice = py "無法解析 AI 回應為 JSON 格式"
  \/ exists e, notice = py "解析 AI 回應時出錯: " ++ exn_text e.

Ltac fence_lengths :=
  rewrite ?length_app in *;
  change (List.length json_tag) with 7 in *;
  change (List.length fence) with 3 in *;
  simpl in *; lia.

Lemma fenced_indices (reply body : pystr) :
  fenced reply body ->
  exists k, find reply json_tag = Z.of_nat k
            /\ rfind reply fence = Z.of_nat (k + 7 + List.length body)
            /\ slice reply (Z.of_nat k + 7) (Z.of_nat (k + 7 + List.length body)) = body.
Proof.
  intros (pre & post & E & Hfirst & Hlast). exists (List.length pre). repeat split.
  - apply find_first; [|assumption]. exists pre, (body ++ fence ++ post). now split.
  - apply rfind_last; [|assumption].
    exists (pre ++ json_tag ++ body), post. split.
    + rewrite E, <- !app_assoc. reflexivity.
    + fence_lengths.
  - rewrite E.
    replace (pre ++ json_tag ++ body ++ fence ++ post)
      with ((pre ++ json_tag) ++ body ++ fence ++ post) by now rewrite <- app_assoc.
    replace (Z.of_nat (List.length pre) + 7)%Z
      with (Z.of_nat (List.length (pre ++ json_tag)))
      by fence_lengths.
    replace (List.length pre + 7 + List.length body)
      with (List.length (pre ++ json_tag) + List.length body)
      by fence_lengths.
    apply slice_middle.
Qed.

(** Where a tag is found, the last fence is either the one that opens the
    tag, or a closing fence after the tag. *)
Lemma tag_found_cases (reply : pystr) (k : nat) :
  occurs_at json_tag reply k ->
  (forall j, occurs_at json_tag reply j -> k <= j) ->
  rfind reply fence = Z.of_nat k
  \/ exists body, fenced reply body
                  /\ rfind reply fence = Z.of_nat (k + 7 + List.length body).
Proof.
  intros Htag Hfirst.
  assert (Hopen : occurs_at fence reply k).
  { destruct Htag as (a & b & -> & Ha). exists a, (py "json" ++ b). now split. }
  destruct (rfind_cases fence reply) as [[_ Hnone] | (m & Hm & Hocc & Hmax)].
  - now apply Hnone in Hopen.
  - assert (Hkm : k <= m) by now apply Hmax.
    destruct (Nat.eq_dec m k) as [-> | Hne]; [now left|].
    assert (Hfar : k + 7 <= m).
    { destruct (Nat.le_gt_cases (k + 7) m) as [|Hlt]; [assumption|exfalso].
      assert (Hc : forall t, t < 7 -> nth_error reply (k + t) = nth_error json_tag t)
        by (intros t Ht; now apply occurs_at_nth).
      assert (Hd : forall t, t < 3 -> nth_error reply (m + t) = nth_error fence t)
        by (intros t Ht; now apply occurs_at_nth).
      assert (Hcases : m = k + 1 \/ m = k + 2 \/ m = k + 3 \/ m = k + 4
                       \/ m = k + 5 \/ m = k + 6) by lia.
      destruct Hcases as [-> | [-> | [-> | [-> | [-> | ->]]]]].
      - specialize (Hc 3 ltac:(lia)). specialize (Hd 2 ltac:(lia)).
        replace (k + 1 + 2) with (k + 3) in Hd by lia. rewrite Hc in Hd. discriminate.
      - specialize (Hc 3 ltac:(lia)). specialize (Hd 1 ltac:(lia)).
        replace (k + 2 + 1) with (k + 3) in Hd by lia. rewrite Hc in Hd. discriminate.
      - specialize (Hc 3 ltac:(lia)). specialize (Hd 0 ltac:(lia)).
        replace (k + 3 + 0) with (k + 3) in Hd by lia. rewrite Hc in Hd. discriminate.
      - specialize (Hc 4 ltac:(lia)). specialize (Hd 0 ltac:(lia)).
        replace (k + 4 + 0) with (k + 4) in Hd by lia. rewrite Hc in Hd. discriminate.
      - specialize (Hc 5 ltac:(lia)). specialize (Hd 0 ltac:(lia)).
        replace (k + 5 + 0) with (k + 5) in Hd by lia. rewrite Hc in Hd. discriminate.
      - specialize (Hc 6 ltac:(lia)). specialize (Hd 0 ltac:(lia)).
        replace (k + 6 + 0) with (k + 6) in Hd by lia. rewrite Hc in Hd. discriminate. }
    right.
    destruct Htag as (a & b & E & Ha). destruct Hocc as (a' & b' & E' & Ha').
    assert (Hsplit : (a ++ json_tag) ++ b = a' ++ fence ++ b')
      by (rewrite <- app_assoc, <- E; exact E').
    apply app_eq_app in Hsplit as [l [[H1 H2] | [H1 H2]]].
    + assert (l = []) as ->.
      { apply (f_equal (@List.length N)) in H1.
        destruct l; [reflexivity | fence_lengths]. }
      rewrite app_nil_r in H1. simpl in H2. subst a'.
      exists []. split.
      * exists a, b'. repeat split.
        -- rewrite E, <- H2. reflexivity.
        -- rewrite Ha. assumption.
        -- intros i Hi. apply Hmax in Hi. fence_lengths.
      * rewrite Hm. f_equal. fence_lengths.
    + subst a'. exists l. split.
      * exists a, b'. repeat split.
        -- rewrite E, H2. reflexivity.
        -- rewrite Ha. assumption.
        -- intros i Hi. apply Hmax in Hi. fence_lengths.
      * rewrite Hm. f_equal. fence_lengths.
Qed.

(** What the parser does on text, by cases on the tag. *)
Lemma parse_tagged (reply : pystr) (k m : nat) (p : Process) :
  find reply json_tag = Z.of_nat k -> rfind reply fence = Z.of_nat m ->
  _parse_ai_response (VStr reply) p =
  match json_loads (strip (slice reply (Z.of_nat k + 7) (Z.of_nat m))) with
  | Ret v => (Ret v, p)
  | Raise e =>
      (Ret (degraded (py "解析 AI 回應時出錯: " ++ exn_text e) (VStr reply)),
       {| log := log p ++ [(ERROR, py "解析 AI 回應時出錯: " ++ exn_text e)]; sent := sent p |})
  end.
Proof.
  intros Hf Hr. unfold _parse_ai_response, try_except, lift.
  fold json_tag. fold fence. rewrite Hf, Hr.
  destruct (Z.eqb_spec (Z.of_nat k) (-1)); [lia|].
  destruct (Z.eqb_spec (Z.of_nat m) (-1)); [lia|]. simpl negb. cbv iota. simpl andb. cbv iota.
  destruct (json_loads _); reflexivity.
Qed.

Lemma parse_untagged (reply : pystr) (p : Process) :
  find reply json_tag = (-1)%Z ->
  _parse_ai_response (VStr reply) p =
  match json_loads reply with
  | Ret v => (Ret v, p)
  | Raise e => (Ret (degraded (py "無法解析 AI 回應為 JSON 格式") (VStr reply)), p)
  end.
Proof.
  intros Hf. unfold _parse_ai_response, try_except, lift.
  fold json_tag. rewrite Hf. simpl.
  destruct (json_loads reply); reflexivity.
Qed.

(** C1 (amended).  When the reply holds a [```json] tag and a closing fence,
    the result is the JSON decoded from the trimmed text between the first
    tag and the last [```] of the whole reply, whatever prose surrounds it;
    when the reply holds no tag and is JSON as a whole, the result is the
    reply decoded directly.  Nothing is logged on either path. *)
Theorem parse_reply_fenced_or_bare (reply : pystr) (v : PyVal) (p : Process) :
  (forall body, fenced reply body -> json_loads (strip body) = Ret v ->
     _parse_ai_response (VStr reply) p = (Ret v, p))
  /\ ((forall i, ~ occurs_at json_tag reply i) -> json_loads reply = Ret v ->
      _parse_ai_response (VStr reply) p = (Ret v, p)).
Proof.
  split.
  - intros body Hfenced Hjson.
    destruct (fenced_indices Hfenced) as (k & Hfind & Hrfind & Hslice).
    rewrite (@parse_tagged _ _ _ p Hfind Hrfind), Hslice, Hjson. reflexivity.
  - intros Hnone Hjson.
    rewrite (@parse_untagged _ p (find_absent Hnone)), Hjson. reflexivity.
Qed.

(** The parser returns on every value, text or not. *)
Lemma parse_never_raises (ai_response : PyVal) (p : Process) :
  exists v p', _parse_ai_response ai_response p = (Ret v, p').
Proof.
  unfold _parse_ai_response, try_except, lift, bind, logger, modify, ret, raise.
  destruct ai_response; try (eexists; eexists; reflexivity).
  destruct (_ && _)%bool.
  - destruct (json_loads _); eexists; eexists; reflexivity.
  - destruct (json_loads _); eexists; eexists; reflexivity.
Qed.

(** C2.  The parser never raises.  When the fenced text (if the reply has
    one) is not JSON and the whole reply is not JSON either, the result is a
    dict whose summary is a parse-failure notice, whose overall assessment is
    the undetermined state, and whose [raw_response] is the reply itself. *)
Theorem parse_reply_degrades (reply : pystr) (p : Process) :
  (forall (x : PyVal) (q : Process), exists v q', _parse_ai_response x q = (Ret v, q'))
  /\ ((forall body, fenced reply body -> exists e, json_loads (strip body) = Raise e) ->
      (exists e, json_loads reply = Raise e) ->
      exists notice p',
        _parse_ai_response (VStr reply) p = (Ret (degraded notice (VStr reply)), p')
        /\ parse_failure_notice notice
        /\ lookup (py "raw_response") [(py "summary", VStr notice);
                                       (py "overall_assessment", VStr undetermined);
                                       (py "raw_response", VStr reply)] = Some (VStr reply)).
Proof.
  split; [exact parse_never_raises|].
  intros Hfenced [e He].
  destruct (find_cases json_tag reply) as [[Hf _] | (k & Hf & Hocc & Hmin)].
  - rewrite (@parse_untagged _ p Hf), He.
    eexists; eexists; repeat split. now left.
  - destruct (tag_found_cases Hocc Hmin) as [Hr | (body & Hb & Hr)].
    + rewrite (@parse_tagged _ _ _ p Hf Hr).
      assert (Hempty : slice reply (Z.of_nat k + 7) (Z.of_nat k) = []).
      { unfold slice.
        replace (clamp_index reply (Z.of_nat k) - clamp_index reply (Z.of_nat k + 7))
          with 0; [reflexivity|].
        unfold clamp_index.
        destruct (Z.ltb_spec (Z.of_nat k) 0); [lia|].
        destruct (Z.ltb_spec (Z.of_nat k + 7) 0); lia. }
      rewrite Hempty. change (strip []) with (@nil N).
      destruct json_loads_empty as [e0 ->].
      eexists; eexists; repeat split. right. now exists e0.
    + rewrite (@parse_tagged _ _ _ p Hf Hr).
      destruct (fenced_indices Hb) as (k' & Hf' & Hr' & Hslice).
      assert (k' = k) as -> by (rewrite Hf in Hf'; lia).
      rewrite Hslice. destruct (Hfenced body Hb) as [e1 ->].
      eexists; eexists; repeat split. right. now exists e1.
Qed.

End ReplyParsing.

(** The claim as the specification words it: a fenced block is closed by the
    first fence that follows its tag. *)
Definition fence_block (reply body : pystr) : Prop :=
  exists pre post,
    reply = pre ++ json_tag ++ body ++ fence ++ post
    /\ (forall i, occurs_at json_tag reply i -> List.length pre <= i)
    /\ (forall i, ~ occurs_at fence body i).

Definition fenced_reply_claim (J : JsonLibrary) : Prop :=
  forall reply body v p,
    fence_block reply body -> json_loads (strip body) = Ret v ->
    fst (AIAnalyzer._parse_ai_response (VStr reply) p) = Ret v.

Definition idle : AIAnalyzer.Process := {| AIAnalyzer.log := []; AIAnalyzer.sent := [] |}.

Definition two_block_reply : pystr := py "```json
{}
```
See also:
```
x
```".

(** C1, as stated, fails on a reply with a second code block after the JSON
    block: the text up to the last fence is not JSON, and the result is the
    degraded one instead of the empty object inside the first block. *)
Lemma fenced_reply_claim_fails : ~ fenced_reply_claim json_ref.
Proof.
  intros H.
  specialize (H two_block_reply (py "
{}
") (VDict []) idle).
  assert (Hblock : fence_block two_block_reply (py "
{}
")).
  { exists [], (py "
See also:
```
x
```"). repeat split.
    - intros i _. simpl. lia.
    - apply find_minus_one. vm_compute. reflexivity. }
  specialize (H Hblock eq_refl). vm_compute in H. discriminate H.
Qed.

(** C1, witness: a fenced reply with prose around it, and a bare reply. *)
Lemma parse_reply_fenced_or_bare_witness :
  AIAnalyzer._parse_ai_response (J := json_ref) (VStr (py "Here it is:
```json
[1, 2]
```
Bye.")) idle = (Ret (VList [VInt 1; VInt 2]), idle)
  /\ AIAnalyzer._parse_ai_response (J := json_ref) (VStr (py "[1, 2]")) idle
     = (Ret (VList [VInt 1; VInt 2]), idle).
Proof.
  split.
  - apply (proj1 (@parse_reply_fenced_or_bare json_ref _ _ idle) (py "
[1, 2]
")); [|reflexivity].
    exists (py "Here it is:
"), (py "
Bye."). split; [reflexivity|]. split.
    + apply find_lower_bound. vm_compute. reflexivity.
    + apply rfind_upper_bound. vm_compute. reflexivity.
  - apply (proj2 (@parse_reply_fenced_or_bare json_ref _ _ idle)); [|reflexivity].
    apply find_minus_one. vm_compute. reflexivity.
Defined.

(** C2, witness: a reply that is plain prose. *)
Lemma parse_reply_degrades_witness :
  exists notice p',
    AIAnalyzer._parse_ai_response (J := json_ref) (VStr (py "LGTM, nothing to add.")) idle
    = (Ret (degraded notice (VStr (py "LGTM, nothing to add."))), p')
    /\ parse_failure_notice notice
    /\ lookup (py "raw_response")
         [(py "summary", VStr notice);
          (py "overall_assessment", VStr AIAnalyzer.undetermined);
          (py "raw_response", VStr (py "LGTM, nothing to add."))]
       = Some (VStr (py "LGTM, nothing to add.")).
Proof.
  apply (proj2 (@parse_reply_degrades json_ref (py "LGTM, nothing to add.") idle)).
  - intros body (pre & post & E & _). exfalso.
    assert (Hnone : forall j, ~ occurs_at json_tag (py "LGTM, nothing to add.") j)
      by (apply find_minus_one; vm_compute; reflexivity).
    apply (Hnone (List.length pre)). exists pre, (body ++ fence ++ post).
    split; [exact E | reflexivity].
  - eexists. vm_compute. reflexivity.
Defined.

(** ** The LLM call (ai_analyzer.py) *)

Section LlmCall.
Import AIAnalyzer.
Context {U : UnicodeData} {J : JsonLibrary} {Net : Network}.

(** C4 (amended).  On a response whose status is not 200, [analyze_code]
    raises an [Exception] whose text carries the status code; the handler
    around the call logs it and raises it again, so the caller gets it.  The
    response body goes to the error log only: the exception is the same
    whatever the body is. *)
Theorem analyze_code_non_200 (self : Analyzer) (xml_content : pystr)
    (focus_areas : option (list pystr)) (repo_name pr_title pr_description : option pystr)
    (response : HttpResponse) (p : Process) :
  let request :=
    messages_request self
      (_build_prompt xml_content focus_areas repo_name pr_title pr_description) in
  let failure := py "AI API 調用失敗: " ++ int_text (status_code response) in
  http_post request = Ret response ->
  status_code response <> 200%Z ->
  analyze_code self xml_content focus_areas repo_name pr_title pr_description p
  = (Raise (mkExn Exception failure),
     {| log := log p ++ [(INFO, py "正在調用 AI API 進行程式碼分析");
                         (ERROR, failure ++ py " " ++ text response);
                         (ERROR, py "程式碼分析時出錯: " ++ failure)];
        sent := sent p ++ [request] |}).
Proof.
  intros request failure Hpost Hstatus.
  unfold analyze_code, post, logger. run_m.
  fold request. rewrite Hpost. cbv beta iota.
  apply Z.eqb_neq in Hstatus. rewrite Hstatus. cbn [negb log sent exn_text].
  unfold failure. rewrite <- !app_assoc. reflexivity.
Qed.

End LlmCall.

(** An endpoint that answers every request with the same response. *)
Definition fixed_endpoint (status : Z) (body : pystr) : AIAnalyzer.Network :=
  {| AIAnalyzer.http_post := fun _ =>
       Ret {| AIAnalyzer.status_code := status; AIAnalyzer.text := body |} |}.

Definition reviewer : AIAnalyzer.Analyzer :=
  {| AIAnalyzer.api_key := py "key"; AIAnalyzer.model := py "claude-3-haiku-20240307" |}.

(** The claim as the specification words it: the response body can be read
    off the error that [analyze_code] raises. *)
Definition api_error_carries_body : Prop :=
  exists body_of : PyExn -> pystr,
    forall (Net : AIAnalyzer.Network) (response : AIAnalyzer.HttpResponse),
      AIAnalyzer.http_post
        (AIAnalyzer.messages_request reviewer
           (AIAnalyzer._build_prompt (py "<xml/>") None None None None)) = Ret response ->
      AIAnalyzer.status_code response <> 200%Z ->
      exists e,
        fst (AIAnalyzer.analyze_code (U := latin1) (J := json_ref) reviewer (py "<xml/>")
               None None None None idle) = Raise e
        /\ body_of e = AIAnalyzer.text response.

(** C4, as stated, fails: two responses with status 500 and different
    bodies raise the same error, so the error does not carry the body. *)
Lemma api_error_carries_body_fails : ~ api_error_carries_body.
Proof.
  intros [body_of H].
  destruct (H (fixed_endpoint 500 (py "overloaded")) _ eq_refl ltac:(discriminate))
    as (e1 & He1 & Hb1).
  destruct (H (fixed_endpoint 500 (py "bad gateway")) _ eq_refl ltac:(discriminate))
    as (e2 & He2 & Hb2).
  vm_compute in He1, He2. rewrite He1 in He2. injection He2 as <-.
  rewrite Hb1 in Hb2. vm_compute in Hb2. discriminate Hb2.
Qed.

(** C4, witness: status 503. *)
Lemma analyze_code_non_200_witness :
  fst (AIAnalyzer.analyze_code (U := latin1) (J := json_ref)
         (Net := fixed_endpoint 503 (py "overloaded"))
         reviewer (py "<xml/>") None None None None idle)
  = Raise (mkExn Exception (py "AI API 調用失敗: 503")).
Proof.
  rewrite (@analyze_code_non_200 latin1 json_ref (fixed_endpoint 503 (py "overloaded"))
             reviewer (py "<xml/>") None None None None
             {| AIAnalyzer.status_code := 503; AIAnalyzer.text := py "overloaded" |} idle
             eq_refl ltac:(discriminate)).
  reflexivity.
Defined.

(** ** Config merge (config_manager.py) *)

Section ConfigMerge.
Import ConfigManager.

(** The value a key of the override ends with: a dict merged into a default
    dict, anything else as it is. *)
Definition merged_value (default_value : option PyVal) (user_value : PyVal) : PyVal :=
  match default_value, user_value with
  | Some (VDict sub), VDict user_sub => VDict (_merge_configs sub user_sub)
  | _, _ => user_value
  end.

(** The value at the end of a path of keys. *)
Fixpoint lookup_path (path : list pystr) (v : PyVal) : option PyVal :=
  match path with
  | [] => Some v
  | key :: rest =>
      match v with
      | VDict d =>
          match lookup key d with
          | Some x => lookup_path rest x
          | None => None
          end
      | _ => None
      end
  end.

(** A well-formed value: the keys of every dict in it are distinct, as they
    are in a Python dict. *)
Fixpoint well_formed (v : PyVal) : Prop :=
  match v with
  | VDict d =>
      NoDup (map fst d)
      /\ (fix all (l : list (pystr * PyVal)) : Prop :=
            match l with
            | [] => True
            | kv :: r => well_formed (snd kv) /\ all r
            end) d
  | VList l =>
      (fix all (l : list PyVal) : Prop :=
         match l with
         | [] => True
         | x :: r => well_formed x /\ all r
         end) l
  | _ => True
  end.

Definition is_dict (v : PyVal) : bool :=
  match v with
  | VDict _ => true
  | _ => false
  end.

Lemma lookup_setitem_eq (d : PyDict) (k : pystr) (v : PyVal) :
  lookup k (setitem d k v) = Some v.
Proof.
  induction d as [|[k' v'] d IH]; simpl.
  - now rewrite str_eqb_refl.
  - destruct (str_eqb k' k) eqn:E; simpl; rewrite E; [reflexivity | exact IH].
Qed.

Lemma lookup_setitem_neq (d : PyDict) (k k' : pystr) (v : PyVal) :
  k' <> k -> lookup k (setitem d k' v) = lookup k d.
Proof.
  intros Hne. induction d as [|[k0 v0] d IH]; simpl.
  - apply str_eqb_neq in Hne. now rewrite Hne.
  - destruct (str_eqb k0 k') eqn:E; simpl.
    + apply str_eqb_eq in E as ->. apply str_eqb_neq in Hne. now rewrite Hne.
    + destruct (str_eqb k0 k); [reflexivity | exact IH].
Qed.

Lemma lookup_absent (d : PyDict) (k : pystr) :
  ~ In k (map fst d) -> lookup k d = None.
Proof.
  induction d as [|[k' v'] d IH]; simpl; intros Hn; [reflexivity|].
  destruct (str_eqb k' k) eqn:E.
  - apply str_eqb_eq in E. tauto.
  - apply IH. tauto.
Qed.

Lemma fold_left_pointwise {A B} (f g : A -> B -> A) (l : list B) (a : A) :
  (forall x y, f x y = g x y) -> fold_left f l a = fold_left g l a.
Proof.
  intros H. revert a. induction l as [|b l IH]; intros a; simpl; [reflexivity|].
  now rewrite H, IH.
Qed.

(** The merge, in the shape of the source: a copy of the defaults updated
    by one [merge_item] per item of the override. *)
Lemma _merge_configs_unfold (default_config user_config : PyDict) :
  _merge_configs default_config user_config
  = fold_left merge_item user_config default_config.
Proof.
  unfold _merge_configs. cbn [merge_into].
  apply fold_left_pointwise. intros config [key value]. unfold merge_item.
  destruct (lookup key config) as [[]|]; try reflexivity.
  destruct value; reflexivity.
Qed.

Lemma merge_item_setitem (config : PyDict) (key : pystr) (value : PyVal) :
  merge_item config (key, value)
  = setitem config key (merged_value (lookup key config) value).
Proof.
  unfold merge_item, merged_value.
  destruct (lookup key config) as [[]|]; try reflexivity.
  destruct value; reflexivity.
Qed.

Lemma lookup_merge (user_config default_config : PyDict) (key : pystr) :
  NoDup (map fst user_config) ->
  lookup key (_merge_configs default_config user_config)
  = match lookup key user_config with
    | None => lookup key default_config
    | Some value => Some (merged_value (lookup key default_config) value)
    end.
Proof.
  rewrite _merge_configs_unfold. revert default_config.
  induction user_config as [|[k1 v1] u IH]; intros d Hnd; [reflexivity|].
  simpl in Hnd. inversion Hnd as [|? ? Hnotin Hnd']; subst.
  cbn [fold_left lookup]. rewrite (IH _ Hnd'), merge_item_setitem.
  destruct (str_eqb k1 key) eqn:E.
  - apply str_eqb_eq in E as ->. rewrite lookup_absent by assumption.
    apply lookup_setitem_eq.
  - apply str_eqb_neq in E. now rewrite lookup_setitem_neq by assumption.
Qed.

Lemma well_formed_keys (d : PyDict) : well_formed (VDict d) -> NoDup (map fst d).
Proof. now intros [H _]. Qed.

Lemma well_formed_lookup (d : PyDict) (k : pystr) (v : PyVal) :
  well_formed (VDict d) -> lookup k d = Some v -> well_formed v.
Proof.
  intros [_ Hall]. induction d as [|[k' v'] d IH]; simpl; [discriminate|].
  destruct Hall as [Hv Hall]. destruct (str_eqb k' k).
  - intros [= <-]. exact Hv.
  - now apply IH.
Qed.

Lemma lookup_path_dict_end (path : list pystr) (v : PyVal) (d : PyDict) :
  lookup_path path v = Some (VDict d) -> is_dict v = true.
Proof.
  destruct path; simpl.
  - now intros [= ->].
  - destruct v; try discriminate. reflexivity.
Qed.

(** C5.  The merge is key-wise and recursive.  At one level: a key absent
    from the override keeps its default; a key of the override is in the
    result, a dict merged with a default dict by the same function, any
    other value as it is.  At every nesting level: every non-dict value of
    the override sits at the same path of the result, and below a path where
    both sides hold dicts a key absent from the override keeps its
    default. *)
Theorem merge_configs_keywise (default_config user_config : PyDict) :
  well_formed (VDict user_config) ->
  (forall key,
     match lookup key user_config with
     | None =>
         lookup key (_merge_configs default_config user_config)
         = lookup key default_config
     | Some value =>
         lookup key (_merge_configs default_config user_config)
         = Some (match lookup key default_config, value with
                 | Some (VDict sub), VDict user_sub => VDict (_merge_configs sub user_sub)
                 | _, _ => value
                 end)
     end)
  /\ (forall path leaf,
        path <> [] -> lookup_path path (VDict user_config) = Some leaf ->
        is_dict leaf = false ->
        lookup_path path (VDict (_merge_configs default_config user_config)) = Some leaf)
  /\ (forall path key sub user_sub,
        lookup_path path (VDict default_config) = Some (VDict sub) ->
        lookup_path path (VDict user_config) = Some (VDict user_sub) ->
        lookup key user_sub = None ->
        lookup_path (path ++ [key]) (VDict (_merge_configs default_config user_config))
        = lookup key sub).
Proof.
  intros Hwf. split; [|split].
  - intros key. rewrite lookup_merge by (now apply well_formed_keys).
    destruct (lookup key user_config); reflexivity.
  - intros path. revert default_config user_config Hwf.
    induction path as [|key rest IH]; intros d u Hwf leaf Hne Hleaf Hnd; [congruence|].
    cbn [lookup_path] in *. rewrite lookup_merge by (now apply well_formed_keys).
    destruct (lookup key u) as [uv|] eqn:Eu; [|discriminate].
    destruct rest as [|key' rest'].
    + cbn [lookup_path] in *. injection Hleaf as ->.
      unfold merged_value. destruct leaf; try discriminate;
        destruct (lookup key d) as [[]|]; reflexivity.
    + assert (Hwf' : well_formed uv) by (eapply well_formed_lookup; eassumption).
      destruct uv as [| | | | | |us]; try discriminate.
      unfold merged_value. destruct (lookup key d) as [dv|]; [|exact Hleaf].
      destruct dv; try exact Hleaf.
      apply IH; [assumption | discriminate | assumption | assumption].
  - intros path. revert default_config user_config Hwf.
    induction path as [|k rest IH]; intros d u Hwf key sub user_sub Hd Hu Hnone.
    + cbn [lookup_path app] in *. injection Hd as ->. injection Hu as ->.
      rewrite lookup_merge by (now apply well_formed_keys). rewrite Hnone.
      destruct (lookup key sub); reflexivity.
    + cbn [lookup_path app] in *. rewrite lookup_merge by (now apply well_formed_keys).
      destruct (lookup k u) as [uv|] eqn:Eu; [|discriminate].
      destruct (lookup k d) as [dv|] eqn:Ed; [|discriminate].
      assert (Hwf' : well_formed uv) by (eapply well_formed_lookup; eassumption).
      pose proof (@lookup_path_dict_end _ _ _ Hu) as Hud.
      pose proof (@lookup_path_dict_end _ _ _ Hd) as Hdd.
      destruct uv; try discriminate. destruct dv; try discriminate.
      unfold merged_value. cbv beta iota. now apply IH with (user_sub := user_sub).
Qed.

End ConfigMerge.

Definition user_override : PyDict :=
  [(py "ai", VDict [(py "model", VStr (py "claude-3-opus"))]);
   (py "review_focus", VList [VStr (py "security")])].

(** C5, witness: an override of the model name and of the focus list. *)
Lemma merge_configs_keywise_witness :
  lookup (py "ai") (ConfigManager._merge_configs ConfigManager.default_config user_override)
  = Some (VDict [(py "model", VStr (py "claude-3-opus")); (py "max_tokens", VInt 4000)])
  /\ lookup_path [py "ai"; py "max_tokens"]
       (VDict (ConfigManager._merge_configs ConfigManager.default_config user_override))
     = Some (VInt 4000).
Proof.
  assert (Hwf : well_formed (VDict user_override)).
  { cbn. repeat split; repeat constructor; cbn; intuition discriminate. }
  destruct (merge_configs_keywise ConfigManager.default_config Hwf) as (H1 & _ & H3).
  split.
  - exact (H1 (py "ai")).
  - exact (H3 [py "ai"] (py "max_tokens") _ _ eq_refl eq_refl eq_refl).
Defined.

(** ** Focus tags (config_manager.py) *)

Section FocusTags.
Import ConfigManager.
Context {U : UnicodeData}.

Definition marker : pystr := py "AI-REVIEW-FOCUS:".

(** A tag: a non-empty run of word characters. *)
Definition word_run (t : pystr) : Prop :=
  t <> [] /\ Forall (fun c => is_word c = true) t.

(** A text without a tag token: no [#] in it is followed by a word
    character. *)
Definition no_token (s : pystr) : Prop :=
  forall a c b, s = a ++ 35%N :: c :: b -> is_word c = false.

(** The tag tokens of a text, from left to right: the text before the first
    [#] that a word character follows, the longest run of word characters
    after that [#], and the tokens of what follows the run. *)
Inductive tokens : pystr -> list pystr -> Prop :=
| tokens_none (s : pystr) : no_token s -> tokens s []
| tokens_next (sep t rest : pystr) (tags : list pystr) :
    no_token sep -> word_run t ->
    match rest with [] => True | c :: _ => is_word c = false end ->
    tokens rest tags ->
    tokens (sep ++ 35%N :: t ++ rest) (t :: tags).

(** What follows a marker: the blanks [ws] after it (a line break is a
    blank), then the text [line] up to the next line break or the end of the
    description, and the [rest] from that line break on. *)
Definition marker_line (ws line rest : pystr) : Prop :=
  Forall (fun c => is_space c = true) ws
  /\ Forall (fun c => c <> 10%N) line
  /\ match line with
     | c :: _ => is_space c = false
     | [] => rest = []
     end
  /\ (rest = [] \/ exists post, rest = 10%N :: post).

(** A literal at the head of a pattern fails wherever the text does not
    start with it. *)
Lemma rmatch_lit_fails {R} (l : pystr) (r : Re.Regex) (s : pystr) (caps : list pystr)
    (k : pystr -> list pystr -> option R) :
  startswith l s = false -> Re.rmatch (Re.Seq (Re.Lit l) r) s caps k = None.
Proof. intros H. cbn [Re.rmatch]. now rewrite H. Qed.

(** The search skips the text before the first occurrence of the literal. *)
Lemma search_skips (l : pystr) (r : Re.Regex) (pre s : pystr) :
  (forall i, occurs_at l (pre ++ s) i -> List.length pre <= i) ->
  Re.search (Re.Seq (Re.Lit l) r) (pre ++ s) = Re.search (Re.Seq (Re.Lit l) r) s.
Proof.
  induction pre as [|c pre IH]; intros Hfirst; [reflexivity|].
  cbn [app Re.search]. rewrite rmatch_lit_fails.
  - apply IH. intros i Hi. apply (occurs_at_S l c) in Hi. apply Hfirst in Hi.
    simpl in Hi. lia.
  - destruct (startswith l (c :: pre ++ s)) eqn:E; [|reflexivity].
    apply occurs_at_0 in E. apply Hfirst in E. simpl in E. lia.
Qed.

Lemma search_absent (l : pystr) (r : Re.Regex) (s : pystr) :
  (forall i, ~ occurs_at l s i) -> Re.search (Re.Seq (Re.Lit l) r) s = None.
Proof.
  induction s as [|c s IH]; intros Hnone.
  - cbn [Re.search]. rewrite rmatch_lit_fails; [reflexivity|].
    destruct (startswith l []) eqn:E; [|reflexivity].
    apply occurs_at_0 in E. now apply Hnone in E.
  - cbn [Re.search]. rewrite rmatch_lit_fails.
    + apply IH. intros i Hi. apply (occurs_at_S l c) in Hi. now apply Hnone in Hi.
    + destruct (startswith l (c :: s)) eqn:E; [|reflexivity].
      apply occurs_at_0 in E. now apply Hnone in E.
Qed.

(** A lazy [.*?] runs to the first newline when what follows the group can
    only match there. *)
Lemma lazy_star_to_newline {R} (content rest : pystr) (k : pystr -> option R) :
  (forall c tl, c <> 10%N -> k (c :: tl) = None) ->
  Forall (fun c => c <> 10%N) content ->
  Re.lazy_star Re.Dot (content ++ 10%N :: rest) k = k (10%N :: rest).
Proof.
  intros Hk Hcontent. induction Hcontent as [|c content Hc _ IH].
  - cbn [app Re.lazy_star Re.in_class]. rewrite N.eqb_refl. simpl negb. cbv iota.
    destruct (k (10%N :: rest)); reflexivity.
  - cbn [app Re.lazy_star Re.in_class]. rewrite (Hk c _ Hc).
    apply N.eqb_neq in Hc. rewrite Hc. exact IH.
Qed.

(** It runs to the end of a text without a newline. *)
Lemma lazy_star_to_end {R} (content : pystr) (k : pystr -> option R) :
  (forall c tl, c <> 10%N -> k (c :: tl) = None) ->
  Forall (fun c => c <> 10%N) content ->
  Re.lazy_star Re.Dot content k = k [].
Proof.
  intros Hk Hcontent. induction Hcontent as [|c content Hc _ IH].
  - cbn [Re.lazy_star]. destruct (k []); reflexivity.
  - cbn [Re.lazy_star Re.in_class]. rewrite (Hk c _ Hc).
    apply N.eqb_neq in Hc. rewrite Hc. exact IH.
Qed.

(** A greedy repetition takes the whole run of characters of its class when
    what follows accepts the rest. *)
Lemma star_run {R} (c : Re.CharClass) (run rest : pystr) (k : pystr -> option R) (v : R) :
  Forall (fun x => Re.in_class c x = true) run ->
  match rest with [] => True | x :: _ => Re.in_class c x = false end ->
  k rest = Some v ->
  Re.star c (run ++ rest) k = Some v.
Proof.
  intros Hrun Hrest Hk. induction Hrun as [|x run Hx _ IH].
  - cbn [app]. destruct rest as [|x r]; cbn [Re.star]; [exact Hk|].
    rewrite Hrest. exact Hk.
  - cbn [app Re.star]. rewrite Hx, IH. reflexivity.
Qed.

Lemma firstn_minus_app {A} (a b : list A) :
  firstn (List.length (a ++ b) - List.length b) (a ++ b) = a.
Proof.
  rewrite length_app. replace (List.length a + List.length b - List.length b)
    with (List.length a + 0) by lia.
  rewrite firstn_app_2. simpl. apply app_nil_r.
Qed.

(** One match of the tag pattern. *)
Lemma match_tag (t rest : pystr) :
  word_run t ->
  match rest with [] => True | c :: _ => is_word c = false end ->
  Re.rmatch tag_pattern (35%N :: t ++ rest) [] (fun s' caps => Some (caps, s'))
  = Some ([t], rest).
Proof.
  intros [Hne Hall] Hrest. destruct t as [|c t]; [congruence|].
  inversion Hall as [|? ? Hc Hall']; subst.
  unfold tag_pattern. cbn [Re.rmatch]. change (startswith (py "#") (35%N :: (c :: t) ++ rest))
    with true. cbv iota. change (skipn (List.length (py "#")) (35%N :: (c :: t) ++ rest))
    with ((c :: t) ++ rest).
  cbn [app Re.in_class]. rewrite Hc.
  erewrite star_run; [reflexivity | exact Hall' | exact Hrest |].
  cbn [app]. f_equal. f_equal. f_equal.
  change (c :: t ++ rest) with ((c :: t) ++ rest). apply firstn_minus_app.
Qed.

(** The tag pattern does not match at a character that starts no token. *)
Lemma no_match_tag (c : N) (s : pystr) :
  (c = 35%N -> match s with [] => True | x :: _ => is_word x = false end) ->
  Re.rmatch tag_pattern (c :: s) [] (fun s' caps => Some (caps, s')) = None.
Proof.
  intros H. unfold tag_pattern. cbn [Re.rmatch].
  destruct (startswith (py "#") (c :: s)) eqn:E; [|reflexivity].
  assert (Hc : c = 35%N).
  { cbn [startswith] in E. change (py "#") with [35%N] in E. cbn [startswith] in E.
    apply andb_true_iff in E as [E _]. apply N.eqb_eq in E. now subst. }
  specialize (H Hc). subst c.
  change (skipn (List.length (py "#")) (35%N :: s)) with s.
  destruct s as [|x r]; [reflexivity|]. cbn [Re.in_class]. now rewrite H.
Qed.

Lemma no_token_tail (c : N) (s : pystr) : no_token (c :: s) -> no_token s.
Proof. intros H a x b E. apply (H (c :: a) x b). now rewrite E. Qed.

Lemma no_token_head (c : N) (s : pystr) :
  no_token (c :: s) ->
  c = 35%N -> match s with [] => True | x :: _ => is_word x = false end.
Proof. intros H ->. destruct s as [|x r]; [exact I|]. now apply (H [] x r). Qed.

Lemma findall_no_token (s : pystr) (fuel : nat) :
  no_token s -> Re.findall_from fuel tag_pattern s = [].
Proof.
  revert fuel. induction s as [|c s IH]; intros fuel Hs; destruct fuel; try reflexivity.
  cbn [Re.findall_from]. rewrite no_match_tag by now apply no_token_head.
  apply IH. now apply no_token_tail with (c := c).
Qed.

(** The scan passes over the text before a token. *)
Lemma findall_skip (sep x : pystr) (fuel : nat) :
  no_token sep ->
  Re.findall_from (List.length sep + fuel) tag_pattern (sep ++ 35%N :: x)
  = Re.findall_from fuel tag_pattern (35%N :: x).
Proof.
  induction sep as [|c sep IH]; intros Hsep; [reflexivity|].
  cbn [List.length Nat.add app Re.findall_from]. rewrite no_match_tag.
  - apply IH. now apply no_token_tail with (c := c).
  - intros Hc. destruct sep as [|y sep']; [reflexivity|].
    now apply (no_token_head Hsep).
Qed.

Lemma findall_tokens (s : pystr) (tags : list pystr) :
  tokens s tags ->
  forall fuel, List.length s < fuel ->
  Re.findall_from fuel tag_pattern s = map (fun t => [t]) tags.
Proof.
  induction 1 as [s Hs | sep t rest tags Hsep Ht Hrest _ IH]; intros fuel Hfuel.
  - now apply findall_no_token.
  - rewrite length_app in Hfuel. cbn [List.length] in Hfuel. rewrite length_app in Hfuel.
    replace fuel with (List.length sep + (fuel - List.length sep)) by lia.
    rewrite findall_skip by assumption.
    destruct (fuel - List.length sep) as [|fuel'] eqn:E; [lia|].
    cbn [Re.findall_from]. rewrite match_tag by assumption. cbn [map]. f_equal.
    match goal with |- context [if ?b then _ else _] => replace b with true end.
    + apply IH. lia.
    + symmetry. apply Nat.ltb_lt. cbn [List.length]. rewrite length_app. lia.
Qed.

Lemma search_here (r : Re.Regex) (s : pystr) (caps : list pystr) :
  Re.rmatch r s [] (fun _ c => Some c) = Some caps -> Re.search r s = Some caps.
Proof. intros H. destruct s; cbn [Re.search]; now rewrite H. Qed.

(** The end of the marker line: a newline or the end of the text, nothing
    else. *)
Lemma line_end_only (caps : list pystr) (c : N) (tl : pystr) :
  c <> 10%N ->
  Re.rmatch (Re.Alt (Re.Lit [10%N]) Re.Eos) (c :: tl) caps (fun _ caps' => Some caps')
  = None.
Proof.
  intros Hc. cbn [Re.rmatch startswith]. apply N.eqb_neq in Hc.
  rewrite (N.eqb_sym 10 c), Hc. cbn [andb]. destruct tl; reflexivity.
Qed.

(** The focus pattern at a marker: the group is the text of the marker
    line after the blanks. *)
Lemma focus_pattern_match (ws line rest : pystr) :
  marker_line ws line rest ->
  Re.rmatch focus_pattern (marker ++ ws ++ line ++ rest) [] (fun _ caps => Some caps)
  = Some [line].
Proof.
  intros (Hws & Hline & Hhead & Hrest). unfold focus_pattern. cbn [Re.rmatch].
  fold marker. rewrite startswith_app.
  rewrite skipn_app, skipn_all, Nat.sub_diag. cbn [app skipn].
  apply star_run.
  - exact Hws.
  - destruct line as [|c line]; [subst rest; exact I | exact Hhead].
  - destruct Hrest as [-> | [post ->]].
    + rewrite app_nil_r. rewrite lazy_star_to_end.
      * cbn [Re.rmatch startswith app]. rewrite Nat.sub_0_r, firstn_all. reflexivity.
      * intros c tl Hc. now apply line_end_only.
      * exact Hline.
    + rewrite lazy_star_to_newline.
      * cbn [Re.rmatch startswith]. rewrite N.eqb_refl. cbn [andb app].
        f_equal. f_equal. apply firstn_minus_app.
      * intros c tl Hc. now apply line_end_only.
      * exact Hline.
Qed.

Lemma parse_pr_focus_search (d : pystr) :
  parse_pr_focus (Some d)
  = match Re.search focus_pattern d with
    | Some focus_match =>
        map Re.group1 (Re.findall tag_pattern (strip (Re.group1 focus_match)))
    | None => []
    end.
Proof. destruct d; reflexivity. Qed.

(** The tags of a description are the tokens of its first marker line. *)
Lemma parse_pr_focus_line (pre ws line rest : pystr) (tags : list pystr) :
  (forall i, occurs_at marker (pre ++ marker ++ ws ++ line ++ rest) i ->
             List.length pre <= i) ->
  marker_line ws line rest ->
  tokens (strip line) tags ->
  parse_pr_focus (Some (pre ++ marker ++ ws ++ line ++ rest)) = tags.
Proof.
  intros Hfirst Hline Htags.
  rewrite parse_pr_focus_search. unfold focus_pattern at 1.
  rewrite search_skips by exact Hfirst. fold focus_pattern.
  rewrite (@search_here _ _ [line]) by now apply focus_pattern_match.
  unfold Re.group1 at 2. cbn [nth]. unfold Re.findall.
  rewrite (findall_tokens Htags) by lia.
  rewrite map_map. cbn. apply map_id.
Qed.

Lemma occurs_at_prefix (needle a b : pystr) (i : nat) :
  occurs_at needle (a ++ b) i -> i + List.length needle <= List.length a ->
  occurs_at needle a i.
Proof.
  intros (x & y & E & Hx) Hlen.
  assert (E' : a ++ b = (x ++ needle) ++ y) by now rewrite <- app_assoc.
  apply app_eq_app in E' as [l [[H1 H2] | [H1 H2]]].
  - exists x, l. split; [now rewrite H1, <- app_assoc | exact Hx].
  - assert (l = []) as ->.
    { apply (f_equal (@List.length N)) in H1. rewrite !length_app in H1.
      destruct l; [reflexivity | simpl in H1; lia]. }
    rewrite app_nil_r in H1. exists x, []. split; [now rewrite app_nil_r | exact Hx].
Qed.

(** The marker cannot begin in the text before a line break and end after
    it. *)
Lemma marker_after_newline (pre rest : pystr) (i : nat) :
  (forall j, ~ occurs_at marker pre j) ->
  occurs_at marker (pre ++ 10%N :: rest) i -> List.length pre + 1 <= i.
Proof.
  intros Hnone Hocc.
  destruct (Nat.le_gt_cases (List.length pre + 1) i) as [|Hlt]; [assumption|exfalso].
  destruct (Nat.le_gt_cases (i + List.length marker) (List.length pre)) as [Hin|Hover].
  - apply (Hnone i). eapply occurs_at_prefix; eassumption.
  - change (List.length marker) with 16 in Hover.
    assert (Hnth := @occurs_at_nth _ _ _ (List.length pre - i) Hocc
                      ltac:(change (List.length marker) with 16; lia)).
    replace (i + (List.length pre - i)) with (List.length pre + 0) in Hnth by lia.
    rewrite nth_error_app2, Nat.add_0_r, Nat.sub_diag in Hnth by lia.
    cbn [nth_error] in Hnth. symmetry in Hnth. apply nth_error_In in Hnth.
    vm_compute in Hnth. intuition discriminate.
Qed.

(** Every text is a run of characters with a property followed by a text
    that does not start with one. *)
Lemma span_run (P : N -> bool) (s : pystr) :
  exists run rest,
    s = run ++ rest /\ Forall (fun c => P c = true) run
    /\ match rest with [] => True | c :: _ => P c = false end.
Proof.
  induction s as [|c s (run & rest & E & Hrun & Hrest)].
  - exists [], []. repeat split. constructor.
  - destruct (P c) eqn:Hc.
    + exists (c :: run), rest. rewrite E. repeat split; [now constructor | exact Hrest].
    + exists [], (c :: s). repeat split; [constructor | exact Hc].
Qed.

(** Every text has its tokens. *)
Lemma tokens_total (s : pystr) : exists tags, tokens s tags.
Proof.
  remember (List.length s) as n eqn:En. revert s En.
  induction n as [n IH] using lt_wf_ind. intros s En.
  destruct s as [|c s].
  - exists []. constructor. intros [|? ?] x b E; discriminate E.
  - destruct (N.eq_dec c 35) as [-> | Hc].
    + destruct (span_run (fun x => is_word x) s) as (t & rest & E & Ht & Hrest).
      destruct t as [|w t].
      * (* the [#] starts no token *)
        cbn [app] in E. subst rest.
        destruct (IH (List.length s) ltac:(subst n; cbn; lia) s eq_refl) as [tags Htags].
        destruct Htags as [s Hs | sep t rest tags Hsep Ht' Hrest' Htags].
        -- exists []. constructor. intros [|a0 a] x b E.
           ++ cbn [app] in E. injection E as ->. now rewrite Hrest.
           ++ cbn [app] in E. injection E as _ E. now apply (Hs a x b).
        -- exists (t :: tags). change (35%N :: sep ++ 35%N :: t ++ rest)
             with ((35%N :: sep) ++ 35%N :: t ++ rest).
           constructor; try assumption.
           intros [|a0 a] x b E.
           ++ cbn [app] in E. injection E as E.
              destruct sep as [|y sep']; cbn [app] in *.
              ** discriminate E.
              ** injection E as <- _. exact Hrest.
           ++ cbn [app] in E. injection E as _ E. now apply (Hsep a x b).
      * (* a token starts here *)
        assert (Hlen : List.length rest < n).
        { subst n s. cbn [List.length]. rewrite length_app. cbn [List.length]. lia. }
        destruct (IH (List.length rest) Hlen rest eq_refl) as [tags Htags].
        exists ((w :: t) :: tags). subst s.
        change (35%N :: (w :: t) ++ rest) with ([] ++ 35%N :: (w :: t) ++ rest).
        constructor; try assumption.
        -- intros [|? ?] x b E; discriminate E.
        -- split; [discriminate | exact Ht].
    + destruct (IH (List.length s) ltac:(subst n; cbn; lia) s eq_refl) as [tags Htags].
      destruct Htags as [s Hs | sep t rest tags Hsep Ht' Hrest' Htags].
      * exists []. constructor. intros [|a0 a] x b E.
        -- cbn [app] in E. injection E as E _. congruence.
        -- cbn [app] in E. injection E as _ E. now apply (Hs a x b).
      * exists (t :: tags). change (c :: sep ++ 35%N :: t ++ rest)
          with ((c :: sep) ++ 35%N :: t ++ rest).
        constructor; try assumption.
        intros [|a0 a] x b E.
        -- cbn [app] in E. injection E as E _. congruence.
        -- cbn [app] in E. injection E as _ E. now apply (Hsep a x b).
Qed.

(** Every text after a marker is blanks, a line, and the rest. *)
Lemma marker_line_total (s : pystr) :
  exists ws line rest, s = ws ++ line ++ rest /\ marker_line ws line rest.
Proof.
  destruct (span_run is_space s) as (ws & r & -> & Hws & Hr).
  destruct (span_run (fun c => negb (c =? 10)%N) r) as (line & rest & -> & Hline & Hrest).
  exists ws, line, rest. split; [reflexivity|]. repeat split.
  - exact Hws.
  - eapply Forall_impl; [|exact Hline]. intros c Hc ->. discriminate Hc.
  - destruct line as [|c line]; [|exact Hr].
    cbn [app] in Hr. destruct rest as [|c rest]; [reflexivity|].
    apply negb_false_iff, N.eqb_eq in Hrest. subst c. discriminate Hr.
  - destruct rest as [|c rest]; [now left|]. right.
    apply negb_false_iff, N.eqb_eq in Hrest. subst c. now exists rest.
Qed.


(** C8.  The effective focus is the list of PR-level tags when there is at
    least one, and the configured default otherwise; the two are never
    combined. *)
Theorem review_focus_override (config : PyDict) (pr_description : option pystr) :
  get_review_focus config pr_description
  = match parse_pr_focus pr_description with
    | [] =>
        match lookup (py "review_focus") config with
        | Some default_focus => default_focus
        | None => VList []
        end
    | tags => VList (map VStr tags)
    end.
Proof.
  unfold get_review_focus. destruct pr_description as [[|c s]|]; try reflexivity.
  match goal with |- context [match ?tags with [] => _ | _ :: _ => _ end] => destruct tags end;
    reflexivity.
Qed.

End FocusTags.

(** ** Line comments (github_integration.py) *)

Section LineAnchors.
Import GitHubIntegration.
Context {U : UnicodeData}.

(** A non-empty text of the digits 0 to 9, and the number it writes. *)
Definition ascii_digits (s : pystr) : Prop :=
  s <> [] /\ Forall (fun c => is_ascii_digit c = true) s.

Definition decimal_value (s : pystr) : Z :=
  Z.of_N (fold_left (fun acc c => (10 * acc + (c - 48))%N) s 0%N).

Lemma ascii_digit_bounds (c : N) : is_ascii_digit c = true -> (48 <= c <= 57)%N.
Proof.
  unfold is_ascii_digit. rewrite andb_true_iff, !N.leb_le. tauto.
Qed.

Lemma isdigit_char_ascii_digit (c : N) :
  is_ascii_digit c = true -> isdigit_char c = true.
Proof.
  intros H. unfold isdigit_char. pose proof (ascii_digit_bounds c H).
  destruct (N.ltb_spec c 128); [exact H | lia].
Qed.

Lemma decimal_char_ascii_digit (c : N) :
  is_ascii_digit c = true -> decimal_char c = Some (c - 48)%N.
Proof.
  intros H. unfold decimal_char. pose proof (ascii_digit_bounds c H).
  destruct (N.ltb_spec c 128); [now rewrite H | lia].
Qed.

Lemma ascii_digit_not_space (c : N) : is_ascii_digit c = true -> is_space c = false.
Proof.
  intros H. pose proof (ascii_digit_bounds c H) as [H1 H2]. unfold is_space.
  repeat match goal with
         | |- context [(?a <=? ?b)%N] => destruct (N.leb_spec a b); try lia
         | |- context [(?a =? ?b)%N] => destruct (N.eqb_spec a b); try lia
         end; reflexivity.
Qed.

Lemma isdigit_ascii_digits (s : pystr) : ascii_digits s -> isdigit s = true.
Proof.
  intros [Hne Hall]. unfold isdigit. destruct s; [congruence|].
  apply forallb_forall. intros c Hc. apply isdigit_char_ascii_digit.
  rewrite Forall_forall in Hall. now apply Hall.
Qed.

Lemma isdigit_with_other (s : pystr) (c : N) :
  In c s -> isdigit_char c = false -> isdigit s = false.
Proof.
  intros Hin Hc. unfold isdigit. destruct s; [reflexivity|].
  destruct (forallb isdigit_char (n :: s)) eqn:E; [|reflexivity].
  rewrite forallb_forall in E. apply E in Hin. congruence.
Qed.

Lemma lstrip_head (s : pystr) :
  match s with [] => True | c :: _ => is_space c = false end -> lstrip s = s.
Proof. destruct s; intros H; [reflexivity|]. cbn [lstrip]. now rewrite H. Qed.

Lemma strip_no_space (s : pystr) :
  Forall (fun c => is_space c = false) s -> strip s = s.
Proof.
  intros H. unfold strip, rstrip.
  assert (E1 : lstrip s = s) by (apply lstrip_head; destruct H; [exact I | assumption]).
  rewrite E1. apply Forall_rev in H.
  assert (E2 : lstrip (rev s) = rev s)
    by (apply lstrip_head; destruct H; [exact I | assumption]).
  rewrite E2. apply rev_involutive.
Qed.

(** A character that is no blank stays in the trimmed text. *)
Lemma lstrip_in (c : N) (s : pystr) : In c s -> is_space c = false -> In c (lstrip s).
Proof.
  intros Hin Hc. induction s as [|x s IH]; [contradiction|]. cbn [lstrip].
  destruct (is_space x) eqn:Hx.
  - destruct Hin as [-> | Hin]; [congruence | now apply IH].
  - exact Hin.
Qed.

Lemma strip_in (c : N) (s : pystr) : In c s -> is_space c = false -> In c (strip s).
Proof.
  intros Hin Hc. unfold strip, rstrip.
  apply in_rev. rewrite rev_involutive. apply lstrip_in; [|exact Hc].
  apply in_rev. rewrite rev_involutive. now apply lstrip_in.
Qed.

Lemma int_digits_ascii (s : pystr) (acc count : N) :
  Forall (fun c => is_ascii_digit c = true) s ->
  int_digits acc count s true
  = Some (fold_left (fun a c => (10 * a + (c - 48))%N) s acc,
          (count + N.of_nat (List.length s))%N, []).
Proof.
  intros H. revert acc count. induction H as [|c s Hc _ IH]; intros acc count.
  - cbn [int_digits fold_left List.length]. now rewrite N.add_0_r.
  - cbn [int_digits fold_left]. pose proof (ascii_digit_bounds c Hc).
    destruct (N.eqb_spec c 95); [lia|].
    rewrite decimal_char_ascii_digit by assumption. rewrite IH.
    do 3 f_equal. cbn [List.length]. lia.
Qed.

(** [int] on a text of the digits 0 to 9: the number the text writes, when
    it has at most 4300 digits, and an error beyond. *)
Lemma int_of_str_ascii (s : pystr) :
  ascii_digits s ->
  int_of_str s
  = if (4300 <? N.of_nat (List.length s))%N then
      Raise (mkExn ValueError
               (py "Exceeds the limit (4300 digits) for integer string conversion: value has "
                ++ int_text (Z.of_N (N.of_nat (List.length s)))
                ++ py " digits; use sys.set_int_max_str_digits() to increase the limit"))
    else Ret (decimal_value s).
Proof.
  intros [Hne Hall]. unfold int_of_str. cbv zeta.
  rewrite strip_no_space
    by (eapply Forall_impl; [|exact Hall]; apply ascii_digit_not_space).
  destruct s as [|c s]; [congruence|]. inversion Hall as [|? ? Hc Hall']; subst.
  pose proof (ascii_digit_bounds c Hc).
  destruct (N.eqb_spec c 43); [lia|]. destruct (N.eqb_spec c 45); [lia|].
  cbn [int_digits]. destruct (N.eqb_spec c 95); [lia|].
  rewrite decimal_char_ascii_digit by assumption.
  rewrite int_digits_ascii by assumption.
  replace (0 + 1 + N.of_nat (List.length s))%N with (N.of_nat (List.length (c :: s)))
    by (cbn [List.length]; lia).
  unfold int_max_str_digits.
  destruct (4300 <? N.of_nat (List.length (c :: s)))%N; reflexivity.
Qed.

Lemma int_of_str_digits (s : pystr) :
  ascii_digits s -> (Z.of_nat (List.length s) <= 4300)%Z ->
  int_of_str s = Ret (decimal_value s).
Proof.
  intros Hs Hlen. rewrite int_of_str_ascii by assumption.
  destruct (N.ltb_spec 4300 (N.of_nat (List.length s))); [lia | reflexivity].
Qed.

Lemma int_of_str_long (s : pystr) :
  ascii_digits s -> (4300 < Z.of_nat (List.length s))%Z ->
  exists e, int_of_str s = Raise e /\ exn_class e = ValueError.
Proof.
  intros Hs Hlen. rewrite int_of_str_ascii by assumption.
  destruct (N.ltb_spec 4300 (N.of_nat (List.length s))); [|lia].
  eexists. split; reflexivity.
Qed.

Lemma uint_text_digits (u : Decimal.uint) :
  Forall (fun c => is_ascii_digit c = true) (uint_text u).
Proof. induction u; cbn [uint_text]; constructor; auto. Qed.

Lemma int_text_nonneg (n : Z) : (0 <= n)%Z -> ascii_digits (int_text n).
Proof.
  intros Hn. unfold int_text. destruct n as [|p|p]; [| |lia]; cbn [Z.to_int].
  - split; [discriminate | repeat constructor].
  - split; [|apply uint_text_digits].
    pose proof (DecimalPos.Unsigned.to_uint_nonnil p) as Hnn.
    destruct (Pos.to_uint p); [congruence | discriminate ..].
Qed.

Lemma int_text_negative (n : Z) :
  (n < 0)%Z -> exists digits, int_text n = 45%N :: digits.
Proof.
  intros Hn. unfold int_text. destruct n as [|p|p]; [lia | lia |]. cbn [Z.to_int].
  eexists. reflexivity.
Qed.

Lemma contains_hyphen (a b : pystr) : contains (py "-") (a ++ 45%N :: b) = true.
Proof.
  unfold contains.
  destruct (find_cases (py "-") (a ++ 45%N :: b)) as [[_ Hnone] | (k & -> & _)].
  - exfalso. apply (Hnone (List.length a)). now exists a, b.
  - destruct (Z.eqb_spec (Z.of_nat k) (-1)); [lia | reflexivity].
Qed.

Lemma contains_no_hyphen (s : pystr) : ~ In 45%N s -> contains (py "-") s = false.
Proof.
  intros Hn. unfold contains. rewrite find_absent; [reflexivity|].
  intros j (a & b & -> & _). apply Hn. apply in_or_app. right. now left.
Qed.

Lemma split_first (a b : pystr) :
  ~ In 45%N a -> nth 0 (split 45 (a ++ 45%N :: b)) [] = a.
Proof.
  induction a as [|c a IH]; intros Hn.
  - reflexivity.
  - cbn [app split]. destruct (N.eqb_spec c 45) as [->|Hc]; [exfalso; apply Hn; now left|].
    specialize (IH ltac:(intros H; apply Hn; now right)).
    destruct (split 45 (a ++ 45%N :: b)) as [|w ws]; cbn [nth] in *; now subst.
Qed.

Lemma first_hyphen (s : pystr) :
  In 45%N s -> exists a b, s = a ++ 45%N :: b /\ ~ In 45%N a.
Proof.
  induction s as [|c s IH]; [contradiction|]. intros Hin.
  destruct (N.eq_dec c 45) as [-> | Hc].
  - exists [], s. split; [reflexivity | intros []].
  - destruct Hin as [-> | Hin]; [congruence|].
    destruct (IH Hin) as (a & b & -> & Ha). exists (c :: a), b.
    split; [reflexivity|]. intros [H | H]; [congruence | contradiction].
Qed.

Lemma isdigit_hyphenated (a b : pystr) : isdigit (a ++ 45%N :: b) = false.
Proof.
  apply isdigit_with_other with (c := 45%N); [|reflexivity].
  apply in_or_app. right. now left.
Qed.

Lemma digits_no_hyphen (s : pystr) :
  Forall (fun c => is_ascii_digit c = true) s -> ~ In 45%N s.
Proof.
  intros H Hin. rewrite Forall_forall in H. apply H in Hin. discriminate Hin.
Qed.

Lemma lstrip_keeps_last (l : pystr) (c : N) :
  is_space c = false -> exists l', lstrip (l ++ [c]) = l' ++ [c].
Proof.
  intros Hc. induction l as [|x l [l' IH]]; cbn [app lstrip].
  - rewrite Hc. now exists [].
  - destruct (is_space x); [now exists l' | now exists (x :: l)].
Qed.

Lemma strip_keeps_head (c : N) (w : pystr) :
  is_space c = false -> exists w', strip (c :: w) = c :: w'.
Proof.
  intros Hc. unfold strip, rstrip.
  replace (lstrip (c :: w)) with (c :: w) by (symmetry; now apply lstrip_head).
  cbn [rev]. destruct (@lstrip_keeps_last (rev w) c Hc) as [l' ->].
  rewrite rev_app_distr. eexists. reflexivity.
Qed.

(** *** The three kinds of line value

    The program takes a number text from the line value: the text of an
    integer or of a string when [isdigit] holds of it, and otherwise the
    text before the first hyphen, trimmed, when [isdigit] holds of that.
    [before_hyphen v a]: the text of [v] has a hyphen and [a] is what stands
    before the first one. *)
Definition before_hyphen (v : PyVal) (a : pystr) : Prop :=
  exists b, str v = a ++ 45%N :: b /\ ~ In 45%N a.

(** The line values with an anchor: a positive integer, and a value whose
    number text [int] reads as a number other than 0. *)
Inductive anchors_at : PyVal -> Z -> Prop :=
| anchor_int (n : Z) : (0 < n)%Z -> anchors_at (VInt n) n
| anchor_text (s : pystr) (n : Z) :
    isdigit s = true -> int_of_str s = Ret n -> n <> 0%Z -> anchors_at (VStr s) n
| anchor_range (v : PyVal) (a : pystr) (n : Z) :
    before_hyphen v a -> isdigit (strip a) = true ->
    int_of_str (strip a) = Ret n -> n <> 0%Z -> anchors_at v n.

(** The line values that are passed over: the integer 0, a number text that
    [int] reads as 0, and a value without a number text. *)
Inductive no_anchor : PyVal -> Prop :=
| no_anchor_zero : no_anchor (VInt 0)
| no_anchor_zero_text (s : pystr) :
    isdigit s = true -> int_of_str s = Ret 0%Z -> no_anchor (VStr s)
| no_anchor_zero_range (v : PyVal) (a : pystr) :
    before_hyphen v a -> isdigit (strip a) = true ->
    int_of_str (strip a) = Ret 0%Z -> no_anchor v
| no_anchor_plain (v : PyVal) :
    isinstance_int_str v = false \/ isdigit (str v) = false ->
    ~ In 45%N (str v) -> no_anchor v
| no_anchor_range (v : PyVal) (a : pystr) :
    before_hyphen v a -> isdigit (strip a) = false -> no_anchor v.

(** The line values that end in an error: a number text that [int]
    refuses. *)
Inductive rejected : PyVal -> PyExn -> Prop :=
| rejected_text (s : pystr) (e : PyExn) :
    isdigit s = true -> int_of_str s = Raise e -> rejected (VStr s) e
| rejected_range (v : PyVal) (a : pystr) (e : PyExn) :
    before_hyphen v a -> isdigit (strip a) = true ->
    int_of_str (strip a) = Raise e -> rejected v e.

(** The texts [repr] gives a [float]: [inf], [nan], digits with a fraction,
    a mantissa with an exponent, and any of these after a [-]. *)
Inductive float_text : pystr -> Prop :=
| float_inf : float_text (py "inf")
| float_nan : float_text (py "nan")
| float_fraction (i f : pystr) :
    ascii_digits i -> ascii_digits f -> float_text (i ++ 46%N :: f)
| float_exponent (m : pystr) (sign : N) (e : pystr) :
    ascii_digits m
    \/ (exists i f, ascii_digits i /\ ascii_digits f /\ m = i ++ 46%N :: f) ->
    sign = 43%N \/ sign = 45%N -> ascii_digits e ->
    float_text (m ++ 101%N :: sign :: e)
| float_negative (t : pystr) : float_text t -> float_text (45%N :: t).

(** A value as the JSON decoder yields it under the interpreter's limit:
    no integer in it has more than 4300 digits. *)
Fixpoint within_limit (v : PyVal) : Prop :=
  match v with
  | VInt n => (Z.of_nat (List.length (int_text (Z.abs n))) <= 4300)%Z
  | VList l =>
      (fix all (l : list PyVal) : Prop :=
         match l with
         | [] => True
         | x :: r => within_limit x /\ all r
         end) l
  | VDict d =>
      (fix all (l : list (pystr * PyVal)) : Prop :=
         match l with
         | [] => True
         | kv :: r => within_limit (snd kv) /\ all r
         end) d
  | _ => True
  end.

Lemma line_number_whole (v : PyVal) :
  isinstance_int_str v = true -> isdigit (str v) = true ->
  line_number_of v = (n <~ py_int v ;; Ret (Some n)).
Proof. intros Hv Hd. unfold line_number_of. now rewrite Hv, Hd. Qed.

Lemma line_number_before (v : PyVal) (a : pystr) :
  before_hyphen v a ->
  line_number_of v
  = (if isdigit (strip a) then n <~ int_of_str (strip a) ;; Ret (Some n) else Ret None).
Proof.
  intros (b & E & Ha). unfold line_number_of. rewrite E.
  rewrite isdigit_hyphenated, andb_false_r, contains_hyphen, split_first by assumption.
  reflexivity.
Qed.

Lemma line_number_plain (v : PyVal) :
  isinstance_int_str v = false \/ isdigit (str v) = false ->
  ~ In 45%N (str v) -> line_number_of v = Ret None.
Proof.
  intros Hv Hh. unfold line_number_of.
  replace (isinstance_int_str v && isdigit (str v)) with false
    by (symmetry; apply andb_false_iff; exact Hv).
  now rewrite contains_no_hyphen.
Qed.

Lemma line_number_anchors (v : PyVal) (n : Z) :
  anchors_at v n -> line_number_of v = Ret (Some n) /\ n <> 0%Z.
Proof.
  intros [m Hm | s m Hs Hv Hm | w a m Ha Hs Hv Hm].
  - split; [|lia]. rewrite line_number_whole; [reflexivity | reflexivity |].
    apply isdigit_ascii_digits, int_text_nonneg. lia.
  - split; [|assumption]. rewrite line_number_whole by (reflexivity || assumption).
    cbn [py_int]. now rewrite Hv.
  - split; [|assumption]. rewrite (line_number_before Ha), Hs, Hv. reflexivity.
Qed.

Lemma line_number_no_anchor (v : PyVal) :
  no_anchor v -> exists r, line_number_of v = Ret r /\ truthy_line r = false.
Proof.
  intros [ | s Hs Hv | w a Ha Hs Hv | w Hw Hh | w a Ha Hs].
  - exists (Some 0%Z). split; reflexivity.
  - exists (Some 0%Z). split; [|reflexivity].
    rewrite line_number_whole by (reflexivity || assumption). cbn [py_int]. now rewrite Hv.
  - exists (Some 0%Z). split; [|reflexivity].
    rewrite (line_number_before Ha), Hs, Hv. reflexivity.
  - exists None. split; [now apply line_number_plain | reflexivity].
  - exists None. split; [|reflexivity]. now rewrite (line_number_before Ha), Hs.
Qed.

Lemma line_number_rejected (v : PyVal) (e : PyExn) :
  rejected v e -> line_number_of v = Raise e.
Proof.
  intros [s e' Hs Hv | w a e' Ha Hs Hv].
  - rewrite line_number_whole by (reflexivity || assumption). cbn [py_int]. now rewrite Hv.
  - rewrite (line_number_before Ha), Hs, Hv. reflexivity.
Qed.

(** Every line value is of one of the three kinds. *)
Lemma line_value_kinds (v : PyVal) :
  (exists n, anchors_at v n) \/ no_anchor v \/ exists e, rejected v e.
Proof.
  destruct (isinstance_int_str v && isdigit (str v)) eqn:Hwhole.
  - apply andb_true_iff in Hwhole as [Hv Hd].
    destruct v as [| b | n | t | s | l | d]; try discriminate Hv.
    + destruct b; discriminate Hd.
    + destruct (Z.lt_trichotomy n 0) as [Hn | [-> | Hn]].
      * destruct (int_text_negative Hn) as [digits E].
        cbn [str repr] in Hd. rewrite E in Hd.
        change (45%N :: digits) with ([] ++ 45%N :: digits) in Hd.
        rewrite isdigit_hyphenated in Hd. discriminate Hd.
      * right. left. constructor.
      * left. exists n. now constructor.
    + cbn [str] in Hd. destruct (int_of_str s) as [n|e] eqn:E.
      * destruct (Z.eq_dec n 0) as [-> | Hn].
        -- right. left. now apply no_anchor_zero_text.
        -- left. exists n. now apply anchor_text.
      * right. right. exists e. now apply rejected_text.
  - apply andb_false_iff in Hwhole.
    destruct (in_dec N.eq_dec 45%N (str v)) as [Hin | Hout].
    + destruct (first_hyphen _ Hin) as (a & b & E & Ha).
      assert (Hb : before_hyphen v a) by (exists b; now split).
      destruct (isdigit (strip a)) eqn:Hd.
      * destruct (int_of_str (strip a)) as [n|e] eqn:En.
        -- destruct (Z.eq_dec n 0) as [-> | Hn].
           ++ right. left. now apply no_anchor_zero_range with (a := a).
           ++ left. exists n. now apply anchor_range with (a := a).
        -- right. right. exists e. now apply rejected_range with (a := a).
      * right. left. now apply no_anchor_range with (a := a).
    + right. left. now apply no_anchor_plain.
Qed.

(** A value that is neither an integer nor a string, and whose text starts
    with a character that is no digit, no blank and no hyphen, is passed
    over. *)
Lemma no_anchor_bracketed (v : PyVal) (c : N) (rest : pystr) :
  isinstance_int_str v = false -> str v = c :: rest ->
  c <> 45%N -> is_space c = false -> isdigit_char c = false ->
  no_anchor v.
Proof.
  intros Hv Hstr Hc Hsp Hd.
  destruct (in_dec N.eq_dec 45%N (str v)) as [Hin | Hout].
  - destruct (first_hyphen _ Hin) as (a & b & E & Ha).
    apply no_anchor_range with (a := a); [exists b; now split|].
    rewrite Hstr in E. destruct a as [|x a]; cbn [app] in E; [congruence|].
    injection E as <- _. destruct (@strip_keeps_head c a Hsp) as [w ->].
    apply isdigit_with_other with (c := c); [now left | exact Hd].
  - apply no_anchor_plain; [now left | exact Hout].
Qed.

(** No float is taken for a line. *)
Lemma float_no_anchor (t : pystr) : float_text t -> no_anchor (VFloat t).
Proof.
  assert (Hfrac : forall i f, ascii_digits i -> ascii_digits f -> ~ In 45%N (i ++ 46%N :: f)).
  { intros i f [_ Hi] [_ Hf] Hin. apply in_app_or in Hin as [Hin | [Hin | Hin]].
    - now apply (digits_no_hyphen Hi).
    - discriminate Hin.
    - now apply (digits_no_hyphen Hf). }
  assert (Hm : forall m,
             ascii_digits m
             \/ (exists i f, ascii_digits i /\ ascii_digits f /\ m = i ++ 46%N :: f) ->
             ~ In 45%N m).
  { intros m [[_ H] | (i & f & Hi & Hf & ->)]; [now apply digits_no_hyphen | now apply Hfrac]. }
  intros [ | | i f Hi Hf | m sign e Hmant Hsign He | t' _].
  - apply no_anchor_plain; [now left | cbn; intuition discriminate].
  - apply no_anchor_plain; [now left | cbn; intuition discriminate].
  - apply no_anchor_plain; [now left | now apply Hfrac].
  - destruct Hsign as [-> | ->].
    + apply no_anchor_plain; [now left|]. cbn [str repr]. intros Hin.
      apply in_app_or in Hin as [Hin | [Hin | [Hin | Hin]]].
      * now apply (Hm m Hmant).
      * discriminate Hin.
      * discriminate Hin.
      * destruct He as [_ He]. now apply (digits_no_hyphen He).
    + apply no_anchor_range with (a := m ++ [101%N]).
      * exists e. cbn [str repr]. split; [now rewrite <- app_assoc|].
        intros Hin. apply in_app_or in Hin as [Hin | [Hin | []]].
        -- now apply (Hm m Hmant).
        -- discriminate Hin.
      * apply isdigit_with_other with (c := 101%N); [|reflexivity].
        apply strip_in; [|reflexivity]. apply in_or_app. right. now left.
  - apply no_anchor_range with (a := []); [|reflexivity].
    exists t'. split; [reflexivity | intros []].
Qed.

(** Neither is [None], a boolean, a list, a dict or a negative integer. *)
Lemma other_values_no_anchor :
  no_anchor VNone /\ (forall b, no_anchor (VBool b))
  /\ (forall l, no_anchor (VList l)) /\ (forall d, no_anchor (VDict d))
  /\ (forall n, (n < 0)%Z -> no_anchor (VInt n)).
Proof.
  split; [|split; [|split; [|split]]].
  - apply no_anchor_plain; [now left | cbn; intuition discriminate].
  - intros b. apply no_anchor_plain; [right; now destruct b|].
    destruct b; cbn; intuition discriminate.
  - intros l. eapply no_anchor_bracketed with (c := 91%N); reflexivity || discriminate.
  - intros d. eapply no_anchor_bracketed with (c := 123%N); reflexivity || discriminate.
  - intros n Hn. destruct (int_text_negative Hn) as [digits E].
    apply no_anchor_range with (a := []); [|reflexivity].
    exists digits. split; [exact E | intros []].
Qed.

(** The body of a line comment, for a suggestion whose description is text
    or absent. *)
Definition comment_body (d : PyDict) : pystr :=
  let category :=
    match lookup (py "category") d with Some v => v | None => VStr (py "評論") end in
  let severity :=
    match lookup (py "severity") d with Some v => v | None => VStr (py "提示") end in
  let body := py "**" ++ str category ++ py " (" ++ str severity ++ py ")**

" in
  let body :=
    body ++ match lookup (py "description") d with Some (VStr s) => s | _ => [] end in
  match lookup (py "suggestion") d with
  | Some advice =>
      if truthy advice then body ++ py "

**建議**: " ++ str advice else body
  | None => body
  end.

Definition text_or_absent (o : option PyVal) : Prop :=
  o = None \/ exists s, o = Some (VStr s).

Lemma step_missing_field (file_comments : list PyVal) (d : PyDict) :
  lookup (py "file") d = None \/ lookup (py "line") d = None ->
  line_comment_step file_comments (VDict d) = Ret file_comments.
Proof.
  intros H. unfold line_comment_step. cbn [py_in obind].
  destruct (lookup (py "file") d); [|reflexivity].
  destruct H as [H | H]; [discriminate|]. rewrite H. reflexivity.
Qed.

Lemma step_with_line (file_comments : list PyVal) (d : PyDict) (f v : PyVal) :
  lookup (py "file") d = Some f -> lookup (py "line") d = Some v ->
  text_or_absent (lookup (py "description") d) ->
  line_comment_step file_comments (VDict d)
  = (line_number <~ line_number_of v ;;
     if truthy_line line_number then
       Ret (file_comments
            ++ [VDict [(py "path", f);
                       (py "line", match line_number with
                                   | Some n => VInt n
                                   | None => VNone
                                   end);
                       (py "body", VStr (comment_body d))]])
     else Ret file_comments).
Proof.
  intros Hf Hl Hd. unfold line_comment_step. cbn [py_in obind subscript].
  rewrite Hf, Hl. cbn [andb obind].
  destruct (line_number_of v) as [r|e]; [|reflexivity]. cbn [obind].
  destruct (truthy_line r); [|reflexivity].
  unfold comment_body. cbn [dict_get].
  destruct (lookup (py "category") d) as [category|];
    destruct (lookup (py "severity") d) as [severity|]; cbn [obind];
    (destruct Hd as [-> | [s ->]]; cbn [obind concat_str];
     [rewrite app_nil_r|];
     (destruct (lookup (py "suggestion") d) as [advice|]; cbn [obind truthy];
      [destruct (truthy advice)|]; reflexivity)).
Qed.

(** *** The summary comment *)

(** The section of the summary comment for a suggestion that is a dict. *)
Definition section_of (i : Z) (d : PyDict) : pystr :=
  let severity :=
    match lookup (py "severity") d with Some v => v | None => VStr (py "info") end in
  let category :=
    match lookup (py "category") d with Some v => v | None => VStr (py "一般") end in
  let comment := py "### " ++ int_text i ++ py ". " ++ str category
                 ++ py " (" ++ str severity ++ py ")

" in
  let comment :=
    match lookup (py "file") d with
    | Some file =>
        let file_info := py "**文件**: `" ++ str file ++ py "`" in
        let file_info :=
          match lookup (py "line") d with
          | Some line => file_info ++ py " **行**: " ++ str line
          | None => file_info
          end in
        comment ++ file_info ++ py "

"
    | None => comment
    end in
  let comment :=
    match lookup (py "description") d with
    | Some description => comment ++ str description ++ py "

"
    | None => comment
    end in
  match lookup (py "suggestion") d with
  | Some advice => comment ++ py "**建議**: " ++ str advice ++ py "

"
  | None => comment
  end.

Lemma suggestion_section_dict (i : Z) (d : PyDict) :
  suggestion_section i (VDict d) = Ret (section_of i d).
Proof.
  unfold suggestion_section, section_of. cbn [dict_get py_in subscript].
  destruct (lookup (py "severity") d); destruct (lookup (py "category") d);
    cbn [obind];
    (destruct (lookup (py "file") d); cbn [obind];
     [destruct (lookup (py "line") d); cbn [obind]|];
     (destruct (lookup (py "description") d); cbn [obind];
      (destruct (lookup (py "suggestion") d); reflexivity))).
Qed.

Fixpoint sections_from (i : Z) (ds : list PyDict) : pystr :=
  match ds with
  | [] => []
  | d :: rest => section_of i d ++ sections_from (i + 1) rest
  end.

Lemma format_loop_dicts (ds : list PyDict) (i : Z) (comment : pystr) :
  format_loop i (map VDict ds) comment = Ret (comment ++ sections_from i ds).
Proof.
  revert i comment. induction ds as [|d ds IH]; intros i comment; cbn [map format_loop].
  - now rewrite app_nil_r.
  - rewrite suggestion_section_dict. cbn [obind]. rewrite IH.
    cbn [sections_from]. now rewrite app_assoc.
Qed.

Lemma sections_from_app (before after : list PyDict) (i : Z) :
  sections_from i (before ++ after)
  = sections_from i before ++ sections_from (i + Z.of_nat (List.length before)) after.
Proof.
  revert i. induction before as [|d before IH]; intros i.
  - cbn [app sections_from List.length]. now rewrite Z.add_0_r.
  - cbn [app sections_from List.length]. rewrite IH, <- app_assoc.
    do 3 f_equal. lia.
Qed.

Lemma app_middle {A} (x a s b f : list A) :
  (x ++ a ++ s ++ b) ++ f = (x ++ a) ++ s ++ b ++ f.
Proof. now rewrite <- !app_assoc. Qed.

(** The summary comment has one section for each suggestion, whatever its
    line field, numbered from 1 in the order of the list. *)
Lemma summary_shows_suggestion (r : PyDict) (before after : list PyDict) (d : PyDict) :
  lookup (py "suggestions") r = Some (VList (map VDict (before ++ d :: after))) ->
  exists head tail,
    _format_review_comment (VDict r)
    = Ret (head ++ section_of (Z.of_nat (S (List.length before))) d ++ tail).
Proof.
  intros Hs. unfold _format_review_comment. cbn [dict_get]. rewrite Hs.
  destruct (lookup (py "overall_assessment") r) as [assessment|];
    destruct (lookup (py "summary") r) as [summary|]; cbn [obind];
    (replace (truthy (VList (map VDict (before ++ d :: after)))) with true
       by (destruct before; reflexivity);
     cbn [iterate obind]; rewrite format_loop_dicts; cbn [obind];
     rewrite sections_from_app; cbn [sections_from];
     replace (1 + Z.of_nat (List.length before))%Z
       with (Z.of_nat (S (List.length before))) by lia;
     match goal with
     | |- exists head tail, Ret ((?X ++ ?A ++ ?S ++ ?B) ++ ?F) = _ =>
         exists (X ++ A), (B ++ F); f_equal; apply app_middle
     end).
Qed.

(** [m] is a part of [s]. *)
Definition within (m s : pystr) : Prop := exists a b, s = a ++ m ++ b.

Lemma within_refl (m : pystr) : within m m.
Proof. exists [], []. now rewrite app_nil_r. Qed.

Lemma within_app_l (m x y : pystr) : within m x -> within m (x ++ y).
Proof. intros (a & b & ->). exists a, (b ++ y). now rewrite <- !app_assoc. Qed.

Lemma within_app_r (m x y : pystr) : within m y -> within m (x ++ y).
Proof. intros (a & b & ->). exists (x ++ a), b. now rewrite <- !app_assoc. Qed.

(** The section of a suggestion with a file shows its line field as it is. *)
Lemma section_shows_line (i : Z) (d : PyDict) (f v : PyVal) :
  lookup (py "file") d = Some f -> lookup (py "line") d = Some v ->
  within (py " **行**: " ++ str v) (section_of i d).
Proof.
  intros Hf Hl. unfold section_of. rewrite Hf, Hl.
  set (m := py " **行**: " ++ str v).
  destruct (lookup (py "description") d); destruct (lookup (py "suggestion") d).
  - apply within_app_l, within_app_l, within_app_r, within_app_l, within_app_r, within_refl.
  - apply within_app_l, within_app_r, within_app_l, within_app_r, within_refl.
  - apply within_app_l, within_app_r, within_app_l, within_app_r, within_refl.
  - apply within_app_r, within_app_l, within_app_r, within_refl.
Qed.

Lemma step_unanchored (file_comments : list PyVal) (d : PyDict) (f v : PyVal)
    (r : option Z) :
  lookup (py "file") d = Some f -> lookup (py "line") d = Some v ->
  line_number_of v = Ret r -> truthy_line r = false ->
  line_comment_step file_comments (VDict d) = Ret file_comments.
Proof.
  intros Hf Hl Hr Ht. unfold line_comment_step. cbn [py_in obind subscript].
  rewrite Hf, Hl. cbn [andb obind]. rewrite Hr. cbn [obind]. now rewrite Ht.
Qed.



(** [int] raises nothing but a [ValueError]. *)
Lemma int_of_str_value_error (s : pystr) (e : PyExn) :
  int_of_str s = Raise e -> exn_class e = ValueError.
Proof.
  unfold int_of_str. cbv zeta.
  destruct (strip s) as [|c r]; [intros H; inversion H; reflexivity|].
  destruct (c =? 43)%N; [|destruct (c =? 45)%N];
    (match goal with
     | |- context [int_digits ?a ?b ?t ?g] =>
         destruct (int_digits a b t g) as [[[n count] rest]|]
     end;
     [destruct (int_max_str_digits <? count)%N; [|destruct rest]|];
     intros H; inversion H; reflexivity).
Qed.

Lemma rejected_value_error (v : PyVal) (e : PyExn) :
  rejected v e -> exn_class e = ValueError.
Proof. intros [s e' _ H | w a e' _ _ H]; exact (int_of_str_value_error _ H). Qed.

(** The three kinds exclude one another, and an anchor is one number. *)
Lemma line_kinds_exclusive (v : PyVal) (n : Z) :
  anchors_at v n ->
  ~ no_anchor v /\ (forall e, ~ rejected v e) /\ (forall m, anchors_at v m -> m = n).
Proof.
  intros Ha. destruct (line_number_anchors Ha) as [Hn Hnz]. split; [|split].
  - intros Hna. destruct (line_number_no_anchor Hna) as (r & Hr & Ht).
    rewrite Hn in Hr. injection Hr as <-. cbn [truthy_line] in Ht.
    apply Z.eqb_neq in Hnz. rewrite Hnz in Ht. discriminate Ht.
  - intros e He. rewrite (line_number_rejected He) in Hn. discriminate Hn.
  - intros m Hm. destruct (line_number_anchors Hm) as [Hm' _].
    rewrite Hn in Hm'. now injection Hm' as ->.
Qed.

Lemma no_anchor_not_rejected (v : PyVal) (e : PyExn) : no_anchor v -> ~ rejected v e.
Proof.
  intros Hna He. destruct (line_number_no_anchor Hna) as (r & Hr & _).
  rewrite (line_number_rejected He) in Hr. discriminate Hr.
Qed.

Lemma step_rejected (file_comments : list PyVal) (d : PyDict) (f v : PyVal) (e : PyExn) :
  lookup (py "file") d = Some f -> lookup (py "line") d = Some v ->
  line_number_of v = Raise e ->
  line_comment_step file_comments (VDict d) = Raise e.
Proof.
  intros Hf Hl Hr. unfold line_comment_step. cbn [py_in obind subscript].
  rewrite Hf, Hl. cbn [andb obind]. now rewrite Hr.
Qed.

(** The description is added to the body with [+=]: one that is no text ends
    the step. *)
Lemma step_bad_description (file_comments : list PyVal) (d : PyDict) (f v x : PyVal)
    (n : Z) :
  lookup (py "file") d = Some f -> lookup (py "line") d = Some v ->
  line_number_of v = Ret (Some n) -> n <> 0%Z ->
  lookup (py "description") d = Some x -> (forall s, x <> VStr s) ->
  line_comment_step file_comments (VDict d)
  = Raise (mkExn TypeError
             (py "can only concatenate str (not " ++ [34%N] ++ type_name x ++ [34%N]
              ++ py ") to str")).
Proof.
  intros Hf Hl Hr Hn Hd Hx. unfold line_comment_step. cbn [py_in obind subscript].
  rewrite Hf, Hl. cbn [andb obind]. rewrite Hr. cbn [obind truthy_line].
  apply Z.eqb_neq in Hn. rewrite Hn. cbn [negb dict_get]. rewrite Hd.
  destruct (lookup (py "category") d); destruct (lookup (py "severity") d); cbn [obind];
    (destruct x; try reflexivity; exfalso; eapply Hx; reflexivity).
Qed.

(** The suggestion [d], with the line value [v], in the summary comment of a
    review whose suggestions are dicts: the comment has the section of [d],
    numbered by its place in the list, and the section shows [v] as it is
    written. *)
Definition in_summary (d : PyDict) (v : PyVal) : Prop :=
  forall (r : PyDict) (before after : list PyDict),
    within_limit (VDict r) ->
    lookup (py "suggestions") r = Some (VList (map VDict (before ++ d :: after))) ->
    exists head tail,
      _format_review_comment (VDict r)
      = Ret (head ++ section_of (Z.of_nat (S (List.length before))) d ++ tail)
      /\ within (py " **行**: " ++ str v)
           (section_of (Z.of_nat (S (List.length before))) d).

Lemma summary_has_line (d : PyDict) (f v : PyVal) :
  lookup (py "file") d = Some f -> lookup (py "line") d = Some v -> in_summary d v.
Proof.
  intros Hf Hl r before after _ Hs.
  destruct (@summary_shows_suggestion r before after d Hs) as (head & tail & E).
  exists head, tail. split; [exact E | now apply section_shows_line with (f := f)].
Qed.


(** C10.  A suggestion whose line field resolves to the number 0 adds no
    line comment: 0 counts as no line.  It still has its section, with its
    line field as written, in the summary comment.  The line values [0],
    ["0"] and ["0-5"] resolve to 0. *)
Theorem zero_anchor_excluded (file_comments : list PyVal) (d : PyDict) (f v : PyVal) :
  lookup (py "file") d = Some f -> lookup (py "line") d = Some v ->
  line_number_of v = Ret (Some 0%Z) ->
  line_comment_step file_comments (VDict d) = Ret file_comments
  /\ in_summary d v
  /\ line_number_of (VInt 0) = Ret (Some 0%Z)
  /\ line_number_of (VStr (py "0")) = Ret (Some 0%Z)
  /\ line_number_of (VStr (py "0-5")) = Ret (Some 0%Z).
Proof.
  intros Hf Hl Hz. split; [|split; [|repeat split]].
  - exact (@step_unanchored file_comments d f v (Some 0%Z) Hf Hl Hz eq_refl).
  - exact (@summary_has_line d f v Hf Hl).
Qed.

End LineAnchors.

(** The claim as the specification words it: a line field made of digits is
    the anchor of a line comment. *)
Definition digit_line_claim : Prop :=
  forall (d : PyDict) (f : PyVal) (s : pystr),
    lookup (py "file") d = Some f -> lookup (py "line") d = Some (VStr s) ->
    text_or_absent (lookup (py "description") d) -> ascii_digits s ->
    GitHubIntegration.line_comment_step (U := latin1) [] (VDict d)
    = Ret [VDict [(py "path", f); (py "line", VInt (decimal_value s));
                  (py "body", VStr (comment_body (U := latin1) d))]].

Definition line_zero : PyDict :=
  [(py "file", VStr (py "a.py")); (py "line", VStr (py "0"))].


Definition line_range : PyDict :=
  [(py "file", VStr (py "a.py")); (py "line", VStr (py "10-15"))].


Definition line_zero_range : PyDict :=
  [(py "file", VStr (py "a.py")); (py "line", VStr (py "0-5"))].

(** C10, witness: the range ["0-5"]. *)
Lemma zero_anchor_excluded_witness :
  GitHubIntegration.line_comment_step (U := latin1) [] (VDict line_zero_range) = Ret [].
Proof.
  exact (proj1 (@zero_anchor_excluded latin1 [] line_zero_range
                  (VStr (py "a.py")) (VStr (py "0-5")) eq_refl eq_refl eq_refl)).
Defined.

(** ** The line-comment review (github_integration.py) *)

Section LineReview.
Import GitHubIntegration.
Context {U : UnicodeData} {G : GitHubApi}.

(** The body of the review: the assessment and the summary of the result. *)
Definition review_body (r : PyDict) : pystr :=
  (py "# AI 程式碼審查

**總體評估**: "
   ++ str (match lookup (py "overall_assessment") r with
           | Some v => v
           | None => VStr (py "無評估")
           end) ++ py "

")
  ++ match lookup (py "summary") r with
     | Some (VStr s) => s
     | _ => py "無總結"
     end.

Definition suggestions_of (r : PyDict) : PyVal :=
  match lookup (py "suggestions") r with
  | Some v => v
  | None => VList []
  end.

Lemma dict_get_dict (d : PyDict) (key : pystr) (default : PyVal) :
  dict_get (VDict d) key default
  = Ret (match lookup key d with Some v => v | None => default end).
Proof. unfold dict_get. destruct (lookup key d); reflexivity. Qed.

(** X8.  Once the pull request is fetched and the loop over the suggestions has
    made its list of comments: an empty list ends the call with [None] and no
    further platform call; a non-empty list is submitted in one review whose
    event is COMMENT, and the answer of the platform is the outcome. *)
Lemma line_review_submission (self : Integration) (n : Z) (r : PyDict)
    (items file_comments : list PyVal) (p : Process) (name : pystr) (pr : PyVal) :
  repo self = Some name -> api_answer (GetPull n) = Ret pr ->
  iterate (suggestions_of r) = Ret items ->
  line_comments_loop items [] = Ret file_comments ->
  text_or_absent (lookup (py "summary") r) ->
  match file_comments with
  | [] =>
      post_line_comments self n (VDict r) p
      = (Ret VNone, {| log := log p; calls := calls p ++ [GetPull n] |})
  | _ :: _ =>
      let submission := CreateReview n (review_body r) (py "COMMENT") file_comments in
      calls (snd (post_line_comments self n (VDict r) p))
      = calls p ++ [GetPull n; submission]
      /\ fst (post_line_comments self n (VDict r) p) = api_answer submission
  end.
Proof.
  intros Hrepo Hpull Hiter Hloop Hsummary.
  unfold post_line_comments, get_pr, api, logger. rewrite Hrepo. run_m.
  rewrite Hpull. cbv beta iota. rewrite !dict_get_dict. fold (suggestions_of r).
  rewrite Hiter. cbv beta iota. rewrite Hloop. cbv beta iota.
  destruct file_comments as [|c cs]; [reflexivity|].
  cbv zeta. unfold review_body.
  destruct Hsummary as [-> | [s ->]]; cbn [concat_str]; cbv beta iota; cbn [calls log];
    match goal with
    | |- context [api_answer ?c] => destruct (api_answer c)
    end; cbn [fst snd calls]; rewrite <- app_assoc; split; reflexivity.
Qed.

(** When the loop over the suggestions raises, the call logs the error and
    raises it; no review is submitted. *)
Lemma line_review_loop_raises (self : Integration) (n : Z) (r : PyDict)
    (items : list PyVal) (e : PyExn) (p : Process) (name : pystr) (pr : PyVal) :
  repo self = Some name -> api_answer (GetPull n) = Ret pr ->
  iterate (suggestions_of r) = Ret items ->
  line_comments_loop items [] = Raise e ->
  post_line_comments self n (VDict r) p
  = (Raise e,
     {| log := log p ++ [(ERROR, py "發布行級評論時出錯: " ++ exn_text e)];
        calls := calls p ++ [GetPull n] |}).
Proof.
  intros Hrepo Hpull Hiter Hloop.
  unfold post_line_comments, get_pr, api, logger. rewrite Hrepo. run_m.
  rewrite Hpull. cbv beta iota. rewrite !dict_get_dict. fold (suggestions_of r).
  rewrite Hiter. cbv beta iota. rewrite Hloop. reflexivity.
Qed.

(** A suggestion whose line field is the superscript two. *)
Definition superscript_suggestion : PyVal :=
  VDict [(py "file", VStr (py "a.py")); (py "line", VStr (py "²"))].

Definition plain_suggestion : PyVal :=
  VDict [(py "file", VStr (py "a.py")); (py "line", VStr (py "1"))].

Definition int_error : PyExn :=
  mkExn ValueError (py "invalid literal for int() with base 10: '²'").

(** C6, at the failing input.  [str.isdigit] accepts the superscript two and
    [int] rejects it: on a result whose only suggestion has that line field
    (no suggestion is eligible) the call raises [ValueError] instead of
    returning [None], and on a result that also has an eligible suggestion it
    raises the same error and submits no review. *)
Theorem superscript_line_raises (self : Integration) (n : Z) (p : Process)
    (name : pystr) (pr : PyVal) :
  repo self = Some name -> api_answer (GetPull n) = Ret pr ->
  let failed :=
    (Raise int_error,
     {| log := log p ++ [(ERROR, py "發布行級評論時出錯: " ++ exn_text int_error)];
        calls := calls p ++ [GetPull n] |}) in
  post_line_comments self n
    (VDict [(py "suggestions", VList [superscript_suggestion])]) p = failed
  /\ post_line_comments self n
       (VDict [(py "suggestions", VList [plain_suggestion; superscript_suggestion])]) p
     = failed.
Proof.
  intros Hrepo Hpull failed. split.
  - apply line_review_loop_raises with (items := [superscript_suggestion]) (name := name) (pr := pr);
      try assumption; reflexivity.
  - apply line_review_loop_raises
      with (items := [plain_suggestion; superscript_suggestion]) (name := name) (pr := pr);
      try assumption; reflexivity.
Qed.

End LineReview.

Definition github_idle : GitHubIntegration.Process :=
  {| GitHubIntegration.log := []; GitHubIntegration.calls := [] |}.

Definition integration : GitHubIntegration.Integration :=
  {| GitHubIntegration.repo := Some (py "owner/name") |}.

(** C6, witness: pull request 7 on a platform that answers every call. *)
Lemma superscript_line_raises_witness :
  fst (GitHubIntegration.post_line_comments (U := latin1) (G := willing_platform)
         integration 7
         (VDict [(py "suggestions", VList [superscript_suggestion])]) github_idle)
  = Raise int_error.
Proof.
  rewrite (proj1 (@superscript_line_raises latin1 willing_platform integration 7
                    github_idle (py "owner/name") VNone eq_refl eq_refl)).
  reflexivity.
Defined.

(** ** The working directory (repomix_handler.py) *)

Section WorkingDirectory.
Import RepomixHandler.
Context {U : UnicodeData} {OS : OperatingSystem}.

(** A [finally] part that changes to a directory leaves the process in it,
    whatever the body did, when the directory can be entered. *)
Lemma finally_chdir_restores {A} (body : M Process A) (original : pystr) (p : Process) :
  (forall from,
     os_chdir (machine (snd (try_finally body (chdir original) p))) from original
     = Ret original) ->
  cwd (snd (try_finally body (chdir original) p)) = original.
Proof.
  unfold try_finally, chdir. destruct (body p) as [r p1].
  intros H. specialize (H (cwd p1)).
  destruct (os_chdir (machine p1) (cwd p1) original) as [d|e] eqn:E; cbn [snd cwd machine] in *.
  - congruence.
  - congruence.
Qed.

(** C9.  Whatever happens inside [generate_xml] (success, a failure to enter
    the repository, a non-zero exit of the tool, a missing output file, any
    other exception), the process ends in the working directory it started
    in, provided that directory can still be entered when the [finally] part
    runs. *)
Theorem generate_xml_restores_cwd (self : Handler)
    (output_path include_patterns exclude_patterns : option pystr) (p : Process) :
  (forall from,
     os_chdir
       (machine (snd (generate_xml self output_path include_patterns exclude_patterns p)))
       from (cwd p) = Ret (cwd p)) ->
  cwd (snd (generate_xml self output_path include_patterns exclude_patterns p)) = cwd p.
Proof.
  unfold generate_xml, getcwd. unfold bind at 1. unfold gets. cbv beta iota.
  apply finally_chdir_restores.
Qed.

End WorkingDirectory.

(** A machine where every directory can be entered and the tool exits with
    status 1 without writing its output. *)
Definition broken_tool : RepomixHandler.OperatingSystem :=
  {| RepomixHandler.Machine := unit;
     RepomixHandler.os_chdir := fun _ _ path => Ret path;
     RepomixHandler.os_path_exists := fun _ _ _ => false;
     RepomixHandler.os_mkdtemp := fun m => (Ret (py "/tmp/tmpab12"), m);
     RepomixHandler.os_run := fun m _ _ => (Ret 1%Z, m) |}.

Definition at_home : RepomixHandler.Process (OS := broken_tool) :=
  @RepomixHandler.Build_Process broken_tool [] (py "/home/ci") tt.

Definition repo_handler : RepomixHandler.Handler :=
  {| RepomixHandler.repo_path := py "/srv/repo" |}.

(** C9, witness: the tool fails after the process entered the repository. *)
Lemma generate_xml_restores_cwd_witness :
  RepomixHandler.cwd
    (snd (RepomixHandler.generate_xml (U := latin1) repo_handler None None None at_home))
  = py "/home/ci".
Proof.
  apply (@generate_xml_restores_cwd latin1 broken_tool repo_handler None None None at_home).
  intros from. reflexivity.
Defined.

(** * Further properties *)

(** ** github_integration.py: what is published *)

Section Publishing.
Import GitHubIntegration.
Context {U : UnicodeData} {G : GitHubApi}.

(** A line comment as the platform expects it: a path, a line number that is
    not zero, and a text body. *)
Definition well_shaped (c : PyVal) : Prop :=
  exists path n body,
    c = VDict [(py "path", path); (py "line", VInt n); (py "body", VStr body)]
    /\ n <> 0%Z.

Ltac step_obind H :=
  repeat match type of H with
         | context [obind ?o _] =>
             let E := fresh "E" in
             destruct o eqn:E; cbn [obind] in H; try discriminate H
         | context [if ?b then _ else _] =>
             let E := fresh "E" in destruct b eqn:E; try discriminate H
         end.

Lemma line_comment_step_shape (file_comments : list PyVal) (suggestion : PyVal)
    (result : list PyVal) :
  line_comment_step file_comments suggestion = Ret result ->
  result = file_comments \/ exists c, result = file_comments ++ [c] /\ well_shaped c.
Proof.
  unfold line_comment_step. intros H. step_obind H;
    try (injection H as <-; now left).
  injection H as <-. right. eexists. split; [reflexivity|].
  destruct a3 as [n|]; [|discriminate].
  do 3 eexists. split; [reflexivity|].
  cbn [truthy_line] in *. now apply Z.eqb_neq, negb_true_iff.
Qed.

(** X1.  The loop over the suggestions only appends: the comments it is
    given stay first and in order, it adds at most one comment for each
    suggestion, and every comment it adds has a path, a non-zero integer
    line and a text body. *)
Theorem line_comments_only_append (suggestions file_comments result : list PyVal) :
  line_comments_loop suggestions file_comments = Ret result ->
  exists added,
    result = file_comments ++ added
    /\ Forall well_shaped added
    /\ List.length added <= List.length suggestions.
Proof.
  revert file_comments. induction suggestions as [|s rest IH]; intros fc H.
  - cbn [line_comments_loop] in H. injection H as <-. exists [].
    rewrite app_nil_r. repeat split; [constructor | apply Nat.le_refl].
  - cbn [line_comments_loop] in H.
    destruct (line_comment_step fc s) as [fc1|e] eqn:Estep; cbn [obind] in H;
      [|discriminate].
    destruct (IH _ H) as (added & -> & Hshape & Hlen).
    destruct (line_comment_step_shape _ _ Estep) as [-> | (c & -> & Hc)].
    + exists added. repeat split; [assumption | cbn [List.length]; lia].
    + exists (c :: added). rewrite <- app_assoc. repeat split.
      * now constructor.
      * cbn [List.length]. lia.
Qed.

(** X2.  Whatever the review result is and whatever the platform answers,
    [post_line_comments] makes at most one call to fetch the pull request
    and, after it, at most one review submission, and the event of that
    submission is COMMENT (never an approval or a request for changes). *)
Theorem post_line_comments_calls (self : Integration) (n : Z) (review : PyVal)
    (p : Process) :
  let after := calls (snd (post_line_comments self n review p)) in
  after = calls p
  \/ after = calls p ++ [GetPull n]
  \/ exists body comments,
       after = calls p ++ [GetPull n; CreateReview n body (py "COMMENT") comments].
Proof.
  unfold post_line_comments, get_pr, api, logger.
  destruct (repo self); run_m; [|now left].
  destruct (api_answer (GetPull n)) as [a|e]; cbn [snd calls];
    [|destruct (exn_class e); run_m; cbn [snd calls]; right; now left].
  destruct (dict_get review (py "suggestions") (VList [])) as [a0|]; cbn [snd calls];
    [|right; now left].
  destruct (iterate a0) as [a1|]; cbn [snd calls]; [|right; now left].
  destruct (line_comments_loop a1 []) as [[|c cs]|]; cbn [snd calls];
    [right; now left | | right; now left].
  destruct (dict_get review (py "overall_assessment") (VStr (py "無評估")));
    cbn [snd calls]; [|right; now left].
  destruct (dict_get review (py "summary") (VStr (py "無總結")));
    cbn [snd calls]; [|right; now left].
  destruct (concat_str _ a3); cbn [snd calls]; [|right; now left].
  right. right. exists a4, (c :: cs).
  destruct (api_answer _); cbn [snd calls]; now rewrite <- app_assoc.
Qed.

(** The head of the summary comment: title, assessment and summary. *)
Definition summary_head (r : PyDict) : pystr :=
  (py "# AI 程式碼審查

"
   ++ py "**總體評估**: "
   ++ str (match lookup (py "overall_assessment") r with
           | Some v => v
           | None => VStr (py "無評估")
           end) ++ py "

")
  ++ py "## 摘要

"
  ++ str (match lookup (py "summary") r with
          | Some v => v
          | None => VStr (py "無總結")
          end) ++ py "

".

(** X3.  A review result without suggestions (the key is missing, or its
    value is empty or null) is rendered as title, assessment, summary and
    footer, with no details heading; a missing assessment or summary is
    shown by its placeholder. *)
Theorem format_without_suggestions (r : PyDict) :
  truthy (suggestions_of r) = false ->
  _format_review_comment (VDict r) = Ret (summary_head r ++ footer).
Proof.
  intros H. unfold _format_review_comment. rewrite !dict_get_dict. cbn [obind].
  fold (suggestions_of r). rewrite H. reflexivity.
Qed.

(** X4.  For a review result whose suggestions are dicts, the summary
    comment never fails: it is the head, the details heading, one section
    for each suggestion in input order numbered from 1, and the footer. *)
Theorem format_review_comment_sections (r : PyDict) (ds : list PyDict) :
  ds <> [] ->
  lookup (py "suggestions") r = Some (VList (map VDict ds)) ->
  _format_review_comment (VDict r)
  = Ret ((summary_head r ++ py "## 詳細建議

") ++ sections_from 1 ds ++ footer).
Proof.
  intros Hne Hs. unfold _format_review_comment. rewrite !dict_get_dict. cbn [obind].
  rewrite Hs. replace (truthy (VList (map VDict ds))) with true
    by (destruct ds; [congruence | reflexivity]).
  cbn [iterate obind]. rewrite format_loop_dicts. cbn [obind].
  now rewrite <- app_assoc.
Qed.

Lemma format_loop_not_dict (before : list PyDict) (x : PyVal) (after : list PyVal)
    (i : Z) (comment : pystr) :
  (forall d, x <> VDict d) ->
  format_loop i (map VDict before ++ x :: after) comment
  = Raise (mkExn AttributeError
             (py "'" ++ type_name x ++ py "' object has no attribute 'get'")).
Proof.
  intros Hx. revert i comment. induction before as [|d before IH]; intros i comment.
  - cbn [map app format_loop]. unfold suggestion_section.
    destruct x; try reflexivity. now destruct (Hx entries).
  - cbn [map app format_loop]. rewrite suggestion_section_dict. cbn [obind]. apply IH.
Qed.

(** X5.  A suggestion that is not a dict (a text, a number, null) makes the
    summary comment fail with [AttributeError], whatever the other
    suggestions are. *)
Theorem format_rejects_non_dict (r : PyDict) (before : list PyDict) (x : PyVal)
    (after : list PyVal) :
  (forall d, x <> VDict d) ->
  lookup (py "suggestions") r = Some (VList (map VDict before ++ x :: after)) ->
  _format_review_comment (VDict r)
  = Raise (mkExn AttributeError
             (py "'" ++ type_name x ++ py "' object has no attribute 'get'")).
Proof.
  intros Hx Hs. unfold _format_review_comment. rewrite !dict_get_dict. cbn [obind].
  rewrite Hs. replace (truthy (VList (map VDict before ++ x :: after))) with true
    by (destruct before; reflexivity).
  cbn [iterate obind]. now rewrite format_loop_not_dict.
Qed.

(** X6.  Once the pull request is fetched, [post_review_comment] posts the
    formatted comment in one issue comment and returns what the platform
    answers; when the formatting fails nothing is posted, and the error is
    logged and raised. *)
Theorem post_review_comment_outcome (self : Integration) (n : Z) (review : PyVal)
    (p : Process) (name : pystr) (pr : PyVal) :
  repo self = Some name -> api_answer (GetPull n) = Ret pr ->
  match _format_review_comment review with
  | Ret comment =>
      calls (snd (post_review_comment self n review p))
      = calls p ++ [GetPull n; CreateIssueComment n comment]
      /\ fst (post_review_comment self n review p)
         = api_answer (CreateIssueComment n comment)
  | Raise e =>
      post_review_comment self n review p
      = (Raise e,
         {| log := log p ++ [(ERROR, py "發布評論時出錯: " ++ exn_text e)];
            calls := calls p ++ [GetPull n] |})
  end.
Proof.
  intros Hrepo Hpull. unfold post_review_comment, get_pr, api, logger.
  rewrite Hrepo. run_m. rewrite Hpull. cbv beta iota.
  destruct (_format_review_comment review) as [comment|e]; [|reflexivity].
  cbn [calls log]. destruct (api_answer (CreateIssueComment n comment));
    cbn [fst snd calls]; rewrite <- app_assoc; split; reflexivity.
Qed.

(** X7.  Without a repository both publishing operations fail with
    [ValueError] before any call to the platform; the error is logged and
    raised. *)
Theorem publish_without_repository (n : Z) (review : PyVal) (p : Process) :
  let unset := {| repo := None |} in
  let e := mkExn ValueError (py "未設置程式庫") in
  post_line_comments unset n review p
  = (Raise e, {| log := log p ++ [(ERROR, py "發布行級評論時出錯: " ++ exn_text e)];
                 calls := calls p |})
  /\ post_review_comment unset n review p
     = (Raise e, {| log := log p ++ [(ERROR, py "發布評論時出錯: " ++ exn_text e)];
                    calls := calls p |}).
Proof. split; reflexivity. Qed.

End Publishing.

Definition one_line_review : PyDict :=
  [(py "summary", VStr (py "ok"));
   (py "suggestions", VList [plain_suggestion])].

(** X1, witness: one suggestion with a line. *)
Lemma line_comments_only_append_witness :
  exists added,
    [VDict [(py "path", VStr (py "a.py")); (py "line", VInt 1);
            (py "body", VStr (py "**評論 (提示)**

"))]]
    = [] ++ added
    /\ Forall well_shaped added /\ List.length added <= 1.
Proof.
  exact (@line_comments_only_append latin1 [plain_suggestion] [] _ eq_refl).
Defined.

(** X6, witness: a result without suggestions on a platform that answers. *)
Lemma post_review_comment_outcome_witness :
  GitHubIntegration.calls
    (snd (GitHubIntegration.post_review_comment (U := latin1) (G := willing_platform)
            integration 7 (VDict [(py "summary", VStr (py "ok"))]) github_idle))
  = [GitHubIntegration.GetPull 7;
     GitHubIntegration.CreateIssueComment 7
       (summary_head (U := latin1) [(py "summary", VStr (py "ok"))]
        ++ GitHubIntegration.footer)].
Proof.
  exact (proj1 (@post_review_comment_outcome latin1 willing_platform integration 7
                  (VDict [(py "summary", VStr (py "ok"))]) github_idle
                  (py "owner/name") VNone eq_refl eq_refl)).
Defined.

(** X3, witness: no suggestions key. *)
Lemma format_without_suggestions_witness :
  GitHubIntegration._format_review_comment (U := latin1)
    (VDict [(py "summary", VStr (py "ok"))])
  = Ret (summary_head (U := latin1) [(py "summary", VStr (py "ok"))]
         ++ GitHubIntegration.footer).
Proof.
  exact (@format_without_suggestions latin1 [(py "summary", VStr (py "ok"))] eq_refl).
Defined.

(** X4, witness: one suggestion. *)
Lemma format_review_comment_sections_witness :
  GitHubIntegration._format_review_comment (U := latin1) (VDict one_line_review)
  = Ret ((summary_head (U := latin1) one_line_review ++ py "## 詳細建議

")
         ++ sections_from (U := latin1) 1
              [[(py "file", VStr (py "a.py")); (py "line", VStr (py "1"))]]
         ++ GitHubIntegration.footer).
Proof.
  apply (@format_review_comment_sections latin1 one_line_review
           [[(py "file", VStr (py "a.py")); (py "line", VStr (py "1"))]]).
  - discriminate.
  - reflexivity.
Defined.

(** X5, witness: a suggestion that is a text. *)
Lemma format_rejects_non_dict_witness :
  GitHubIntegration._format_review_comment (U := latin1)
    (VDict [(py "suggestions", VList [VStr (py "rename x")])])
  = Raise (mkExn AttributeError
             (py "'" ++ type_name (VStr (py "rename x"))
              ++ py "' object has no attribute 'get'")).
Proof.
  apply (@format_rejects_non_dict latin1
           [(py "suggestions", VList [VStr (py "rename x")])] [] (VStr (py "rename x")) []).
  - discriminate.
  - reflexivity.
Defined.

Definition plain_comment : PyVal :=
  VDict [(py "path", VStr (py "a.py")); (py "line", VInt 1);
         (py "body", VStr (py "**評論 (提示)**

"))].

(** X8, witness: one eligible suggestion on a platform that answers. *)
Lemma line_review_submission_witness :
  GitHubIntegration.calls
    (snd (GitHubIntegration.post_line_comments (U := latin1) (G := willing_platform)
            integration 7 (VDict one_line_review) github_idle))
  = [] ++ [GitHubIntegration.GetPull 7;
           GitHubIntegration.CreateReview 7 (review_body (U := latin1) one_line_review)
             (py "COMMENT") [plain_comment]].
Proof.
  exact (proj1 (@line_review_submission latin1 willing_platform integration 7
                  one_line_review [plain_suggestion] [plain_comment] github_idle
                  (py "owner/name") VNone eq_refl eq_refl eq_refl eq_refl
                  (or_intror (ex_intro _ (py "ok") eq_refl)))).
Defined.

(** ** repomix_handler.py: the outcome of document generation *)

Section DocumentGeneration.
Import RepomixHandler.
Context {U : UnicodeData} {OS : OperatingSystem}.

(** The command line of the tool for an output path and the two optional
    comma-separated pattern lists. *)
Definition repomix_command (out : pystr) (include_patterns exclude_patterns : option pystr)
    : list pystr :=
  ([py "npx"; py "repomix"; py "--style"; py "xml"] ++ [py "--output"; out])
  ++ (if opt_truthy include_patterns then [py "--include"; opt_text include_patterns]
      else [])
  ++ (if opt_truthy exclude_patterns then [py "--ignore"; opt_text exclude_patterns]
      else []).

(** The directory the tool is started in: the repository when the handler
    has one that is not the current directory, the current directory
    otherwise; or the error of entering the repository. *)
Definition tool_directory (self : Handler) (p : Process) : outcome pystr :=
  if match repo_path self with [] => false | _ => true end
     && negb (str_eqb (repo_path self) (cwd p))
  then os_chdir (machine p) (cwd p) (repo_path self)
  else Ret (cwd p).

Definition command_record (cmd : list pystr) : LogRecord :=
  (INFO, py "執行 Repomix 命令: " ++ join (py " ") cmd).

Lemma command_shape (out : pystr) (include_patterns exclude_patterns : option pystr) :
  (let cmd := [py "npx"; py "repomix"; py "--style"; py "xml"] in
   let cmd := cmd ++ [py "--output"; out] in
   let cmd := if opt_truthy include_patterns
              then cmd ++ [py "--include"; opt_text include_patterns] else cmd in
   let cmd := if opt_truthy exclude_patterns
              then cmd ++ [py "--ignore"; opt_text exclude_patterns] else cmd in
   cmd) = repomix_command out include_patterns exclude_patterns.
Proof.
  unfold repomix_command. cbv zeta.
  destruct (opt_truthy include_patterns), (opt_truthy exclude_patterns);
    rewrite ?app_nil_r, <- ?app_assoc; reflexivity.
Qed.

(** What [generate_xml] does once it is in the tool's directory [d] with a
    given output path: one record of the command, the run, the check of the
    output, the record of the error if any, and the way back. *)
Lemma generate_xml_given (self : Handler) (out : pystr)
    (include_patterns exclude_patterns : option pystr) (p : Process) (d : pystr) :
  out <> [] ->
  tool_directory self p = Ret d ->
  generate_xml self (Some out) include_patterns exclude_patterns p
  = try_finally
      (try_except
         (logger INFO (snd (command_record
                              (repomix_command out include_patterns exclude_patterns))) ;;;
          subprocess_run_checked (repomix_command out include_patterns exclude_patterns) ;;;
          found <- path_exists out ;;
          if negb found then
            raise (mkExn FileNotFoundError (py "Repomix 未能生成輸出文件: " ++ out))
          else ret out)
         (fun e =>
            match exn_class e with
            | CalledProcessError =>
                logger ERROR (py "Repomix 執行失敗: " ++ exn_text e) ;;; raise e
            | _ => logger ERROR (py "生成 XML 時出錯: " ++ exn_text e) ;;; raise e
            end))
      (chdir (cwd p))
      {| log := log p; cwd := d; machine := machine p |}.
Proof.
  intros Hout Hdir. destruct out as [|c out']; [congruence|].
  unfold generate_xml, tool_directory in *.
  rewrite <- (command_shape (c :: out') include_patterns exclude_patterns).
  unfold getcwd, chdir, subprocess_run_checked, path_exists, logger.
  run_m. cbn [opt_truthy opt_text negb snd command_record]. cbv zeta.
  destruct (match repo_path self with [] => false | _ => true end
            && negb (str_eqb (repo_path self) (cwd p))) eqn:Hc.
  - rewrite Hdir. reflexivity.
  - injection Hdir as <-. destruct p. reflexivity.
Qed.

(** X9.  With an output path given, when the tool exits with status 0 and
    the output file exists afterwards, [generate_xml] returns the output
    path as given; it records the command once, at level INFO, and nothing
    else; the command is [npx repomix --style xml --output <path>] followed
    by [--include] and [--ignore] only for the non-empty pattern lists. *)
Theorem generate_xml_success (self : Handler) (out : pystr)
    (include_patterns exclude_patterns : option pystr) (p : Process) (d : pystr)
    (m : Machine) :
  out <> [] ->
  tool_directory self p = Ret d ->
  os_run (machine p) d (repomix_command out include_patterns exclude_patterns)
  = (Ret 0%Z, m) ->
  os_path_exists m d out = true ->
  os_chdir m d (cwd p) = Ret (cwd p) ->
  generate_xml self (Some out) include_patterns exclude_patterns p
  = (Ret out,
     {| log := log p ++ [command_record
                           (repomix_command out include_patterns exclude_patterns)];
        cwd := cwd p; machine := m |}).
Proof.
  intros Hout Hdir Hrun Hex Hback.
  rewrite (generate_xml_given self include_patterns exclude_patterns p Hout Hdir).
  unfold subprocess_run_checked, path_exists, logger, chdir. run_m.
  cbn [machine cwd log]. rewrite Hrun. cbn [Z.eqb machine cwd log].
  rewrite Hex. cbn [negb machine cwd log]. rewrite Hback. reflexivity.
Qed.

(** X10.  When the tool exits with a status other than 0, [generate_xml]
    raises [CalledProcessError]; the error is recorded once at level ERROR
    with the prefix of a failed run, after the record of the command; whether
    an output file exists is not looked at. *)
Theorem generate_xml_tool_failure (self : Handler) (out : pystr)
    (include_patterns exclude_patterns : option pystr) (p : Process) (d : pystr)
    (status : Z) (m : Machine) :
  out <> [] ->
  tool_directory self p = Ret d ->
  os_run (machine p) d (repomix_command out include_patterns exclude_patterns)
  = (Ret status, m) ->
  status <> 0%Z ->
  os_chdir m d (cwd p) = Ret (cwd p) ->
  exists text,
    generate_xml self (Some out) include_patterns exclude_patterns p
    = (Raise (mkExn CalledProcessError text),
       {| log := log p ++ [command_record
                             (repomix_command out include_patterns exclude_patterns);
                           (ERROR, py "Repomix 執行失敗: " ++ text)];
          cwd := cwd p; machine := m |}).
Proof.
  intros Hout Hdir Hrun Hst Hback. eexists.
  rewrite (generate_xml_given self include_patterns exclude_patterns p Hout Hdir).
  unfold subprocess_run_checked, path_exists, logger, chdir. run_m.
  cbn [machine cwd log]. rewrite Hrun.
  apply Z.eqb_neq in Hst. rewrite Hst. cbn [exn_class exn_text machine cwd log].
  rewrite Hback. rewrite <- app_assoc. reflexivity.
Qed.

(** X11.  When the tool exits with status 0 but the output file does not
    exist afterwards, [generate_xml] raises [FileNotFoundError] whose text
    names the output path; the error is recorded at level ERROR with the
    general prefix. *)
Theorem generate_xml_missing_output (self : Handler) (out : pystr)
    (include_patterns exclude_patterns : option pystr) (p : Process) (d : pystr)
    (m : Machine) :
  out <> [] ->
  tool_directory self p = Ret d ->
  os_run (machine p) d (repomix_command out include_patterns exclude_patterns)
  = (Ret 0%Z, m) ->
  os_path_exists m d out = false ->
  os_chdir m d (cwd p) = Ret (cwd p) ->
  generate_xml self (Some out) include_patterns exclude_patterns p
  = (Raise (mkExn FileNotFoundError (py "Repomix 未能生成輸出文件: " ++ out)),
     {| log := log p ++ [command_record
                           (repomix_command out include_patterns exclude_patterns);
                         (ERROR, py "生成 XML 時出錯: "
                                 ++ py "Repomix 未能生成輸出文件: " ++ out)];
        cwd := cwd p; machine := m |}).
Proof.
  intros Hout Hdir Hrun Hex Hback.
  rewrite (generate_xml_given self include_patterns exclude_patterns p Hout Hdir).
  unfold subprocess_run_checked, path_exists, logger, chdir. run_m.
  cbn [machine cwd log]. rewrite Hrun. cbn [Z.eqb machine cwd log].
  rewrite Hex. cbn [negb exn_class exn_text machine cwd log].
  rewrite Hback. rewrite <- app_assoc. reflexivity.
Qed.

(** X12.  When the repository cannot be entered, the tool is never started
    and no temporary directory is made: the machine is left as it was.  One
    record is written, at level ERROR, and the error of [os.chdir] is the
    outcome if the way back to the starting directory succeeds. *)
Theorem generate_xml_enter_failure (self : Handler)
    (output_path include_patterns exclude_patterns : option pystr) (p : Process)
    (e : PyExn) :
  tool_directory self p = Raise e ->
  let after := generate_xml self output_path include_patterns exclude_patterns p in
  machine (snd after) = machine p
  /\ (exists text, log (snd after) = log p ++ [(ERROR, text ++ exn_text e)])
  /\ (os_chdir (machine p) (cwd p) (cwd p) = Ret (cwd p) ->
      fst after = Raise e /\ cwd (snd after) = cwd p).
Proof.
  intros Hdir after. subst after. unfold generate_xml, tool_directory in *.
  unfold getcwd, chdir, mkdtemp, subprocess_run_checked, path_exists, logger.
  run_m.
  destruct (match repo_path self with [] => false | _ => true end
            && negb (str_eqb (repo_path self) (cwd p))) eqn:Hc; [|discriminate].
  rewrite Hdir.
  destruct (exn_class e);
    cbn [machine cwd log];
    (destruct (os_chdir (machine p) (cwd p) (cwd p)) as [d'|e'] eqn:Hb;
     cbn [fst snd machine log cwd];
     (split; [reflexivity|]); (split; [eexists; reflexivity|]);
     [intros H; injection H as ->; now split | discriminate]).
Qed.

Lemma path_join_file (a : pystr) : path_join a (py "repo.xml") <> [].
Proof.
  unfold path_join. destruct (rev a) as [|c r].
  - discriminate.
  - assert (H : forall b : pystr, a ++ 114%N :: b <> []) by (intros b; destruct a; discriminate).
    assert (H' : a ++ py "/" ++ py "repo.xml" <> []) by (destruct a; discriminate).
    destruct c as [|q]; [exact H'|].
    do 6 (destruct q as [q|q|]; try exact H').
    apply (H _).
Qed.

(** X13.  Without an output path (none, or an empty text) the document is
    written to [repo.xml] in a fresh temporary directory, made after the
    repository is entered: on success [generate_xml] returns that path, and
    it is the path given to the tool after [--output]. *)
Theorem generate_xml_temporary_output (self : Handler)
    (output_path include_patterns exclude_patterns : option pystr) (p : Process)
    (d temp_dir : pystr) (m1 m2 : Machine) :
  opt_truthy output_path = false ->
  tool_directory self p = Ret d ->
  os_mkdtemp (machine p) = (Ret temp_dir, m1) ->
  os_run m1 d (repomix_command (path_join temp_dir (py "repo.xml"))
                 include_patterns exclude_patterns)
  = (Ret 0%Z, m2) ->
  os_path_exists m2 d (path_join temp_dir (py "repo.xml")) = true ->
  os_chdir m2 d (cwd p) = Ret (cwd p) ->
  generate_xml self output_path include_patterns exclude_patterns p
  = (Ret (path_join temp_dir (py "repo.xml")),
     {| log := log p ++ [command_record
                           (repomix_command (path_join temp_dir (py "repo.xml"))
                              include_patterns exclude_patterns)];
        cwd := cwd p; machine := m2 |}).
Proof.
  intros Hnone Hdir Htmp Hrun Hex Hback.
  pose proof (path_join_file temp_dir) as Hne.
  revert Hrun Hex. rewrite <- command_shape.
  unfold generate_xml, tool_directory in *.
  destruct (path_join temp_dir (py "repo.xml")) as [|c out'] eqn:Hj; [congruence|].
  intros Hrun Hex.
  unfold getcwd. unfold bind at 1. unfold gets at 1. cbv beta iota zeta.
  unfold try_finally, try_except. rewrite Hnone. cbn [negb].
  unfold mkdtemp, subprocess_run_checked, path_exists, logger.
  destruct (match repo_path self with [] => false | _ => true end
            && negb (str_eqb (repo_path self) (cwd p))) eqn:Hc.
  - unfold chdir at 1. run_m. rewrite Hdir. cbn [machine cwd log].
    rewrite Htmp. rewrite Hj. cbn [machine cwd log]. cbv zeta in Hrun. rewrite Hrun.
    cbn [Z.eqb machine cwd log]. rewrite Hex. cbn [negb].
    unfold chdir. cbn [machine cwd log]. rewrite Hback. reflexivity.
  - injection Hdir as <-. run_m.
    rewrite Htmp. rewrite Hj. cbn [machine cwd log]. cbv zeta in Hrun. rewrite Hrun.
    cbn [Z.eqb machine cwd log]. rewrite Hex. cbn [negb].
    unfold chdir. cbn [machine cwd log]. rewrite Hback. reflexivity.
Qed.

(** X14.  When the comma-joined names of the changed files are the empty
    text (no file at all, or one empty name), the include filter is not
    passed on: [generate_xml_for_pr] then runs the tool as [generate_xml]
    does without any filter, on the whole repository. *)
Theorem generate_xml_for_pr_no_files (self : Handler) (pr_files : list pystr)
    (output_path : option pystr) (p : Process) :
  join (py ",") pr_files = [] ->
  generate_xml_for_pr self pr_files output_path p
  = generate_xml self output_path None None p.
Proof.
  intros Hjoin. unfold generate_xml_for_pr. cbv zeta. rewrite Hjoin.
  unfold generate_xml. reflexivity.
Qed.

(** X15.  When the starting directory cannot be entered again, the error of
    that [os.chdir] is the outcome of [generate_xml], also when the tool
    succeeded or another error was on its way. *)
Theorem generate_xml_return_failure (self : Handler)
    (output_path include_patterns exclude_patterns : option pystr) (p : Process)
    (e : PyExn) :
  (forall m from, os_chdir m from (cwd p) = Raise e) ->
  fst (generate_xml self output_path include_patterns exclude_patterns p) = Raise e.
Proof.
  intros Hback. unfold generate_xml, getcwd. unfold bind at 1. unfold gets.
  cbv beta iota. unfold try_finally.
  match goal with |- context [try_except ?b ?h p] => destruct (try_except b h p) as [r p1] end.
  unfold chdir. rewrite Hback. reflexivity.
Qed.

End DocumentGeneration.

(** A machine for examples: the tool exits with [status] and the output
    exists afterwards when [writes] holds; the directory [gone] cannot be
    entered.  The state of the machine is whether the tool has run. *)
Definition scripted_os (status : Z) (writes : bool) (gone : pystr)
    : RepomixHandler.OperatingSystem :=
  {| RepomixHandler.Machine := bool;
     RepomixHandler.os_chdir := fun _ _ path =>
       if str_eqb path gone
       then Raise (mkExn FileNotFoundError (py "[Errno 2] No such file or directory"))
       else Ret path;
     RepomixHandler.os_path_exists := fun m _ _ => m && writes;
     RepomixHandler.os_mkdtemp := fun m => (Ret (py "/tmp/tmpab12"), m);
     RepomixHandler.os_run := fun _ _ _ => (Ret status, true) |}.

Definition ci_home (OS : RepomixHandler.OperatingSystem)
    (m : @RepomixHandler.Machine OS) : RepomixHandler.Process (OS := OS) :=
  @RepomixHandler.Build_Process OS [] (py "/home/ci") m.

Definition srv_repo : RepomixHandler.Handler :=
  {| RepomixHandler.repo_path := py "/srv/repo" |}.

(** X9, witness: the tool writes [out.xml]. *)
Lemma generate_xml_success_witness :
  fst (RepomixHandler.generate_xml (U := latin1) (OS := scripted_os 0 true (py "/none"))
         srv_repo (Some (py "out.xml")) (Some (py "a.py,b.py")) None
         (ci_home (scripted_os 0 true (py "/none")) false))
  = Ret (py "out.xml").
Proof.
  rewrite (@generate_xml_success latin1 (scripted_os 0 true (py "/none")) srv_repo
             (py "out.xml") (Some (py "a.py,b.py")) None
             (ci_home (scripted_os 0 true (py "/none")) false) (py "/srv/repo") true).
  - reflexivity.
  - discriminate.
  - reflexivity.
  - reflexivity.
  - reflexivity.
  - reflexivity.
Defined.

(** X10, witness: the tool exits with status 2. *)
Lemma generate_xml_tool_failure_witness :
  exists text,
    fst (RepomixHandler.generate_xml (U := latin1) (OS := scripted_os 2 true (py "/none"))
           srv_repo (Some (py "out.xml")) None None
           (ci_home (scripted_os 2 true (py "/none")) false))
    = Raise (mkExn CalledProcessError text).
Proof.
  destruct (@generate_xml_tool_failure latin1 (scripted_os 2 true (py "/none")) srv_repo
              (py "out.xml") None None
              (ci_home (scripted_os 2 true (py "/none")) false) (py "/srv/repo") 2%Z true)
    as [text H].
  - discriminate.
  - reflexivity.
  - reflexivity.
  - discriminate.
  - reflexivity.
  - exists text. rewrite H. reflexivity.
Defined.

(** X11, witness: the tool exits with status 0 and writes nothing. *)
Lemma generate_xml_missing_output_witness :
  fst (RepomixHandler.generate_xml (U := latin1) (OS := scripted_os 0 false (py "/none"))
         srv_repo (Some (py "out.xml")) None None
         (ci_home (scripted_os 0 false (py "/none")) false))
  = Raise (mkExn FileNotFoundError (py "Repomix 未能生成輸出文件: " ++ py "out.xml")).
Proof.
  rewrite (@generate_xml_missing_output latin1 (scripted_os 0 false (py "/none")) srv_repo
             (py "out.xml") None None
             (ci_home (scripted_os 0 false (py "/none")) false) (py "/srv/repo") true).
  - reflexivity.
  - discriminate.
  - reflexivity.
  - reflexivity.
  - reflexivity.
  - reflexivity.
Defined.

(** X12, witness: the repository directory does not exist. *)
Lemma generate_xml_enter_failure_witness :
  RepomixHandler.machine
    (snd (RepomixHandler.generate_xml (U := latin1)
            (OS := scripted_os 0 true (py "/srv/repo"))
            srv_repo None None None (ci_home (scripted_os 0 true (py "/srv/repo")) false)))
  = false.
Proof.
  exact (proj1 (@generate_xml_enter_failure latin1 (scripted_os 0 true (py "/srv/repo"))
                  srv_repo None None None
                  (ci_home (scripted_os 0 true (py "/srv/repo")) false)
                  (mkExn FileNotFoundError (py "[Errno 2] No such file or directory"))
                  eq_refl)).
Defined.

(** X13, witness: no output path. *)
Lemma generate_xml_temporary_output_witness :
  fst (RepomixHandler.generate_xml (U := latin1) (OS := scripted_os 0 true (py "/none"))
         srv_repo None None None (ci_home (scripted_os 0 true (py "/none")) false))
  = Ret (RepomixHandler.path_join (py "/tmp/tmpab12") (py "repo.xml")).
Proof.
  rewrite (@generate_xml_temporary_output latin1 (scripted_os 0 true (py "/none")) srv_repo
             None None None (ci_home (scripted_os 0 true (py "/none")) false)
             (py "/srv/repo") (py "/tmp/tmpab12") false true).
  - reflexivity.
  - reflexivity.
  - reflexivity.
  - reflexivity.
  - reflexivity.
  - reflexivity.
  - reflexivity.
Defined.

(** X14, witness: no changed file. *)
Lemma generate_xml_for_pr_no_files_witness :
  RepomixHandler.generate_xml_for_pr (U := latin1)
    (OS := scripted_os 0 true (py "/none")) srv_repo [] (Some (py "out.xml"))
    (ci_home (scripted_os 0 true (py "/none")) false)
  = RepomixHandler.generate_xml (U := latin1)
      (OS := scripted_os 0 true (py "/none")) srv_repo (Some (py "out.xml")) None None
      (ci_home (scripted_os 0 true (py "/none")) false).
Proof.
  exact (@generate_xml_for_pr_no_files latin1 (scripted_os 0 true (py "/none")) srv_repo
           [] (Some (py "out.xml")) (ci_home (scripted_os 0 true (py "/none")) false)
           eq_refl).
Defined.

(** X15, witness: the starting directory was removed during the run. *)
Lemma generate_xml_return_failure_witness :
  fst (RepomixHandler.generate_xml (U := latin1) (OS := scripted_os 0 true (py "/home/ci"))
         srv_repo (Some (py "out.xml")) None None
         (ci_home (scripted_os 0 true (py "/home/ci")) false))
  = Raise (mkExn FileNotFoundError (py "[Errno 2] No such file or directory")).
Proof.
  apply (@generate_xml_return_failure latin1 (scripted_os 0 true (py "/home/ci")) srv_repo
           (Some (py "out.xml")) None None
           (ci_home (scripted_os 0 true (py "/home/ci")) false)).
  intros m from. reflexivity.
Defined.

(** ** ai_analyzer.py: the call and the reply *)

Section Analysis.
Import AIAnalyzer.
Context {U : UnicodeData} {J : JsonLibrary} {Net : Network}.

(** The reply inside the body of a response: [result["content"][0]["text"]]
    of the decoded body. *)
Definition reply_of (body : pystr) : outcome PyVal :=
  result <~ json_loads body ;;
  content <~ subscript result (VStr (py "content")) ;;
  first <~ subscript content (VInt 0) ;;
  subscript first (VStr (py "text")).

(** The process once the request is out. *)
Definition called (p : Process) (request : HttpRequest) : Process :=
  {| log := log p ++ [(INFO, py "正在調用 AI API 進行程式碼分析")];
     sent := sent p ++ [request] |}.

(** The process after [analyze_code] recorded an error on its way out. *)
Definition failed (p : Process) (e : PyExn) : Process :=
  {| log := log p ++ [(ERROR, py "程式碼分析時出錯: " ++ exn_text e)]; sent := sent p |}.

Lemma parse_keeps_sent (ai_response : PyVal) (p : Process) :
  sent (snd (_parse_ai_response ai_response p)) = sent p.
Proof.
  unfold _parse_ai_response, try_except, lift, bind, logger, modify, ret, raise.
  destruct ai_response; try reflexivity.
  destruct (_ && _)%bool; destruct (json_loads _); reflexivity.
Qed.

(** The steps of [analyze_code] up to the reply. *)
Lemma analyze_code_200 (self : Analyzer) (xml_content : pystr)
    (focus_areas : option (list pystr)) (repo_name pr_title pr_description : option pystr)
    (response : HttpResponse) (p : Process) :
  http_post (messages_request self
               (_build_prompt xml_content focus_areas repo_name pr_title pr_description))
  = Ret response ->
  status_code response = 200%Z ->
  analyze_code self xml_content focus_areas repo_name pr_title pr_description p
  = let q := called p (messages_request self
                         (_build_prompt xml_content focus_areas repo_name pr_title
                            pr_description)) in
    match reply_of (text response) with
    | Ret ai_response => _parse_ai_response ai_response q
    | Raise e => (Raise e, failed q e)
    end.
Proof.
  intros Hpost Hstatus. unfold analyze_code, post, logger, reply_of, obind. run_m.
  rewrite Hpost. cbv beta iota zeta. rewrite Hstatus. cbn [Z.eqb Pos.eqb negb log sent].
  unfold called, failed.
  destruct (json_loads (text response)) as [result|e]; [|reflexivity].
  destruct (subscript result _) as [content|e]; [|reflexivity].
  destruct (subscript content _) as [first|e]; [|reflexivity].
  destruct (subscript first _) as [ai_response|e]; [|reflexivity].
  destruct (parse_never_raises ai_response
              {| log := log p ++ [(INFO, py "正在調用 AI API 進行程式碼分析")];
                 sent := sent p
                         ++ [messages_request self
                               (_build_prompt xml_content focus_areas repo_name pr_title
                                  pr_description)] |}) as (v & p' & ->).
  reflexivity.
Qed.

(** X16.  On a response with status 200 whose body is JSON holding
    [content[0].text], [analyze_code] is the reply parser run on that text,
    after one INFO record and one request; since the parser absorbs every
    failure, [analyze_code] then returns a result whatever the reply says. *)
Theorem analyze_code_parses_reply (self : Analyzer) (xml_content : pystr)
    (focus_areas : option (list pystr)) (repo_name pr_title pr_description : option pystr)
    (response : HttpResponse) (ai_response : PyVal) (p : Process) :
  http_post (messages_request self
               (_build_prompt xml_content focus_areas repo_name pr_title pr_description))
  = Ret response ->
  status_code response = 200%Z ->
  reply_of (text response) = Ret ai_response ->
  analyze_code self xml_content focus_areas repo_name pr_title pr_description p
  = _parse_ai_response ai_response
      (called p (messages_request self
                   (_build_prompt xml_content focus_areas repo_name pr_title
                      pr_description)))
  /\ exists v p',
       analyze_code self xml_content focus_areas repo_name pr_title pr_description p
       = (Ret v, p').
Proof.
  intros Hpost Hstatus Hreply.
  rewrite (analyze_code_200 self xml_content focus_areas repo_name pr_title pr_description
             p Hpost Hstatus).
  cbv zeta. rewrite Hreply. split; [reflexivity|]. apply parse_never_raises.
Qed.

(** X17.  On a response with status 200 whose body is not JSON, or does not
    hold [content[0].text] (a missing key, an empty list, another shape),
    [analyze_code] raises the error of that step, recorded once at level
    ERROR: this failure is not absorbed into a degraded result. *)
Theorem analyze_code_bad_envelope (self : Analyzer) (xml_content : pystr)
    (focus_areas : option (list pystr)) (repo_name pr_title pr_description : option pystr)
    (response : HttpResponse) (e : PyExn) (p : Process) :
  http_post (messages_request self
               (_build_prompt xml_content focus_areas repo_name pr_title pr_description))
  = Ret response ->
  status_code response = 200%Z ->
  reply_of (text response) = Raise e ->
  analyze_code self xml_content focus_areas repo_name pr_title pr_description p
  = (Raise e,
     failed (called p (messages_request self
                         (_build_prompt xml_content focus_areas repo_name pr_title
                            pr_description))) e).
Proof.
  intros Hpost Hstatus Hreply.
  rewrite (analyze_code_200 self xml_content focus_areas repo_name pr_title pr_description
             p Hpost Hstatus).
  cbv zeta. rewrite Hreply. reflexivity.
Qed.

(** X18.  When the request itself fails (no connection, a timeout),
    [analyze_code] raises the transport's error, recorded once at level
    ERROR after the INFO record; the request was sent once and is not
    repeated. *)
Theorem analyze_code_transport_error (self : Analyzer) (xml_content : pystr)
    (focus_areas : option (list pystr)) (repo_name pr_title pr_description : option pystr)
    (e : PyExn) (p : Process) :
  http_post (messages_request self
               (_build_prompt xml_content focus_areas repo_name pr_title pr_description))
  = Raise e ->
  analyze_code self xml_content focus_areas repo_name pr_title pr_description p
  = (Raise e,
     failed (called p (messages_request self
                         (_build_prompt xml_content focus_areas repo_name pr_title
                            pr_description))) e).
Proof.
  intros Hpost. unfold analyze_code, post, logger. run_m.
  rewrite Hpost. reflexivity.
Qed.

(** X19.  Whatever the endpoint answers and whatever the decoder does,
    [analyze_code] sends exactly one request: the POST of the prompt to the
    messages endpoint, with a timeout of 120 seconds. *)
Theorem analyze_code_one_request (self : Analyzer) (xml_content : pystr)
    (focus_areas : option (list pystr)) (repo_name pr_title pr_description : option pystr)
    (p : Process) :
  exists request,
    sent (snd (analyze_code self xml_content focus_areas repo_name pr_title
                 pr_description p))
    = sent p ++ [request]
    /\ request = messages_request self
                   (_build_prompt xml_content focus_areas repo_name pr_title
                      pr_description)
    /\ url request = py "https://api.anthropic.com/v1/messages"
    /\ timeout request = 120%Z.
Proof.
  eexists. split; [|split; [reflexivity|split; reflexivity]].
  destruct (http_post (messages_request self
                         (_build_prompt xml_content focus_areas repo_name pr_title
                            pr_description))) as [response|e] eqn:Hpost.
  - destruct (Z.eq_dec (status_code response) 200) as [Hstatus|Hstatus].
    + rewrite (analyze_code_200 self xml_content focus_areas repo_name pr_title
                 pr_description p Hpost Hstatus).
      cbv zeta. destruct (reply_of (text response)).
      * rewrite parse_keeps_sent. reflexivity.
      * reflexivity.
    + unfold analyze_code, post, logger. run_m. rewrite Hpost. cbv beta iota.
      apply Z.eqb_neq in Hstatus. rewrite Hstatus. reflexivity.
  - unfold analyze_code, post, logger. run_m. rewrite Hpost. reflexivity.
Qed.

(** X20.  A reply that is not text (null, a number, a list, an object) is
    absorbed as well: the parser returns the degraded result, whose summary
    carries the error, with the value itself under [raw_response], and
    records the error once. *)
Theorem parse_reply_not_text (ai_response : PyVal) (p : Process) :
  (forall reply, ai_response <> VStr reply) ->
  let notice := py "解析 AI 回應時出錯: "
                ++ py "'" ++ type_name ai_response
                ++ py "' object has no attribute 'find'" in
  _parse_ai_response ai_response p
  = (Ret (degraded notice ai_response),
     {| log := log p ++ [(ERROR, notice)]; sent := sent p |}).
Proof.
  intros Hnot notice. subst notice.
  unfold _parse_ai_response, try_except, logger, bind, modify, raise, ret, degraded.
  destruct ai_response; try reflexivity.
  now destruct (Hnot s).
Qed.

(** X21.  A reply that holds a [```json] tag is never decoded as a whole:
    when the text after the tag is not closed by a fence, or the fenced text
    is not JSON, the result is the degraded one and the error is recorded,
    also when the reply as a whole is JSON. *)
Theorem tagged_reply_not_decoded_whole (reply : pystr) (i : nat) (p : Process) :
  occurs_at json_tag reply i ->
  (forall body, fenced reply body -> exists e, json_loads (strip body) = Raise e) ->
  exists e,
    _parse_ai_response (VStr reply) p
    = (Ret (degraded (py "解析 AI 回應時出錯: " ++ exn_text e) (VStr reply)),
       {| log := log p ++ [(ERROR, py "解析 AI 回應時出錯: " ++ exn_text e)];
          sent := sent p |}).
Proof.
  intros Hi Hfenced.
  destruct (find_cases json_tag reply) as [[_ Hnone] | (k & Hf & Hocc & Hmin)].
  - now apply Hnone in Hi.
  - destruct (tag_found_cases Hocc Hmin) as [Hr | (body & Hb & Hr)].
    + rewrite (@parse_tagged J reply k _ p Hf Hr).
      assert (Hempty : slice reply (Z.of_nat k + 7) (Z.of_nat k) = []).
      { unfold slice.
        replace (clamp_index reply (Z.of_nat k) - clamp_index reply (Z.of_nat k + 7))
          with 0; [reflexivity|].
        unfold clamp_index.
        destruct (Z.ltb_spec (Z.of_nat k) 0); [lia|].
        destruct (Z.ltb_spec (Z.of_nat k + 7) 0); lia. }
      rewrite Hempty. change (strip []) with (@nil N).
      destruct json_loads_empty as [e0 ->]. now exists e0.
    + rewrite (@parse_tagged J reply k _ p Hf Hr).
      destruct (fenced_indices Hb) as (k' & Hf' & Hr' & Hslice).
      assert (k' = k) as -> by (rewrite Hf in Hf'; lia).
      rewrite Hslice. destruct (Hfenced body Hb) as [e1 ->]. now exists e1.
Qed.

Lemma join_last (sep : pystr) (parts : list pystr) (x : pystr) :
  parts <> [] -> join sep (parts ++ [x]) = join sep parts ++ sep ++ x.
Proof.
  induction parts as [|a parts IH]; [congruence|]. intros _.
  destruct parts as [|b parts].
  - reflexivity.
  - change (join sep ((a :: b :: parts) ++ [x]))
      with (a ++ sep ++ join sep ((b :: parts) ++ [x])).
    rewrite IH by discriminate.
    change (join sep (a :: b :: parts)) with (a ++ sep ++ join sep (b :: parts)).
    now rewrite <- !app_assoc.
Qed.

Lemma truncated_document (xml_content : pystr) :
  (if (100000 <? Z.of_nat (List.length xml_content))%Z
   then slice xml_content 0 100000 else xml_content)
  = firstn (Z.to_nat 100000) xml_content.
Proof.
  destruct (Z.ltb_spec 100000 (Z.of_nat (List.length xml_content))) as [Hlong|Hshort].
  - unfold slice.
    assert (H0 : clamp_index xml_content 0 = 0).
    { unfold clamp_index. destruct (Z.ltb_spec 0 0); [lia|].
      rewrite Z.min_l by lia. reflexivity. }
    assert (H1 : clamp_index xml_content 100000 = Z.to_nat 100000).
    { unfold clamp_index. destruct (Z.ltb_spec 100000 0); [lia|].
      rewrite Z.min_l, Z.max_r by lia. reflexivity. }
    rewrite H0, H1, Nat.sub_0_r. reflexivity.
  - symmetry. apply firstn_all2. lia.
Qed.

(** X22.  The document is the last part of the prompt and only its first
    100000 characters are sent: the prompt is the prompt of the empty
    document followed by that prefix; a document of at most 100000
    characters is sent whole. *)
Theorem build_prompt_truncates (xml_content : pystr) (focus_areas : option (list pystr))
    (repo_name pr_title pr_description : option pystr) :
  _build_prompt xml_content focus_areas repo_name pr_title pr_description
  = _build_prompt [] focus_areas repo_name pr_title pr_description
    ++ firstn (Z.to_nat 100000) xml_content
  /\ ((Z.of_nat (List.length xml_content) <= 100000)%Z ->
      firstn (Z.to_nat 100000) xml_content = xml_content).
Proof.
  split.
  - unfold _build_prompt. cbv zeta.
    rewrite (truncated_document xml_content), (truncated_document []), firstn_nil.
    match goal with
    | |- join ?sep (?parts ++ [?x]) = _ =>
        assert (Hparts : parts <> []) by (apply not_eq_sym, app_cons_not_nil);
        etransitivity; [exact (@join_last sep parts x Hparts)|];
        etransitivity;
          [|apply (f_equal (fun t => t ++ x)); symmetry;
            exact (@join_last sep parts [] Hparts)]
    end.
    rewrite app_nil_r, <- !app_assoc. reflexivity.
  - intros Hshort. apply firstn_all2. lia.
Qed.

End Analysis.

(** An endpoint that answers with status 200 and a reply of one text. *)
Definition envelope (reply : pystr) : pystr :=
  py "{'content': [{'type': 'text', 'text': '" ++ reply ++ py "'}]}".

(** An endpoint that cannot be reached. *)
Definition unreachable : AIAnalyzer.Network :=
  {| AIAnalyzer.http_post := fun _ =>
       Raise (mkExn TransportError (py "All connection attempts failed")) |}.

(** X16, witness: the reply is prose; the body is decoded, the reply is
    not. *)
Lemma analyze_code_parses_reply_witness :
  exists v p',
    AIAnalyzer.analyze_code (U := latin1) (J := json_ref)
      (Net := fixed_endpoint 200
                (AIAnalyzer.double_quotes (envelope (py "Looks fine."))))
      reviewer (py "<xml/>") None None None None idle
    = (Ret v, p').
Proof.
  apply (@analyze_code_parses_reply latin1 json_ref
           (fixed_endpoint 200 (AIAnalyzer.double_quotes (envelope (py "Looks fine."))))
           reviewer (py "<xml/>") None None None None
           {| AIAnalyzer.status_code := 200;
              AIAnalyzer.text := AIAnalyzer.double_quotes (envelope (py "Looks fine.")) |}
           (VStr (py "Looks fine.")) idle eq_refl eq_refl).
  vm_compute. reflexivity.
Defined.

(** X17, witness: the body is an error object without [content]. *)
Lemma analyze_code_bad_envelope_witness :
  fst (AIAnalyzer.analyze_code (U := latin1) (J := json_ref)
         (Net := fixed_endpoint 200 (AIAnalyzer.double_quotes (py "{'error': 'busy'}")))
         reviewer (py "<xml/>") None None None None idle)
  = Raise (mkExn KeyError (py "'content'")).
Proof.
  rewrite (@analyze_code_bad_envelope latin1 json_ref
             (fixed_endpoint 200 (AIAnalyzer.double_quotes (py "{'error': 'busy'}")))
             reviewer (py "<xml/>") None None None None
             {| AIAnalyzer.status_code := 200;
                AIAnalyzer.text := AIAnalyzer.double_quotes (py "{'error': 'busy'}") |}
             (mkExn KeyError (py "'content'")) idle eq_refl eq_refl).
  - reflexivity.
  - vm_compute. reflexivity.
Defined.

(** X18, witness: no connection. *)
Lemma analyze_code_transport_error_witness :
  fst (AIAnalyzer.analyze_code (U := latin1) (J := json_ref) (Net := unreachable)
         reviewer (py "<xml/>") None None None None idle)
  = Raise (mkExn TransportError (py "All connection attempts failed")).
Proof.
  rewrite (@analyze_code_transport_error latin1 json_ref unreachable
             reviewer (py "<xml/>") None None None None
             (mkExn TransportError (py "All connection attempts failed")) idle eq_refl).
  reflexivity.
Defined.

(** X20, witness: the reply is null. *)
Lemma parse_reply_not_text_witness :
  fst (AIAnalyzer._parse_ai_response (J := json_ref) VNone idle)
  = Ret (degraded (py "解析 AI 回應時出錯: " ++ py "'" ++ type_name VNone
                   ++ py "' object has no attribute 'find'") VNone).
Proof.
  rewrite (@parse_reply_not_text json_ref VNone idle).
  - reflexivity.
  - discriminate.
Defined.

(** A reply that is JSON as a whole, a text that mentions the tag. *)
Definition quoted_tag : pystr := AIAnalyzer.double_quotes (py "'use a ```json block'").

(** X21, witness: the whole reply decodes, yet the result is the degraded
    one. *)
Lemma tagged_reply_not_decoded_whole_witness :
  json_loads (JsonLibrary := json_ref) quoted_tag = Ret (VStr (py "use a ```json block"))
  /\ exists e,
       AIAnalyzer._parse_ai_response (J := json_ref) (VStr quoted_tag) idle
       = (Ret (degraded (py "解析 AI 回應時出錯: " ++ exn_text e) (VStr quoted_tag)),
          {| AIAnalyzer.log := AIAnalyzer.log idle
                               ++ [(ERROR, py "解析 AI 回應時出錯: " ++ exn_text e)];
             AIAnalyzer.sent := AIAnalyzer.sent idle |}).
Proof.
  split; [vm_compute; reflexivity|].
  apply (@tagged_reply_not_decoded_whole json_ref quoted_tag 7 idle).
  - exists (firstn 7 quoted_tag), (skipn 14 quoted_tag). split; reflexivity.
  - intros body (pre & post & E & Hfirst & Hlast). exfalso.
    assert (Hup : forall j, occurs_at fence quoted_tag j -> j <= 7)
      by (apply rfind_upper_bound; vm_compute; reflexivity).
    assert (Hlow : forall j, occurs_at json_tag quoted_tag j -> 7 <= j)
      by (apply find_lower_bound; vm_compute; reflexivity).
    assert (Hpre : 7 <= List.length pre).
    { apply Hlow. exists pre, (body ++ fence ++ post). split; [exact E | reflexivity]. }
    assert (Hfence : List.length pre + 7 + List.length body <= 7).
    { apply Hup. exists (pre ++ json_tag ++ body), post. split.
      - rewrite E, <- !app_assoc. reflexivity.
      - rewrite !length_app. change (List.length json_tag) with 7. lia. }
    lia.
Defined.

(** ** config_manager.py: keys of the merge, loading *)

Section ConfigLoading.
Import ConfigManager.
Context {F : ConfigFiles}.

Lemma setitem_keys (d : PyDict) (k : pystr) (v : PyVal) :
  (In k (map fst d) -> map fst (setitem d k v) = map fst d)
  /\ (~ In k (map fst d) -> map fst (setitem d k v) = map fst d ++ [k]).
Proof.
  induction d as [|[k' v'] d [IH1 IH2]]; cbn [setitem map fst In app].
  - split; [intros [] | reflexivity].
  - destruct (str_eqb k' k) eqn:E; cbn [map fst].
    + apply str_eqb_eq in E as ->. split; [reflexivity | tauto].
    + apply str_eqb_neq in E. split.
      * intros [H | H]; [contradiction | now rewrite IH1].
      * intros H. rewrite IH2 by tauto. reflexivity.
Qed.

Lemma merge_step (d u : PyDict) (k : pystr) (v : PyVal) :
  _merge_configs d ((k, v) :: u)
  = _merge_configs (setitem d k (merged_value (lookup k d) v)) u.
Proof. rewrite !_merge_configs_unfold. cbn [fold_left]. now rewrite merge_item_setitem. Qed.

Lemma key_dec (a b : pystr) : {a = b} + {a <> b}.
Proof. apply list_eq_dec, N.eq_dec. Qed.

Lemma key_in_dec (k : pystr) (l : list pystr) : {In k l} + {~ In k l}.
Proof. apply in_dec, key_dec. Qed.

(** No key is lost in a merge. *)
Lemma merge_keeps_keys (u d : PyDict) (k : pystr) :
  In k (map fst d) -> In k (map fst (_merge_configs d u)).
Proof.
  revert d. induction u as [|[k1 v1] u IH]; intros d Hk; [exact Hk|].
  rewrite merge_step. apply IH.
  destruct (key_in_dec k1 (map fst d)) as [Hin | Hout].
  - now rewrite (proj1 (setitem_keys d k1 _) Hin).
  - rewrite (proj2 (setitem_keys d k1 _) Hout). apply in_or_app. now left.
Qed.

(** X23.  The keys of a merged configuration are the keys of the defaults,
    in their order, followed by the keys that only the override has, each
    once: the merge never drops or moves a key of the defaults. *)
Theorem merge_configs_keys (default_config user_config : PyDict) :
  exists extra,
    map fst (_merge_configs default_config user_config)
    = map fst default_config ++ extra
    /\ NoDup extra
    /\ forall key,
         In key extra
         <-> In key (map fst user_config) /\ ~ In key (map fst default_config).
Proof.
  revert default_config.
  induction user_config as [|[k1 v1] u IH]; intros d.
  - exists []. rewrite app_nil_r. repeat split; try constructor; cbn; tauto.
  - rewrite merge_step.
    destruct (IH (setitem d k1 (merged_value (lookup k1 d) v1)))
      as (extra & Hkeys & Hnd & Hin).
    destruct (key_in_dec k1 (map fst d)) as [Hd | Hd].
    + rewrite (proj1 (setitem_keys d k1 _) Hd) in Hkeys, Hin.
      exists extra. split; [exact Hkeys|]. split; [exact Hnd|].
      intros key. rewrite Hin. cbn [map fst In]. split; [tauto|].
      intros [[<- | H] Hn]; tauto.
    + rewrite (proj2 (setitem_keys d k1 _) Hd) in Hkeys, Hin.
      exists (k1 :: extra). split; [now rewrite Hkeys, <- app_assoc|]. split.
      * constructor; [|exact Hnd]. intros H. apply Hin in H as [_ H].
        apply H, in_or_app. right. now left.
      * intros key. cbn [map fst In]. rewrite Hin. split.
        -- intros [<- | [H1 H2]]; [tauto|]. split; [tauto|].
           intros H. apply H2, in_or_app. now left.
        -- intros [[<- | H1] H2]; [now left|].
           destruct (key_dec k1 key) as [<- | Hne]; [now left|]. right.
           split; [exact H1|]. intros H. apply in_app_or in H as [H | [H | []]]; tauto.
Qed.

(** X24.  Loading the configuration never fails, whatever the file system
    and the YAML reader do: the result is the defaults, or the mapping of
    the file merged over the defaults with nothing logged; in both cases
    every top-level key of the defaults is there. *)
Theorem load_config_total (config_path : pystr) (log : list LogRecord) :
  exists config log',
    _load_config config_path log = (Ret config, log')
    /\ (config = default_config
        \/ exists user_config,
             yaml_safe_load config_path = Ret (VDict user_config)
             /\ config = _merge_configs default_config user_config /\ log' = log)
    /\ forall key, In key (map fst default_config) -> In key (map fst config).
Proof.
  unfold _load_config, logger. destruct (file_exists config_path); run_m.
  - destruct (yaml_safe_load config_path) as [v|e].
    + destruct (truthy v) eqn:Ht.
      * destruct v as [| | | | | |u]; cbn [merge_loaded];
          try (do 2 eexists; split; [reflexivity|]; split; [now left | tauto]).
        do 2 eexists. split; [reflexivity|]. split.
        -- right. exists u. repeat split.
        -- intros key. apply merge_keeps_keys.
      * do 2 eexists. split; [reflexivity|]. split; [now left | tauto].
    + do 2 eexists. split; [reflexivity|]. split; [now left | tauto].
  - do 2 eexists. split; [reflexivity|]. split; [now left | tauto].
Qed.

(** X25.  The defaults are the configuration when the file is absent (one
    WARNING that names the path), when it cannot be opened or read as YAML
    (one ERROR with the text of the error), when the document is empty
    (nothing logged), and when the document is not a mapping: a list, a
    text, a number (for a truthy one, one ERROR with the text of the
    [AttributeError] that the missing [items] raises; for a falsy one,
    nothing). *)
Theorem load_config_falls_back (config_path : pystr) (log : list LogRecord) :
  file_exists config_path = false
  \/ (exists e, yaml_safe_load config_path = Raise e)
  \/ (exists v, yaml_safe_load config_path = Ret v /\ forall u, v <> VDict u) ->
  exists records,
    _load_config config_path log = (Ret default_config, log ++ records)
    /\ (List.length records <= 1)%nat
    /\ (file_exists config_path = false ->
        records = [(WARNING, py "配置文件 '" ++ config_path
                             ++ py "' 不存在，使用默認配置")])
    /\ (file_exists config_path = true -> yaml_safe_load config_path = Ret VNone ->
        records = [])
    /\ (file_exists config_path = true ->
        forall e, yaml_safe_load config_path = Raise e ->
        records = [(ERROR, py "加載配置文件時出錯: " ++ exn_text e)])
    /\ (file_exists config_path = true ->
        forall v, yaml_safe_load config_path = Ret v -> (forall u, v <> VDict u) ->
        records
        = if truthy v then
            [(ERROR, py "加載配置文件時出錯: "
                     ++ py "'" ++ type_name v ++ py "' object has no attribute 'items'")]
          else []).
Proof.
  intros H. unfold _load_config, logger.
  destruct (file_exists config_path) eqn:Hex; run_m.
  - destruct H as [H | [[e He] | (v & Hv & Hnd)]]; [discriminate | |].
    + rewrite He. eexists. split; [reflexivity|].
      split; [apply Nat.le_refl|]. split; [discriminate|].
      split; [discriminate|]. split.
      * intros _ e' He'. injection He' as <-. reflexivity.
      * intros _ v Hv. discriminate Hv.
    + rewrite Hv. destruct (truthy v) eqn:Ht.
      * destruct v as [| | | | | |u]; cbn [merge_loaded];
          try (eexists; split; [reflexivity|]; split; [apply Nat.le_refl|];
               split; [discriminate|]; split; [discriminate|]; split;
               [intros _ e' He'; discriminate He'
               |intros _ v' Hv' _; injection Hv' as <-; rewrite Ht; reflexivity]).
        now destruct (Hnd u).
      * exists []. rewrite app_nil_r. split; [reflexivity|].
        split; [apply Nat.le_0_l|]. split; [discriminate|]. split; [reflexivity|].
        split.
        -- intros _ e' He'. discriminate He'.
        -- intros _ v' Hv' _. injection Hv' as <-. now rewrite Ht.
  - eexists. split; [reflexivity|]. split; [apply Nat.le_refl|].
    split; [reflexivity|]. split; [discriminate|]. split; discriminate.
Qed.

End ConfigLoading.

(** A configuration file whose document is a list, not a mapping. *)
Definition list_config_file : ConfigManager.ConfigFiles :=
  {| ConfigManager.file_exists := fun _ => true;
     ConfigManager.yaml_safe_load := fun _ => Ret (VList [VStr (py "security")]) |}.

(** X25, witness: the document is a list; the defaults, and one ERROR. *)
Lemma load_config_falls_back_witness :
  exists records,
    ConfigManager._load_config (F := list_config_file) (py ".ai-review.yml") []
    = (Ret ConfigManager.default_config, [] ++ records)
    /\ records
       = [(ERROR, py "加載配置文件時出錯: "
                  ++ py "'" ++ py "list" ++ py "' object has no attribute 'items'")].
Proof.
  assert (Hnd : forall u, VList [VStr (py "security")] <> VDict u)
    by (intros u; discriminate).
  destruct (@load_config_falls_back list_config_file (py ".ai-review.yml") []
              (or_intror (or_intror (ex_intro _ _ (conj eq_refl Hnd)))))
    as (records & Hload & _ & _ & _ & _ & Hlist).
  exists records. split; [exact Hload|].
  exact (Hlist eq_refl _ eq_refl Hnd).
Defined.

(** ** main.py: which comments are published *)

Section PublishingPolicy.
Import GitHubIntegration Main.
Context {U : UnicodeData} {G : GitHubApi}.

(** A setting of the [github] section, or its default in [main]. *)
Definition setting (github_config : PyDict) (key default : pystr) : PyVal :=
  match lookup key github_config with
  | Some v => v
  | None => VStr default
  end.

(** Whether the configuration asks for the kind of comment that the type
    [comment_type] or the placement [comment_placement] stands for. *)
Definition wanted (config : PyDict) (comment_type comment_placement : pystr) : bool :=
  match ConfigManager.get_github_config config with
  | VDict github_config =>
      is_str_val comment_type (setting github_config (py "comment_type") (py "issue"))
      || is_str_val comment_placement
           (setting github_config (py "comment_placement") (py "pr"))
  | _ => false
  end.

Definition is_issue_comment (c : ApiCall) : bool :=
  match c with
  | CreateIssueComment _ _ => true
  | _ => false
  end.

Definition noted (p : Process) (msg : pystr) : Process :=
  {| log := log p ++ [(INFO, msg)]; calls := calls p |}.

(** The step of [main], by cases on the two settings. *)
Lemma publish_review_steps (config github_config : PyDict) (self : Integration) (n : Z)
    (review : PyVal) (p : Process) :
  ConfigManager.get_github_config config = VDict github_config ->
  publish_review config self n review p
  = let p0 := noted p (py "發布審查評論") in
    let summary :=
      if wanted config (py "issue") (py "pr")
      then match post_review_comment self n review p0 with
           | (Ret _, p1) => (Ret tt, noted p1 (py "已發布 PR 評論"))
           | (Raise e, p1) => (Raise e, p1)
           end
      else (Ret tt, p0) in
    match summary with
    | (Ret _, p2) =>
        let lines :=
          if wanted config (py "review") (py "line")
          then match post_line_comments self n review p2 with
               | (Ret _, p3) => (Ret tt, noted p3 (py "已發布行級評論"))
               | (Raise e, p3) => (Raise e, p3)
               end
          else (Ret tt, p2) in
        match lines with
        | (Ret _, p4) => (Ret tt, noted p4 (py "程式碼審查完成"))
        | (Raise e, p4) => (Raise e, p4)
        end
    | (Raise e, p2) => (Raise e, p2)
    end.
Proof.
  intros Hg. unfold publish_review, wanted, setting. rewrite Hg, !dict_get_dict.
  unfold logger, noted. run_m.
  destruct (is_str_val (py "issue") _ || is_str_val (py "pr") _);
    destruct (is_str_val (py "review") _ || is_str_val (py "line") _);
    cbv beta iota zeta.
  - destruct (post_review_comment self n review _) as [[v|e] p1]; [|reflexivity].
    cbn [log calls].
    destruct (post_line_comments self n review _) as [[v'|e] p3]; reflexivity.
  - destruct (post_review_comment self n review _) as [[v|e] p1]; reflexivity.
  - destruct (post_line_comments self n review _) as [[v'|e] p3]; reflexivity.
  - reflexivity.
Qed.

(** X26.  When neither setting has one of its two known values (a typing
    slip in both, say), nothing is published and nothing fails: no platform
    call is made and the step ends as a completed review. *)
Theorem publish_review_neither (config github_config : PyDict) (self : Integration)
    (n : Z) (review : PyVal) (p : Process) :
  ConfigManager.get_github_config config = VDict github_config ->
  wanted config (py "issue") (py "pr") = false ->
  wanted config (py "review") (py "line") = false ->
  publish_review config self n review p
  = (Ret tt,
     {| log := log p ++ [(INFO, py "發布審查評論"); (INFO, py "程式碼審查完成")];
        calls := calls p |}).
Proof.
  intros Hg H1 H2. rewrite (@publish_review_steps config _ self n review p Hg).
  cbv zeta. rewrite H1, H2. unfold noted. cbn [log calls].
  now rewrite <- app_assoc.
Qed.

(** X27.  A [github] section of the file that sets [comment_type] to
    [review] and leaves [comment_placement] out keeps the default placement
    [pr] in the merged configuration: the summary comment and the line
    review are then both wanted, and the line review is attempted after a
    summary comment that succeeded. *)
Theorem publish_review_type_only (user_config github_section : PyDict)
    (self : Integration) (n : Z) (review : PyVal) (p : Process) :
  NoDup (map fst user_config) -> NoDup (map fst github_section) ->
  lookup (py "github") user_config = Some (VDict github_section) ->
  lookup (py "comment_type") github_section = Some (VStr (py "review")) ->
  lookup (py "comment_placement") github_section = None ->
  let config := ConfigManager._merge_configs ConfigManager.default_config user_config in
  wanted config (py "issue") (py "pr") = true
  /\ wanted config (py "review") (py "line") = true
  /\ forall v p1,
       post_review_comment self n review (noted p (py "發布審查評論")) = (Ret v, p1) ->
       publish_review config self n review p
       = match post_line_comments self n review (noted p1 (py "已發布 PR 評論")) with
         | (Ret _, p3) =>
             (Ret tt, noted (noted p3 (py "已發布行級評論")) (py "程式碼審查完成"))
         | (Raise e, p3) => (Raise e, p3)
         end.
Proof.
  intros Hnd Hnd' Hgithub Htype Hplace config.
  assert (Hg : ConfigManager.get_github_config config
               = VDict (ConfigManager._merge_configs
                          [(py "comment_type", VStr (py "issue"));
                           (py "comment_placement", VStr (py "pr"))] github_section)).
  { unfold ConfigManager.get_github_config, config.
    rewrite (@lookup_merge user_config ConfigManager.default_config (py "github") Hnd), Hgithub.
    reflexivity. }
  assert (Ht : lookup (py "comment_type")
                 (ConfigManager._merge_configs
                    [(py "comment_type", VStr (py "issue"));
                     (py "comment_placement", VStr (py "pr"))] github_section)
               = Some (VStr (py "review"))).
  { rewrite (@lookup_merge github_section _ (py "comment_type") Hnd'), Htype. reflexivity. }
  assert (Hp : lookup (py "comment_placement")
                 (ConfigManager._merge_configs
                    [(py "comment_type", VStr (py "issue"));
                     (py "comment_placement", VStr (py "pr"))] github_section)
               = Some (VStr (py "pr"))).
  { rewrite (@lookup_merge github_section _ (py "comment_placement") Hnd'), Hplace. reflexivity. }
  assert (H1 : wanted config (py "issue") (py "pr") = true).
  { unfold wanted, setting. rewrite Hg, Ht, Hp. reflexivity. }
  assert (H2 : wanted config (py "review") (py "line") = true).
  { unfold wanted, setting. rewrite Hg, Ht, Hp. reflexivity. }
  split; [exact H1|]. split; [exact H2|].
  intros v p1 Hsummary. rewrite (@publish_review_steps config _ self n review p Hg).
  cbv zeta. rewrite H1, H2, Hsummary.
  destruct (post_line_comments self n review _) as [[v'|e] p3]; reflexivity.
Qed.

Lemma post_review_comment_adds (self : Integration) (n : Z) (review : PyVal)
    (p : Process) :
  exists added,
    calls (snd (post_review_comment self n review p)) = calls p ++ added
    /\ existsb is_review added = false
    /\ (List.length (filter is_issue_comment added) <= 1)%nat.
Proof.
  unfold post_review_comment, get_pr, api, logger.
  destruct (repo self); run_m;
    [|exists []; rewrite app_nil_r; repeat split; apply Nat.le_0_l].
  destruct (api_answer (GetPull n)) as [pr|e]; cbn [snd calls];
    [|destruct (exn_class e); run_m; cbn [snd calls];
      exists [GetPull n]; repeat split; apply Nat.le_0_l].
  destruct (_format_review_comment review) as [comment|e]; cbn [snd calls];
    [|exists [GetPull n]; repeat split; apply Nat.le_0_l].
  exists [GetPull n; CreateIssueComment n comment].
  destruct (api_answer _); cbn [snd calls]; rewrite <- app_assoc;
    repeat split; apply Nat.le_refl.
Qed.

Lemma post_line_comments_adds (self : Integration) (n : Z) (review : PyVal)
    (p : Process) :
  exists added,
    calls (snd (post_line_comments self n review p)) = calls p ++ added
    /\ existsb is_issue_comment added = false
    /\ (List.length (filter is_review added) <= 1)%nat.
Proof.
  unfold post_line_comments, get_pr, api, logger.
  destruct (repo self); run_m;
    [|exists []; rewrite app_nil_r; repeat split; apply Nat.le_0_l].
  destruct (api_answer (GetPull n)) as [a|e]; cbn [snd calls];
    [|destruct (exn_class e); run_m; cbn [snd calls];
      exists [GetPull n]; repeat split; apply Nat.le_0_l].
  destruct (dict_get review (py "suggestions") (VList [])); cbn [snd calls];
    [|exists [GetPull n]; repeat split; apply Nat.le_0_l].
  destruct (iterate a0); cbn [snd calls];
    [|exists [GetPull n]; repeat split; apply Nat.le_0_l].
  destruct (line_comments_loop a1 []) as [[|c cs]|]; cbn [snd calls];
    [exists [GetPull n]; repeat split; apply Nat.le_0_l |
    | exists [GetPull n]; repeat split; apply Nat.le_0_l].
  destruct (dict_get review (py "overall_assessment") (VStr (py "無評估")));
    cbn [snd calls]; [|exists [GetPull n]; repeat split; apply Nat.le_0_l].
  destruct (dict_get review (py "summary") (VStr (py "無總結")));
    cbn [snd calls]; [|exists [GetPull n]; repeat split; apply Nat.le_0_l].
  destruct (concat_str _ a3); cbn [snd calls];
    [|exists [GetPull n]; repeat split; apply Nat.le_0_l].
  exists [GetPull n; CreateReview n a4 (py "COMMENT") (c :: cs)].
  destruct (api_answer _); cbn [snd calls]; rewrite <- app_assoc;
    repeat split; apply Nat.le_refl.
Qed.

(** X28.  Whatever the configuration, the review result and the platform,
    the step publishes only what is configured: a summary comment is
    created only if the type is [issue] or the placement is [pr], a review
    is submitted only if the type is [review] or the placement is [line],
    and a run creates at most one of each. *)
Theorem publish_review_only_configured (config : PyDict) (self : Integration) (n : Z)
    (review : PyVal) (p : Process) :
  exists added,
    calls (snd (publish_review config self n review p)) = calls p ++ added
    /\ (existsb is_issue_comment added = true ->
        wanted config (py "issue") (py "pr") = true)
    /\ (existsb is_review added = true ->
        wanted config (py "review") (py "line") = true)
    /\ (List.length (filter is_issue_comment added) <= 1)%nat
    /\ (List.length (filter is_review added) <= 1)%nat.
Proof.
  destruct (ConfigManager.get_github_config config) as [| | | | | |g] eqn:Hg;
    try (exists []; rewrite app_nil_r; unfold publish_review; rewrite Hg;
         repeat split; try discriminate; apply Nat.le_0_l).
  rewrite (@publish_review_steps config _ self n review p Hg). cbv zeta.
  destruct (post_review_comment_adds self n review (noted p (py "發布審查評論")))
    as (a1 & Ha1 & Hr1 & Hc1).
  destruct (wanted config (py "issue") (py "pr")) eqn:W1.
  - destruct (post_review_comment self n review (noted p (py "發布審查評論")))
      as [[v|e] p1]; cbn [snd] in Ha1.
    + destruct (post_line_comments_adds self n review (noted p1 (py "已發布 PR 評論")))
        as (a2 & Ha2 & Hi2 & Hc2).
      destruct (wanted config (py "review") (py "line")) eqn:W2.
      * destruct (post_line_comments self n review (noted p1 (py "已發布 PR 評論")))
          as [[v'|e] p3]; cbn [snd] in Ha2; cbn [snd noted calls] in *;
          (exists (a1 ++ a2); rewrite Ha2, Ha1, <- app_assoc;
           rewrite !filter_app, !length_app, !existsb_app;
           assert (Hf1 : filter is_review a1 = [])
             by (clear - Hr1; induction a1 as [|c l IH]; [reflexivity|];
                 cbn in *; destruct (is_review c); [discriminate | now apply IH]);
           assert (Hf2 : filter is_issue_comment a2 = [])
             by (clear - Hi2; induction a2 as [|c l IH]; [reflexivity|];
                 cbn in *; destruct (is_issue_comment c); [discriminate | now apply IH]);
           rewrite Hf1, Hf2; cbn [List.length];
           repeat split; try reflexivity; lia).
      * cbn [snd noted calls] in *. exists a1. rewrite Ha1.
        repeat split; try reflexivity; try assumption.
        -- rewrite Hr1. discriminate.
        -- clear - Hr1. induction a1 as [|c l IH]; [apply Nat.le_0_l|].
           cbn in *. destruct (is_review c); [discriminate | now apply IH].
    + cbn [snd noted calls] in *. exists a1. rewrite Ha1.
      repeat split; try reflexivity; try assumption.
      * rewrite Hr1. discriminate.
      * clear - Hr1. induction a1 as [|c l IH]; [apply Nat.le_0_l|].
        cbn in *. destruct (is_review c); [discriminate | now apply IH].
  - destruct (post_line_comments_adds self n review (noted p (py "發布審查評論")))
      as (a2 & Ha2 & Hi2 & Hc2).
    destruct (wanted config (py "review") (py "line")) eqn:W2.
    + destruct (post_line_comments self n review (noted p (py "發布審查評論")))
        as [[v'|e] p3]; cbn [snd] in Ha2; cbn [snd noted calls] in *;
        (exists a2; rewrite Ha2; repeat split; try reflexivity; try assumption;
         [rewrite Hi2; discriminate |
          clear - Hi2; induction a2 as [|c l IH]; [apply Nat.le_0_l|];
          cbn in *; destruct (is_issue_comment c); [discriminate | now apply IH]]).
    + cbn [snd noted calls]. exists []. rewrite app_nil_r.
      repeat split; try discriminate; apply Nat.le_0_l.
Qed.

End PublishingPolicy.

(** X26, witness: both settings misspelt. *)
Lemma publish_review_neither_witness :
  GitHubIntegration.calls
    (snd (Main.publish_review (U := latin1) (G := willing_platform)
            [(py "github", VDict [(py "comment_type", VStr (py "reviews"));
                                  (py "comment_placement", VStr (py "lines"))])]
            integration 7 (VDict one_line_review) github_idle))
  = [].
Proof.
  rewrite (@publish_review_neither latin1 willing_platform
             [(py "github", VDict [(py "comment_type", VStr (py "reviews"));
                                   (py "comment_placement", VStr (py "lines"))])]
             [(py "comment_type", VStr (py "reviews"));
              (py "comment_placement", VStr (py "lines"))]
             integration 7 (VDict one_line_review) github_idle
             eq_refl eq_refl eq_refl).
  reflexivity.
Defined.

(** X27, witness: the file holds [github: {comment_type: review}]. *)
Lemma publish_review_type_only_witness :
  wanted (ConfigManager._merge_configs ConfigManager.default_config
            [(py "github", VDict [(py "comment_type", VStr (py "review"))])])
    (py "issue") (py "pr") = true
  /\ wanted (ConfigManager._merge_configs ConfigManager.default_config
               [(py "github", VDict [(py "comment_type", VStr (py "review"))])])
       (py "review") (py "line") = true.
Proof.
  assert (Hnd : forall (k : pystr), NoDup [k])
    by (intros k; constructor; [intros [] | constructor]).
  pose proof (@publish_review_type_only latin1 willing_platform
                [(py "github", VDict [(py "comment_type", VStr (py "review"))])]
                [(py "comment_type", VStr (py "review"))]
                integration 7 (VDict one_line_review) github_idle
                (Hnd _) (Hnd _) eq_refl eq_refl eq_refl) as H.
  cbv zeta in H. split; [exact (proj1 H) | exact (proj1 (proj2 H))].
Defined.

(** ** repomix_handler.py: the check of the tool *)

Section ToolCheck.
Import RepomixHandler.
Context {U : UnicodeData} {OS : OperatingSystem}.

(** X29.  The check of the tool answers [True] exactly when the version
    command could be started and exited with status 0; a non-zero exit or a
    missing executable gives [False] with one WARNING and no error.  The
    check leaves the working directory alone and never fails on these
    outcomes. *)
Theorem check_repomix_installed_answer (self : Handler) (p : Process)
    (r : outcome Z) (m : Machine) :
  os_run (machine p) (cwd p) [py "npx"; py "repomix"; py "--version"] = (r, m) ->
  (forall e, r = Raise e -> exn_class e = FileNotFoundError) ->
  let installed := match r with Ret 0%Z => true | _ => false end in
  check_repomix_installed self p
  = (Ret installed,
     {| log := log p ++ (if installed then []
                         else [(WARNING, py "Repomix 未安裝，將嘗試使用 npx 運行")]);
        cwd := cwd p; machine := m |}).
Proof.
  intros Hrun Hclass installed. subst installed.
  unfold check_repomix_installed, subprocess_run_checked, logger. run_m.
  rewrite Hrun. destruct r as [status|e].
  - destruct status as [|s|s]; cbn [Z.eqb exn_class log cwd machine];
      rewrite ?app_nil_r; reflexivity.
  - rewrite (Hclass e eq_refl). reflexivity.
Qed.

End ToolCheck.

(** X29, witness: the version command exits with status 1. *)
Lemma check_repomix_installed_answer_witness :
  fst (RepomixHandler.check_repomix_installed (U := latin1)
         (OS := scripted_os 1 false (py "/none")) srv_repo
         (ci_home (scripted_os 1 false (py "/none")) false))
  = Ret false.
Proof.
  rewrite (@check_repomix_installed_answer latin1 (scripted_os 1 false (py "/none"))
             srv_repo (ci_home (scripted_os 1 false (py "/none")) false)
             (Ret 1%Z) true eq_refl).
  - reflexivity.
  - discriminate.
Defined.

(** ** config_manager.py: the shape of focus tags *)

Section TagShape.
Import ConfigManager.
Context {U : UnicodeData}.

(** A greedy repetition whose continuation accepts every rest stops after a
    run of characters of the class. *)
Lemma star_accepting {R} (c : Re.CharClass) (s : pystr) (f : pystr -> R) :
  exists run rest,
    s = run ++ rest
    /\ Forall (fun x => Re.in_class c x = true) run
    /\ Re.star c s (fun s' => Some (f s')) = Some (f rest).
Proof.
  induction s as [|x r (run & rest & E & Hrun & Hstar)].
  - exists [], []. repeat split. constructor.
  - cbn [Re.star]. destruct (Re.in_class c x) eqn:Hx.
    + exists (x :: run), rest. rewrite Hstar, E. repeat split. now constructor.
    + exists [], (x :: r). repeat split. constructor.
Qed.

(** A match of the tag pattern captures one group: a non-empty run of word
    characters. *)
Lemma tag_pattern_capture (s rest : pystr) (caps : list pystr) :
  Re.rmatch tag_pattern s [] (fun s' caps' => Some (caps', s')) = Some (caps, rest) ->
  exists tag,
    caps = [tag] /\ tag <> [] /\ Forall (fun c => is_word c = true) tag.
Proof.
  unfold tag_pattern. cbn [Re.rmatch].
  destruct (startswith (py "#") s) eqn:Hhash; [|discriminate].
  destruct (skipn (List.length (py "#")) s) as [|x r]; [discriminate|].
  destruct (Re.in_class Re.Word x) eqn:Hx; [|discriminate].
  destruct (star_accepting Re.Word r
              (fun s' => ([] ++ [firstn (List.length (x :: r) - List.length s') (x :: r)],
                          s')))
    as (run & rest' & E & Hrun & Hstar).
  intros Hm. pose proof (eq_trans (eq_sym Hstar) Hm) as Hcaps.
  injection Hcaps as <- <-. exists (x :: run). split; [|split].
  - cbn [app]. f_equal. rewrite E.
    assert (Hpre : forall a b : list N,
               firstn (List.length (a ++ b) - List.length b) (a ++ b) = a).
    { intros a b. rewrite length_app.
      replace (List.length a + List.length b - List.length b) with (List.length a) by lia.
      induction a as [|y a IH]; cbn [List.length firstn app];
        [now destruct b | now f_equal]. }
    exact (Hpre (x :: run) rest').
  - discriminate.
  - constructor; [exact Hx | exact Hrun].
Qed.

Lemma findall_tag_captures (fuel : nat) (s : pystr) :
  Forall (fun caps => exists tag,
            caps = [tag] /\ tag <> [] /\ Forall (fun c => is_word c = true) tag)
    (Re.findall_from fuel tag_pattern s).
Proof.
  revert s. induction fuel as [|fuel IH]; intros s; cbn [Re.findall_from].
  - constructor.
  - destruct (Re.rmatch tag_pattern s [] (fun s' caps => Some (caps, s')))
      as [[caps rest]|] eqn:Hm.
    + constructor; [now apply (tag_pattern_capture s Hm) | apply IH].
    + destruct s; [constructor | apply IH].
Qed.

(** X30.  Every tag that [parse_pr_focus] returns, for any description, is
    a non-empty run of word characters (letters, digits, underscore): a tag
    never holds the [#], a blank, a hyphen or other punctuation, so a token
    such as [#code-quality] gives the tag [code]. *)
Theorem parse_pr_focus_word_tags (pr_description : option pystr) (tag : pystr) :
  In tag (parse_pr_focus pr_description) ->
  tag <> [] /\ Forall (fun c => is_word c = true) tag.
Proof.
  unfold parse_pr_focus. destruct pr_description as [[|c d]|]; try contradiction.
  destruct (Re.search focus_pattern (c :: d)) as [focus_match|]; [|contradiction].
  cbv zeta. unfold Re.findall. intros Hin. apply in_map_iff in Hin as (caps & <- & Hin).
  pose proof (findall_tag_captures
                (S (List.length (strip (Re.group1 focus_match))))
                (strip (Re.group1 focus_match))) as Hall.
  rewrite Forall_forall in Hall. destruct (Hall caps Hin) as (t & -> & Hne & Hw).
  now split.
Qed.

End TagShape.

(** X30, witness: a hyphenated token. *)
Lemma parse_pr_focus_word_tags_witness :
  ConfigManager.parse_pr_focus (U := latin1)
    (Some (py "AI-REVIEW-FOCUS: #code-quality")) = [py "code"]
  /\ py "code" <> []
  /\ Forall (fun c => is_word (U := latin1) c = true) (py "code").
Proof.
  split; [vm_compute; reflexivity|].
  apply (@parse_pr_focus_word_tags latin1 (Some (py "AI-REVIEW-FOCUS: #code-quality"))).
  vm_compute. left. reflexivity.
Defined.
